(** * Router DNS configurator: embedding of [index.js] and of its earlier
      revision, and the properties of its heuristic engine.

    The program drives a browser-automation engine (Puppeteer).  The
    embedding has two layers.

    - In-page scripts (the callbacks handed to [evaluate]) are pure
      functions over a model of the document: a list of elements in
      document order, with attributes, value, text and the events that
      were dispatched on each element.
    - The automation code itself (the [async] functions) lives in a
      state-and-exception monad over an arbitrary engine; every engine
      call is appended to a log, which is how clicks, typing and script
      runs are observed.

    Strings are compared with ASCII case folding and ASCII white space;
    fixed delays are kept as numbers handed to the engine. *)

From Stdlib Require Import String Ascii List Bool Arith NArith ZArith Lia.
Import ListNotations.
Local Open Scope string_scope.
Local Open Scope list_scope.

Set Implicit Arguments.

(** ** JavaScript string helpers *)

Module Js.

Definition lower_ascii (c : ascii) : ascii :=
  let n := nat_of_ascii c in
  if ((65 <=? n) && (n <=? 90))%nat then ascii_of_nat (n + 32) else c.

(** [s.toLowerCase()] on ASCII text; a letter outside ASCII is left as it
    is, so the embedding is exact on strings that pass [Scope.ascii] *)
Fixpoint toLowerCase (s : string) : string :=
  match s with
  | EmptyString => EmptyString
  | String c r => String (lower_ascii c) (toLowerCase r)
  end.

(** the ASCII characters [\s] and [trim] treat as white space *)
Definition is_space (c : ascii) : bool :=
  let n := nat_of_ascii c in
  ((n =? 32) || ((9 <=? n) && (n <=? 13)))%nat.

Fixpoint trimStart (s : string) : string :=
  match s with
  | EmptyString => EmptyString
  | String c r => if is_space c then trimStart r else s
  end.

Fixpoint rev_string (acc s : string) : string :=
  match s with
  | EmptyString => acc
  | String c r => rev_string (String c acc) r
  end.

Definition trimEnd (s : string) : string :=
  rev_string "" (trimStart (rev_string "" s)).

(** [s.trim()] *)
Definition trim (s : string) : string := trimEnd (trimStart s).

(** [hay.includes(needle)] *)
Fixpoint includes (needle hay : string) : bool :=
  String.prefix needle hay ||
  match hay with
  | EmptyString => false
  | String _ r => includes needle r
  end.

(** truthiness of a string: [!!s] *)
Definition truthy (s : string) : bool := negb (s =? "").

(** [a || b] on strings *)
Definition orElse (a b : string) : string := if truthy a then a else b.

(** [/p1|p2|.../.test(s)]: some alternative occurs in [s] *)
Definition test_any (alts : list string) (s : string) : bool :=
  existsb (fun p => includes p s) alts.

(** [/p1|p2|.../i.test(s)] for lower-case literal alternatives *)
Definition test_any_i (alts : list string) (s : string) : bool :=
  test_any alts (toLowerCase s).

(** [/a\s*b\s*c/i.test(s)]: the words in order, separated by any amount of
    white space, somewhere in [s] *)
Fixpoint words_at (ws : list string) (s : string) : bool :=
  match ws with
  | [] => true
  | w :: ws' =>
      String.prefix w s &&
      words_at ws' (trimStart (substring (String.length w)
                                 (String.length s - String.length w) s))
  end.

Fixpoint words_anywhere (ws : list string) (s : string) : bool :=
  words_at ws s ||
  match s with
  | EmptyString => false
  | String _ r => words_anywhere ws r
  end.

Definition test_words_i (ws : list string) (s : string) : bool :=
  words_anywhere ws (toLowerCase s).

End Js.

(** ** The document model *)

Module Dom.

Record Element := mkElement {
  tag : string;                       (* tag name, lower case *)
  attrs : list (string * string);     (* HTML attributes *)
  value : string;                     (* the [value] property *)
  innerText : string;
  textContent : string;
  parent : option nat;                (* index of the parent element *)
  offsetParent : bool;                (* [el.offsetParent] is not null *)
  fixedVisible : bool;                (* position fixed and visibility not hidden *)
  options : list (string * string);   (* of a select: (textContent, value) *)
  events : list string                (* event types dispatched on the element *)
}.

Record Document := mkDocument {
  nodes : list Element;               (* document order *)
  activeElement : option nat;         (* set by [focus()] *)
  applyConfig : option bool;          (* the global function [ApplyConfig]: absent,
                                         or present and returning normally ([true])
                                         or throwing ([false]) *)
  invoked : list string;              (* global functions the scripts called *)
  autoDialogs : bool                  (* alert/confirm/prompt were overridden *)
}.

Fixpoint assoc (k : string) (l : list (string * string)) : option string :=
  match l with
  | [] => None
  | (k', v) :: r => if k =? k' then Some v else assoc k r
  end.

(** [el.getAttribute(k)] *)
Definition getAttribute (k : string) (e : Element) : option string :=
  assoc k (attrs e).

Definition prop (k : string) (e : Element) : string :=
  match getAttribute k e with Some v => v | None => "" end.

(** [el.id], [el.name], [el.className] *)
Definition id (e : Element) : string := prop "id" e.
Definition name (e : Element) : string := prop "name" e.
Definition className (e : Element) : string := prop "class" e.

Definition node (d : Document) (i : nat) : option Element := nth_error (nodes d) i.

Fixpoint update_nth (l : list Element) (i : nat) (f : Element -> Element) : list Element :=
  match l, i with
  | [], _ => []
  | e :: r, O => f e :: r
  | e :: r, S j => e :: update_nth r j f
  end.

Definition update (d : Document) (i : nat) (f : Element -> Element) : Document :=
  mkDocument (update_nth (nodes d) i f) (activeElement d) (applyConfig d)
    (invoked d) (autoDialogs d).

(** [el.focus()] *)
Definition focus (i : nat) (d : Document) : Document :=
  mkDocument (nodes d) (Some i) (applyConfig d) (invoked d) (autoDialogs d).

(** [el.value = v] on an element that keeps what it is given, as a text
    input does with a single-line value *)
Definition setValue (i : nat) (v : string) (d : Document) : Document :=
  update d i (fun e => mkElement (tag e) (attrs e) v (innerText e) (textContent e)
                         (parent e) (offsetParent e) (fixedVisible e) (options e)
                         (events e)).

(** [el.dispatchEvent(new Event(ty, { bubbles: true }))], and [el.click()]
    with [ty = "click"]: the element's record of received events grows *)
Definition dispatchEvent (i : nat) (ty : string) (d : Document) : Document :=
  update d i (fun e => mkElement (tag e) (attrs e) (value e) (innerText e) (textContent e)
                         (parent e) (offsetParent e) (fixedVisible e) (options e)
                         (events e ++ [ty])).

Definition click (i : nat) (d : Document) : Document := dispatchEvent i "click" d.

(** indices of the elements satisfying [p], in document order:
    [document.querySelectorAll] for a selector whose meaning is [p] *)
Fixpoint select_from (p : Element -> bool) (base : nat) (l : list Element) : list nat :=
  match l with
  | [] => []
  | e :: r => if p e then base :: select_from p (S base) r else select_from p (S base) r
  end.

Definition querySelectorAll (p : Element -> bool) (d : Document) : list nat :=
  select_from p 0 (nodes d).

Definition querySelector (p : Element -> bool) (d : Document) : option nat :=
  hd_error (querySelectorAll p d).

(** [a] is a proper ancestor of [i] *)
Fixpoint has_ancestor (fuel : nat) (d : Document) (a i : nat) : bool :=
  match fuel with
  | O => false
  | S f =>
      match node d i with
      | Some e =>
          match parent e with
          | Some p => (p =? a)%nat || has_ancestor f d a p
          | None => false
          end
      | None => false
      end
  end.

(** [root.querySelector(sel)] for an element [root] *)
Definition querySelectorUnder (root : nat) (p : Element -> bool) (d : Document) : option nat :=
  List.find (fun i => has_ancestor (List.length (nodes d)) d root i) (querySelectorAll p d).

(** [document.getElementById(x)] *)
Definition getElementById (x : string) (d : Document) : option nat :=
  querySelector (fun e => match getAttribute "id" e with
                          | Some v => v =? x
                          | None => false
                          end) d.

Definition is_tag (t : string) (e : Element) : bool := tag e =? t.

(** the attribute exists and equals [v]; [type] values compare without case *)
Definition attr_is (k v : string) (e : Element) : bool :=
  match getAttribute k e with
  | Some x => if k =? "type" then Js.toLowerCase x =? v else x =? v
  | None => false
  end.

Definition has_attr (k : string) (e : Element) : bool :=
  match getAttribute k e with Some _ => true | None => false end.

(** [k*="v"] and [k*="v" i] *)
Definition attr_contains (k v : string) (e : Element) : bool :=
  match getAttribute k e with Some x => Js.includes v x | None => false end.

Definition attr_contains_i (k v : string) (e : Element) : bool :=
  match getAttribute k e with
  | Some x => Js.includes (Js.toLowerCase v) (Js.toLowerCase x)
  | None => false
  end.

End Dom.

(** ** The in-page scripts

    Each definition is the callback passed to [evaluate] in the function of
    the same name; it returns the callback's result and the document as the
    callback leaves it. *)

Module Script.
Import Dom.

Definition blob (e : Element) : string :=
  Js.orElse (id e) "" ++ " " ++ Js.orElse (name e) "" ++ " " ++ Js.orElse (className e) "".

Definition looksLikeDns (e : Element) : bool :=
  Js.includes "dns" (Js.toLowerCase (blob e)).

(** [input[type="text"], input[type="tel"], input:not([type])] *)
Definition textLikeInput (e : Element) : bool :=
  is_tag "input" e &&
  (attr_is "type" "text" e || attr_is "type" "tel" e || negb (has_attr "type" e)).

(** [setVal] of [setDnsByHeuristic] *)
Definition setVal (el : option nat) (v : string) (d : Document) : bool * Document :=
  match el with
  | None => (false, d)
  | Some i =>
      let d := focus i d in
      let d := setValue i "" d in
      let d := dispatchEvent i "input" d in
      let d := setValue i v d in
      let d := dispatchEvent i "input" d in
      let d := dispatchEvent i "change" d in
      (true, d)
  end.

Definition orElseNode (a b : option nat) : option nat :=
  match a with Some _ => a | None => b end.

Definition setDnsByHeuristic (dns1 dns2 : string) (d : Document)
  : (bool * bool) * Document :=
  let inputs := List.filter (fun i => match node d i with
                                      | Some e => looksLikeDns e
                                      | None => false
                                      end)
                            (querySelectorAll textLikeInput d) in
  match inputs with
  | [] => ((false, negb (Js.truthy dns2)), d)
  | first :: _ =>
      let pick (alts : list string) :=
        List.find (fun i => match node d i with
                            | Some e => Js.test_any_i alts (blob e)
                            | None => false
                            end) inputs in
      let pri := orElseNode (pick ["pri"; "primary"; "dns1"; "pref"]) (Some first) in
      let sec :=
        if Js.truthy dns2
        then orElseNode (pick ["sec"; "secondary"; "dns2"; "alt"])
               (List.find (fun i => negb (match pri with
                                          | Some p => (i =? p)%nat
                                          | None => false
                                          end)) inputs)
        else None in
      let '(ok1, d1) := setVal pri dns1 d in
      let '(ok2, d2) := if Js.truthy dns2 then setVal sec dns2 d1 else (true, d1) in
      ((ok1, ok2), d2)
  end.

(** the loop over the labels in [setInputByLabel] *)
Fixpoint setInputByLabel_loop (labelText value : string) (labels : list nat)
    (d : Document) : bool * Document :=
  match labels with
  | [] => (false, d)
  | l :: rest =>
      match node d l with
      | Some le =>
          if Js.truthy (textContent le) &&
             Js.includes (Js.toLowerCase labelText)
               (Js.toLowerCase (Js.trim (textContent le)))
          then
            let input0 :=
              match getAttribute "for" le with
              | Some forId => if Js.truthy forId then getElementById forId d else None
              | None => None
              end in
            let input1 := orElseNode input0 (querySelectorUnder l (is_tag "input") d) in
            let input2 :=
              match input1, parent le with
              | None, Some p => querySelectorUnder p (is_tag "input") d
              | _, _ => input1
              end in
            match input2 with
            | Some i =>
                let d := focus i d in
                let d := setValue i "" d in
                let d := dispatchEvent i "input" d in
                let d := setValue i value d in
                let d := dispatchEvent i "input" d in
                (true, d)
            | None => setInputByLabel_loop labelText value rest d
            end
          else setInputByLabel_loop labelText value rest d
      | None => setInputByLabel_loop labelText value rest d
      end
  end.

Definition setInputByLabel (labelText value : string) (d : Document) : bool * Document :=
  setInputByLabel_loop labelText value (querySelectorAll (is_tag "label") d) d.

(** the text and value tests shared by the text matchers *)
Definition textMatches (needle : string) (e : Element) : bool :=
  let inner := Js.toLowerCase (Js.trim (Js.orElse (innerText e)
                                          (Js.orElse (textContent e) ""))) in
  let val := Js.toLowerCase (Js.trim (Js.orElse (value e) "")) in
  Js.includes needle inner || Js.includes needle val.

Definition find_node (p : Element -> bool) (d : Document) (l : list nat) : option nat :=
  List.find (fun i => match node d i with Some e => p e | None => false end) l.

(** [button, input[type="submit"], a, [role="button"]] *)
Definition clickable (e : Element) : bool :=
  is_tag "button" e || (is_tag "input" e && attr_is "type" "submit" e) ||
  is_tag "a" e || attr_is "role" "button" e.

Definition clickByText (t : string) (d : Document) : bool * Document :=
  let needle := Js.toLowerCase t in
  match find_node (textMatches needle) d (querySelectorAll clickable d) with
  | Some i => (true, click i d)
  | None =>
      match find_node (textMatches needle) d (querySelectorAll (fun _ => true) d) with
      | Some i => (true, click i d)
      | None => (false, d)
      end
  end.

(** [button, input[type="submit"], a, [role="button"], li, span, div] *)
Definition clickableInContext (e : Element) : bool :=
  clickable e || is_tag "li" e || is_tag "span" e || is_tag "div" e.

Definition isVisible (e : Element) : bool := offsetParent e || fixedVisible e.

Definition clickByTextInContext (n : string) (d : Document) : bool * Document :=
  match find_node (fun e => isVisible e && textMatches n e) d
          (querySelectorAll clickableInContext d) with
  | Some i => (true, click i d)
  | None => (false, d)
  end.

(** the in-page part of [ensureManualDns]: the first option of a DNS-mode
    select that reads manual or static is chosen *)
Definition setSelect (i : nat) (v : string) (d : Document) : Document :=
  dispatchEvent i "change" (setValue i v d).

Definition manualOption (o : string * string) : bool :=
  Js.test_any_i ["manual"; "static"] (fst o) || Js.test_any_i ["manual"] (snd o).

Definition dnsModeSelect (e : Element) : bool :=
  Js.test_any ["dns"] (Js.orElse (name e) "" ++ Js.orElse (id e) "") ||
  Js.test_any_i ["automatic"; "manual"] (innerText e).

Fixpoint ensureManualDns_loop (sels : list nat) (d : Document) : bool * Document :=
  match sels with
  | [] => (false, d)
  | s :: rest =>
      match node d s with
      | Some e =>
          if dnsModeSelect e then
            match List.find manualOption (options e) with
            | Some o => (true, setSelect s (snd o) d)
            | None => ensureManualDns_loop rest d
            end
          else ensureManualDns_loop rest d
      | None => ensureManualDns_loop rest d
      end
  end.

Definition ensureManualDns (d : Document) : bool * Document :=
  ensureManualDns_loop (querySelectorAll (is_tag "select") d) d.

(** the title test of [navigateToDns] *)
Definition dhcpTitle (d : Document) : bool :=
  match querySelector (attr_is "id" "dhcp2title") d with
  | Some i =>
      match node d i with
      | Some e => Js.test_words_i ["dhcp"; "server"; "configuration"]
                    (Js.orElse (innerText e) (Js.orElse (textContent e) ""))
      | None => false
      end
  | None => false
  end.

(** the dialog overrides of [saveChanges] *)
Definition overrideDialogs (d : Document) : Document :=
  mkDocument (nodes d) (activeElement d) (applyConfig d) (invoked d) true.

(** the last resort of [saveChanges]: [None] when the call throws *)
Definition callApplyConfig (d : Document) : option bool * Document :=
  match applyConfig d with
  | Some returns =>
      let d' := mkDocument (nodes d) (activeElement d) (applyConfig d)
                  (invoked d ++ ["ApplyConfig"]) (autoDialogs d) in
      (if returns then Some true else None, d')
  | None => (Some false, d)
  end.

(** the selectors that are queried inside the page; an id is compared
    exactly, as in a document in standards mode *)
Inductive Selector :=
| ById (i : string)                       (* [#i] *)
| InputAttrIs (k v : string)              (* [input[k="v"]] *)
| InputAttrHas (k v : string).            (* [input[k*="v" i]] *)

Definition matches (s : Selector) (e : Element) : bool :=
  match s with
  | ById i => attr_is "id" i e
  | InputAttrIs k v => is_tag "input" e && attr_is k v e
  | InputAttrHas k v => is_tag "input" e && attr_contains_i k v e
  end.

Definition primarySels : list Selector :=
  [ ById "dnsMainPri"; InputAttrIs "name" "dnsMainPri"; InputAttrHas "id" "dnsMainPri";
    InputAttrHas "id" "dnspri"; InputAttrHas "name" "dnspri";
    ById "PrimaryDNSServer"; InputAttrIs "name" "PrimaryDNSServer";
    ById "primary_dns"; InputAttrIs "name" "primary_dns";
    InputAttrIs "name" "dns1"; ById "dns1" ].

Definition secondarySels : list Selector :=
  [ ById "dnsMainSec"; InputAttrIs "name" "dnsMainSec"; InputAttrHas "id" "dnsMainSec";
    InputAttrHas "id" "dnssec"; InputAttrHas "name" "dnssec";
    ById "SecondaryDNSServer"; InputAttrIs "name" "SecondaryDNSServer";
    ById "secondary_dns"; InputAttrIs "name" "secondary_dns";
    InputAttrIs "name" "dns2"; ById "dns2" ].

(** [pick] of [readDnsValuesFromFrame] *)
Fixpoint pickValue (selArr : list Selector) (d : Document) : string :=
  match selArr with
  | [] => ""
  | s :: rest =>
      match querySelector (matches s) d with
      | Some i =>
          match node d i with
          | Some e => Js.orElse (value e) ""
          | None => pickValue rest d
          end
      | None => pickValue rest d
      end
  end.

Definition readDnsValues (d : Document) : string * string :=
  (pickValue primarySels d, pickValue secondarySels d).

(** the debug dump of [setDnsValues]: id, name, class and value of every input *)
Definition inputCandidates (d : Document) : list (string * string * string * string) :=
  List.map (fun e => (id e, name e, className e, value e))
           (List.filter (is_tag "input") (nodes d)).

(** the debug report of the main routine on the labels present *)
Definition labelPresence (d : Document) : bool * bool :=
  let texts := List.map (fun e => Js.toLowerCase (Js.trim
                           (Js.orElse (innerText e) (Js.orElse (textContent e) ""))))
                        (List.filter (is_tag "label") (nodes d)) in
  (existsb (fun t => Js.includes "primary dns server" t || Js.includes "primary dns" t) texts,
   existsb (fun t => Js.includes "secondary dns server" t || Js.includes "secondary dns" t) texts).

End Script.

(** ** The automation engine and the monad of the [async] functions *)

Module Auto.

(** a browsing context: the top-level page or one of its frames *)
Inductive Ctx := Page | Frame (n : nat).

(** an element handle as returned by [ctx.$] *)
Definition Handle := nat.

(** the result of an awaited call: a value, or a rejection with its message *)
Inductive Res (A : Type) :=
| Ok (a : A)
| Throws (message : string).
Arguments Ok {A} a.
Arguments Throws {A} message.

(** the scripts handed to [evaluate], by the function that runs them *)
Inductive ScriptId :=
| SHeuristic (dns1 dns2 : string)
| SClickByText (t : string)
| SClickByTextInContext (n : string)
| SSetInputByLabel (labelText value : string)
| SEnsureManual
| STitle
| SDialogs
| SApplyConfig
| SReadDns
| SInputCandidates
| SLabelPresence.

(** the browser-automation engine.  Reads ([query], [contentFrame],
    [document], [frameUrl], [now]) leave the world as it is; everything else
    may change it.  Queries, clicks, typing, waits, navigation, scripts and
    the screenshot may reject; the pauses, the page set-up and the closing
    of the browser are taken not to. *)
Record Engine := mkEngine {
  World : Type;
  query : World -> Ctx -> string -> Res (option Handle);          (* ctx.$(sel) *)
  contentFrame : World -> Handle -> Res (option Ctx);             (* handle.contentFrame() *)
  document : World -> Ctx -> Res Dom.Document;                    (* what a script sees *)
  commit : Ctx -> ScriptId -> Dom.Document -> World -> World;     (* what a script leaves *)
  click : Handle -> nat -> World -> Res unit * World;             (* el.click({clickCount}) *)
  type : Handle -> string -> N -> World -> Res unit * World;    (* el.type(text, {delay}) *)
  sleep : N -> World -> World;
  waitForSelector : Ctx -> string -> N -> World -> Res unit * World;
  goto : string -> World -> Res unit * World;
  waitForNavigation : N -> World -> Res unit * World;
  frameUrl : World -> Ctx -> string;
  now : World -> N;
  screenshot : N -> World -> Res unit * World;
  onDialogAccept : World -> World;                  (* page.on("dialog", d => d.accept()) *)
  evaluateOnNewDocument : World -> World;           (* the dialog overrides, pre-navigation *)
  setDefaultTimeout : N -> World -> World;
  close : World -> World                            (* browser.close() *)
}.

(** every engine call and console line, in order *)
Inductive Call :=
| CQuery (c : Ctx) (sel : string)
| CContentFrame (h : Handle)
| CEvaluate (c : Ctx) (s : ScriptId)
| CClick (h : Handle) (clickCount : nat)
| CType (h : Handle) (text : string) (delay : N)
| CSleep (ms : N)
| CWaitForSelector (c : Ctx) (sel : string) (timeout : N)
| CGoto (url : string)
| CWaitForNavigation (timeout : N)
| CScreenshot (stamp : N)
| COnDialogAccept
| CEvaluateOnNewDocument
| CSetDefaultTimeout (ms : N)
| CClose
| CLog (line : string)
| CLogInputs (dump : list (string * string * string * string))
| CLogPresence (primary secondary : bool)
| CError (line : string).

Section Monad.
Variable E : Engine.

Record St := mkSt { world : World E; log : list Call }.

Definition M (A : Type) := St -> Res A * St.

Definition ret {A} (a : A) : M A := fun s => (Ok a, s).

Definition bind {A B} (m : M A) (k : A -> M B) : M B :=
  fun s => match m s with
           | (Ok a, s') => k a s'
           | (Throws e, s') => (Throws e, s')
           end.

(** [throw new Error(e)] *)
Definition throw {A} (e : string) : M A := fun s => (Throws e, s).

(** [try { m } catch (e) { h(e) }], and [m.catch(h)] *)
Definition catch {A} (m : M A) (h : string -> M A) : M A :=
  fun s => match m s with
           | (Ok a, s') => (Ok a, s')
           | (Throws e, s') => h e s'
           end.

(** [let x; try { x = await m } catch {}] with [x] left at [dflt], and
    [m.catch(() => dflt)] *)
Definition attempt {A} (m : M A) (dflt : A) : M A := catch m (fun _ => ret dflt).

Definition emit (c : Call) : M unit :=
  fun s => (Ok tt, mkSt (world s) (log s ++ [c])).

(** a read of the engine *)
Definition read {A} (c : Call) (f : World E -> Res A) : M A :=
  fun s => (f (world s), mkSt (world s) (log s ++ [c])).

(** an action of the engine *)
Definition act {A} (c : Call) (f : World E -> Res A * World E) : M A :=
  fun s => let '(r, w) := f (world s) in (r, mkSt w (log s ++ [c])).

Definition step (c : Call) (f : World E -> World E) : M unit :=
  fun s => (Ok tt, mkSt (f (world s)) (log s ++ [c])).

End Monad.

Arguments mkSt {E} world log.
Arguments world {E} s.
Arguments log {E} s.
Arguments ret {E A} a.
Arguments bind {E A B} m k.
Arguments throw {E A} e.
Arguments catch {E A} m h.
Arguments attempt {E A} m dflt.
Arguments emit {E} c.
Arguments read {E A} c f.
Arguments act {E A} c f.
Arguments step {E} c f.

End Auto.

Declare Scope auto_scope.
Delimit Scope auto_scope with auto.
Notation "x <- m ;; k" := (Auto.bind m (fun x => k))
  (at level 61, m at next level, right associativity) : auto_scope.
Notation "m ;;; k" := (Auto.bind m (fun _ => k))
  (at level 61, right associativity) : auto_scope.

(** ** The selector tables *)

Module SELECTORS.
Local Open Scope string_scope.

(** the double quote, and attribute selectors [[k op "v"]] and [[k op "v" i]] *)
Definition dq : string := String (Ascii.ascii_of_nat 34) EmptyString.
Definition attr (k op v : string) : string := "[" ++ k ++ op ++ dq ++ v ++ dq ++ "]".
Definition attr_i (k op v : string) : string := "[" ++ k ++ op ++ dq ++ v ++ dq ++ " i]".

Definition username : list string :=
  [ "input" ++ attr "name" "=" "Username";
    "input" ++ attr "name" "=" "username";
    "input#userName";
    "input#Username";
    "input#txt_Username";
    "input" ++ attr "name" "=" "usr";
    "input" ++ attr "type" "=" "text" ++ attr "name" "=" "user" ].

Definition password : list string :=
  [ "input" ++ attr "name" "=" "Password";
    "input" ++ attr "name" "=" "password";
    "input#Password";
    "input#txt_Password";
    "input" ++ attr "type" "=" "password" ].

Definition loginButtons : list string :=
  [ "button#loginBtn";
    "button#btn_Login";
    "button" ++ attr "type" "=" "submit";
    "input" ++ attr "type" "=" "submit";
    "input#login";
    "button" ++ attr "name" "=" "login";
    "button" ++ attr "onclick" "*=" "login" ].

Definition primaryDns : list string :=
  [ "input#dnsMainPri";
    "input" ++ attr "name" "=" "dnsMainPri";
    "input" ++ attr_i "id" "*=" "dnsMainPri";
    "input" ++ attr_i "id" "*=" "dnspri";
    "input" ++ attr_i "name" "*=" "dnspri";
    "input#PrimaryDNSServer";
    "input" ++ attr "name" "=" "PrimaryDNSServer";
    "input#primary_dns";
    "input" ++ attr "name" "=" "primary_dns";
    "input" ++ attr "name" "=" "dns1";
    "input#dns1";
    "input" ++ attr_i "id" "*=" "primary";
    "input" ++ attr_i "name" "*=" "primary" ].

Definition secondaryDns : list string :=
  [ "input#dnsMainSec";
    "input" ++ attr "name" "=" "dnsMainSec";
    "input" ++ attr_i "id" "*=" "dnsMainSec";
    "input" ++ attr_i "id" "*=" "dnssec";
    "input" ++ attr_i "name" "*=" "dnssec";
    "input#SecondaryDNSServer";
    "input" ++ attr "name" "=" "SecondaryDNSServer";
    "input#secondary_dns";
    "input" ++ attr "name" "=" "secondary_dns";
    "input" ++ attr "name" "=" "dns2";
    "input#dns2";
    "input" ++ attr_i "id" "*=" "secondary";
    "input" ++ attr_i "name" "*=" "secondary" ].

Definition manualDnsToggles : list string :=
  [ "input" ++ attr "type" "=" "radio" ++ attr "value" "=" "manual";
    "input" ++ attr "type" "=" "checkbox" ++ attr "name" "*=" "manual";
    "select" ++ attr "name" "*=" "dnsMode";
    "select" ++ attr "name" "*=" "dns_mode";
    "select#dns_mode" ].

Definition saveButtons : list string :=
  [ "button#btnApply_ex";
    "button" ++ attr "name" "=" "btnApply_ex";
    "button#btnApply";
    "button#btn_save";
    "input" ++ attr "type" "=" "submit";
    "button" ++ attr "type" "=" "submit" ].

(** [iframe[src*="v"]] *)
Definition iframeSrc (v : string) : string := "iframe" ++ attr "src" "*=" v.

(** the list local to [getContentFrame] *)
Definition contentFrames : list string :=
  [ "iframe#menuIframe";
    iframeSrc "dhcp";
    iframeSrc "bbsp";
    iframeSrc "lan";
    "iframe" ].

End SELECTORS.

(** ** [index.js] *)

Module Index.
Import Auto.
Local Open Scope auto_scope.

Section Program.
Variable E : Engine.
Let M := Auto.M E.

(** *** Engine calls, logged *)

Definition query_ (c : Ctx) (sel : string) : M (option Handle) :=
  read (CQuery c sel) (fun w => query E w c sel).

Definition contentFrame_ (h : Handle) : M (option Ctx) :=
  read (CContentFrame h) (fun w => contentFrame E w h).

Definition click_ (h : Handle) (clickCount : nat) : M unit :=
  act (CClick h clickCount) (click E h clickCount).

Definition type_ (h : Handle) (text : string) (delay : N) : M unit :=
  act (CType h text delay) (type E h text delay).

Definition sleep (ms : N) : M unit := step (CSleep ms) (Auto.sleep E ms).

Definition waitForSelector_ (c : Ctx) (sel : string) (timeout : N) : M unit :=
  act (CWaitForSelector c sel timeout) (waitForSelector E c sel timeout).

(** [cf.url()] *)
Definition frameUrl_ (c : Ctx) : M string :=
  fun s => (Ok (frameUrl E (world s) c), s).

(** [page.screenshot] into a file named after [Date.now()] *)
Definition screenshot_ : M unit :=
  fun s => act (CScreenshot (now E (world s))) (screenshot E (now E (world s))) s.

(** [ctx.evaluate(f)]: [f] runs on the context's document, and the engine
    takes over the document as [f] leaves it; [f] yields [None] when it throws *)
Definition evaluate {A} (c : Ctx) (sid : ScriptId)
    (f : Dom.Document -> option A * Dom.Document) : M A :=
  fun s =>
    let s1 := mkSt (world s) (log s ++ [CEvaluate c sid]) in
    match document E (world s) c with
    | Throws e => (Throws e, s1)
    | Ok d =>
        let '(r, d') := f d in
        let s2 := mkSt (commit E c sid d' (world s)) (log s1) in
        match r with
        | Some a => (Ok a, s2)
        | None => (Throws "Evaluation failed", s2)
        end
    end.

(** a script that returns on every document; the scripts embedded this way
    do so on the documents that pass [Scope.plain] *)
Definition total {A} (f : Dom.Document -> A * Dom.Document)
  : Dom.Document -> option A * Dom.Document :=
  fun d => let '(a, d') := f d in (Some a, d').

Definition pure {A} (f : Dom.Document -> A) : Dom.Document -> option A * Dom.Document :=
  fun d => (Some (f d), d).

(** [await a || await b] *)
Definition orElse (a b : M bool) : M bool :=
  x <- a ;; if x then ret true else b.

(** *** The cascades *)

Fixpoint getContentFrame_from (page : Ctx) (selectors : list string) : M (option Ctx) :=
  match selectors with
  | [] => ret None
  | sel :: rest =>
      handle <- attempt (query_ page sel) None ;;
      match handle with
      | Some h =>
          frame <- attempt (contentFrame_ h) None ;;
          match frame with
          | Some f => ret (Some f)
          | None => getContentFrame_from page rest
          end
      | None => getContentFrame_from page rest
      end
  end.

Definition getContentFrame (page : Ctx) : M (option Ctx) :=
  getContentFrame_from page SELECTORS.contentFrames.

Fixpoint waitAndTypeFirst (page : Ctx) (selectors : list string) (value : string)
  : M bool :=
  match selectors with
  | [] => ret false
  | sel :: rest =>
      el <- attempt (query_ page sel) None ;;
      match el with
      | Some h =>
          attempt (click_ h 3) tt ;;;
          type_ h value 10 ;;;
          ret true
      | None => waitAndTypeFirst page rest value
      end
  end.

Fixpoint clickFirst (page : Ctx) (selectors : list string) (wait : bool) : M bool :=
  match selectors with
  | [] => ret false
  | sel :: rest =>
      el <- attempt (query_ page sel) None ;;
      match el with
      | Some h =>
          attempt (click_ h 1) tt ;;;
          (if wait then sleep 300 else ret tt) ;;;
          ret true
      | None => clickFirst page rest wait
      end
  end.

(** *** Text matching *)

Definition clickByText (page : Ctx) (text : string) : M bool :=
  clicked <- evaluate page (SClickByText text) (total (Script.clickByText text)) ;;
  if clicked then sleep 300 ;;; ret true else ret false.

Definition clickByTextInContext (ctx : Ctx) (text : string) : M bool :=
  let needle := Js.toLowerCase text in
  clicked <- attempt (evaluate ctx (SClickByTextInContext needle)
                        (total (Script.clickByTextInContext needle))) false ;;
  if clicked then sleep 300 ;;; ret true else ret false.

(** *** Field writers *)

Definition setDnsByHeuristic (ctx : Ctx) (dns1 dns2 : string) : M (bool * bool) :=
  attempt (evaluate ctx (SHeuristic dns1 dns2) (total (Script.setDnsByHeuristic dns1 dns2)))
          (false, negb (Js.truthy dns2)).

Definition setInputByLabel (page : Ctx) (labelText value : string) : M bool :=
  evaluate page (SSetInputByLabel labelText value)
    (total (Script.setInputByLabel labelText value)).

Fixpoint ensureManualDns_toggles (page : Ctx) (selectors : list string) (k : M bool)
  : M bool :=
  match selectors with
  | [] => k
  | sel :: rest =>
      el <- attempt (query_ page sel) None ;;
      match el with
      | Some h => attempt (click_ h 1) tt ;;; ret true
      | None => ensureManualDns_toggles page rest k
      end
  end.

Definition ensureManualDns (page : Ctx) : M bool :=
  let afterSelect :=
    ensureManualDns_toggles page SELECTORS.manualDnsToggles
      (orElse (clickByText page "Manual") (orElse (clickByText page "Estático") (ret false))) in
  select <- attempt (query_ page "select") None ;;
  match select with
  | Some _ =>
      handled <- evaluate page SEnsureManual (total Script.ensureManualDns) ;;
      if handled then ret true else afterSelect
  | None => afterSelect
  end.

(** *** Menu navigation *)

(** [navigateToDns] from the wait for the title on: the DHCP page loads
    inside the content iframe *)
Definition navigateToDns_title (page : Ctx) (debug : bool) : M (option string) :=
  frame <- getContentFrame page ;;
  match frame with
  | None => ret None
  | Some frame =>
      attempt (waitForSelector_ frame "#dhcp2title" 8000) tt ;;;
      okTitle <- attempt (evaluate frame STitle (pure Script.dhcpTitle)) false ;;
      (if debug
       then emit (CLog ("DHCP Server title detected: " ++ (if okTitle then "true" else "false")))
       else ret tt) ;;;
      ret (Some (if okTitle then "iframe-dhcp" else "iframe-dhcp-no-title"))
  end.

(** ... from the third-level click (DHCP Server) on *)
Definition navigateToDns_dhcp (page : Ctx) (debug : bool) : M (option string) :=
  dhcpEl <- attempt (query_ page "#landhcp") None ;;
  match dhcpEl with
  | Some h => attempt (click_ h 1) tt ;;; navigateToDns_title page debug
  | None =>
      ok <- clickByText page "DHCP Server" ;;
      if ok then navigateToDns_title page debug else ret None
  end.

(** ... from the second-level click (LAN) on *)
Definition navigateToDns_lan (page : Ctx) (debug : bool) : M (option string) :=
  let settle : M (option string) :=
    attempt (waitForSelector_ page "#lanconfig_menu" 3000) tt ;;;
    sleep 200 ;;;
    navigateToDns_dhcp page debug in
  lanEl <- attempt (query_ page "#lanconfig") None ;;
  match lanEl with
  | Some h => attempt (click_ h 1) tt ;;; settle
  | None => ok <- clickByText page "LAN" ;; if ok then settle else ret None
  end.

Definition navigateToDns (page : Ctx) (debug : bool) : M (option string) :=
  (if debug
   then emit (CLog "Navigating via: Advanced Configuration → LAN → DHCP Server (iframe-aware)")
   else ret tt) ;;;
  advEl <- attempt (query_ page "#addconfig") None ;;
  match advEl with
  | Some h => attempt (click_ h 1) tt ;;; sleep 400 ;;; navigateToDns_lan page debug
  | None =>
      ok <- clickByText page "Advanced Configuration" ;;
      if ok then sleep 400 ;;; navigateToDns_lan page debug else ret None
  end.

(** *** The DNS field resolver *)

Definition showBool (b : bool) : string := if b then "true" else "false".

(** the label fallbacks of [setDnsValues], one per field *)
Definition primaryByLabel (frame : Ctx) (dns1 : string) : M bool :=
  orElse (setInputByLabel frame "Primary DNS Server" dns1)
    (orElse (setInputByLabel frame "Primary DNS" dns1)
      (orElse (setInputByLabel frame "Servidor DNS primário" dns1)
        (setInputByLabel frame "Preferred DNS" dns1))).

Definition secondaryByLabel (frame : Ctx) (dns2 : string) : M bool :=
  orElse (setInputByLabel frame "Secondary DNS Server" dns2)
    (orElse (setInputByLabel frame "Secondary DNS" dns2)
      (orElse (setInputByLabel frame "Servidor DNS secundário" dns2)
        (setInputByLabel frame "Alternate DNS" dns2))).

(** the three tiers of [setDnsValues]: the selector cascades, the labels,
    the heuristic scan; the result is [(ok1, ok2)] *)
Definition setDnsValues_tiers (frame : Ctx) (dns1 dns2 : string) : M (bool * bool) :=
  ok1 <- waitAndTypeFirst frame SELECTORS.primaryDns dns1 ;;
  ok2 <- (if Js.truthy dns2
          then waitAndTypeFirst frame SELECTORS.secondaryDns dns2
          else ret true) ;;
  ok1 <- (if negb ok1 then primaryByLabel frame dns1 else ret ok1) ;;
  ok2 <- (if negb ok2 && Js.truthy dns2 then secondaryByLabel frame dns2 else ret ok2) ;;
  if negb ok1 || (Js.truthy dns2 && negb ok2)
  then h <- setDnsByHeuristic frame dns1 dns2 ;;
       ret (ok1 || fst h, ok2 || snd h)
  else ret (ok1, ok2).

Definition setDnsValues (page : Ctx) (dns1 dns2 : string) (debug : bool) : M unit :=
  frame <- getContentFrame page ;;
  match frame with
  | None => throw "Content frame not found (menuIframe)."
  | Some frame =>
      attempt (ensureManualDns frame ;;; ret tt) tt ;;;
      sleep 300 ;;;
      ok <- setDnsValues_tiers frame dns1 dns2 ;;
      let '(ok1, ok2) := ok in
      (if debug && (negb ok1 || (Js.truthy dns2 && negb ok2))
       then dbg <- evaluate frame SInputCandidates (pure Script.inputCandidates) ;;
            emit (CLogInputs dbg)
       else ret tt) ;;;
      (if debug
       then emit (CLog ("Primary field set: " ++ showBool ok1 ++
                        " Secondary field set: " ++ showBool ok2))
       else ret tt) ;;;
      if negb ok1
      then throw "Could not locate the Primary DNS field in the DHCP page."
      else ret tt
  end.

(** *** Apply and verify *)

Definition saveChanges (ctx : Ctx) : M bool :=
  attempt (evaluate ctx SDialogs (fun d => (Some tt, Script.overrideDialogs d))) tt ;;;
  applyBtn <- attempt (query_ ctx "#btnApply_ex") None ;;
  match applyBtn with
  | Some h => attempt (click_ h 1) tt ;;; sleep 300 ;;; ret true
  | None =>
      b <- clickFirst ctx SELECTORS.saveButtons true ;;
      if b then sleep 300 ;;; ret true else
      b <- clickByTextInContext ctx "Apply" ;;
      if b then sleep 300 ;;; ret true else
      b <- clickByTextInContext ctx "Save" ;;
      if b then sleep 300 ;;; ret true else
      b <- clickByTextInContext ctx "Guardar" ;;
      if b then sleep 300 ;;; ret true else
      b <- clickByTextInContext ctx "Aplicar" ;;
      if b then sleep 300 ;;; ret true else
      b <- clickByTextInContext ctx "Submit" ;;
      if b then sleep 300 ;;; ret true else
      b <- clickByTextInContext ctx "OK" ;;
      if b then sleep 300 ;;; ret true else
      invoked <- attempt (evaluate ctx SApplyConfig Script.callApplyConfig) false ;;
      if invoked then sleep 300 ;;; ret true else ret false
  end.

Definition readDnsValuesFromFrame (frame : Ctx) : M (string * string) :=
  attempt (evaluate frame SReadDns (pure Script.readDnsValues)) ("", "").

(** the [for] loop of [verifyDnsApplied]: [n] iterations are left and the
    counter stands at [i] *)
Fixpoint verifyDnsApplied_loop (n : nat) (i : Z) (page : Ctx) (expected1 expected2 : string)
    (retries : Z) (delayMs : N) : M bool :=
  match n with
  | O => ret false
  | S n' =>
      frame <- getContentFrame page ;;
      match frame with
      | None => ret false
      | Some frame =>
          vals <- readDnsValuesFromFrame frame ;;
          let ok1 := (fst vals =? expected1)%string in
          let ok2 := negb (Js.truthy expected2) || (snd vals =? expected2)%string in
          if ok1 && ok2 then ret true else
          sleep delayMs ;;;
          (if (i =? retries - 2)%Z
           then attempt (navigateToDns page false ;;; ret tt) tt
           else ret tt) ;;;
          verifyDnsApplied_loop n' (i + 1)%Z page expected1 expected2 retries delayMs
      end
  end.

Definition verifyDnsApplied (page : Ctx) (expected1 expected2 : string)
    (retries : Z) (delayMs : N) : M bool :=
  verifyDnsApplied_loop (Z.to_nat retries) 0%Z page expected1 expected2 retries delayMs.

(** *** The run *)

Record Argv := mkArgv {
  url : string; user : string; pass : string;
  dns1 : string; dns2 : string;
  headful : bool; debug : bool
}.

(** the [try] block, first part: open the page and log in *)
Definition main_login (argv : Argv) : M unit :=
  let page := Page in
  (if debug argv then emit (CLog ("Opening " ++ url argv)) else ret tt) ;;;
  act (CGoto (url argv)) (goto E (url argv)) ;;;
  usernameTyped <- waitAndTypeFirst page SELECTORS.username (user argv) ;;
  passwordTyped <- waitAndTypeFirst page SELECTORS.password (pass argv) ;;
  (if negb usernameTyped && debug argv
   then emit (CLog "Username field not found; continuing (some firmwares use password-only login).")
   else ret tt) ;;;
  if negb passwordTyped then throw "Password field not found on login page." else
  clickedLogin <-
    orElse (clickFirst page SELECTORS.loginButtons true)
      (orElse (clickByText page "Log In")
        (orElse (clickByText page "Login")
          (orElse (clickByText page "Entrar")
            (orElse (clickByText page "Iniciar sessão")
              (clickByText page "Iniciar sesión"))))) ;;
  (if negb clickedLogin && debug argv
   then emit (CLog "No explicit login button clicked (page may auto-submit).")
   else ret tt) ;;;
  attempt (act (CWaitForNavigation 15000) (waitForNavigation E 15000)) tt ;;;
  sleep 600.

(** second part: reach the DNS page and write the values *)
Definition main_configure (argv : Argv) : M unit :=
  let page := Page in
  pathReached <- navigateToDns page (debug argv) ;;
  match pathReached with
  | None =>
      throw "Could not reach DNS page automatically. Run with --headful and adjust SELECTORS."
  | Some path =>
      (if debug argv
       then cf <- getContentFrame page ;;
            u <- match cf with Some c => frameUrl_ c | None => ret "N/A" end ;;
            emit (CLog ("Content frame URL: " ++ u))
       else ret tt) ;;;
      (if debug argv then emit (CLog ("Reached DNS page via path: " ++ path)) else ret tt) ;;;
      setDnsValues page (dns1 argv) (dns2 argv) (debug argv)
  end.

(** the verification after the save, and its debug reports; the result of
    [verifyDnsApplied] goes to the debug log and nowhere else *)
Definition main_verify (argv : Argv) : M unit :=
  let page := Page in
  sleep 900 ;;;
  verified <- verifyDnsApplied page (dns1 argv) (dns2 argv) 4 800 ;;
  (if debug argv
   then emit (CLog ("Post-apply DNS verification: " ++
                    (if verified then "matched" else "not matched yet")))
   else ret tt) ;;;
  (if debug argv
   then cf <- getContentFrame page ;;
        found <- match cf with
                 | Some c => attempt (evaluate c SLabelPresence (pure Script.labelPresence))
                               (false, false)
                 | None => ret (false, false)
                 end ;;
        emit (CLogPresence (fst found) (snd found))
   else ret tt).

(** third part: save, verify, report *)
Definition main_apply (argv : Argv) : M unit :=
  let page := Page in
  contentFrame <- getContentFrame page ;;
  saved <- saveChanges (match contentFrame with Some f => f | None => page end) ;;
  main_verify argv ;;;
  if negb saved then throw "Could not find a Save/Apply button." else
  sleep 600 ;;;
  emit (CLog ("✔ DNS updated to " ++ dns1 argv ++
              (if Js.truthy (dns2 argv) then ", " ++ dns2 argv else ""))).

(** the page set-up that precedes the [try] block, once the browser and the
    page exist *)
Definition main_setup : M unit :=
  step COnDialogAccept (onDialogAccept E) ;;;
  step CEvaluateOnNewDocument (evaluateOnNewDocument E) ;;;
  step (CSetDefaultTimeout 15000) (setDefaultTimeout E 15000).

(** the [try] block; its value is the exit status when nothing is thrown *)
Definition main_try (argv : Argv) : M nat :=
  main_login argv ;;; main_configure argv ;;; main_apply argv ;;; ret 0.

(** the [catch] block; the second error line carries the file name of the
    screenshot, which is left out *)
Definition main_catch (argv : Argv) (message : string) : M nat :=
  emit (CError ("✖ Failed: " ++ message)) ;;;
  (if debug argv
   then attempt (screenshot_ ;;; emit (CError "Saved screenshot")) tt
   else ret tt) ;;;
  ret 1.

(** the main routine, from the page set-up on; the result is the exit status *)
Definition main (argv : Argv) : M nat :=
  main_setup ;;;
  exitCode <- catch (main_try argv) (main_catch argv) ;;
  step CClose (close E) ;;;
  ret exitCode.

End Program.
End Index.

(** ** The earlier revision of the cascade helpers *)

Module Part000.
Import Auto.
Local Open Scope auto_scope.

Section Program.
Variable E : Engine.
Let M := Auto.M E.

(** no handler around [page.$]: a rejected query rejects the whole call *)
Fixpoint waitAndTypeFirst (page : Ctx) (selectors : list string) (value : string)
  : M bool :=
  match selectors with
  | [] => ret false
  | sel :: rest =>
      el <- @Index.query_ E page sel ;;
      match el with
      | Some h =>
          attempt (@Index.click_ E h 3) tt ;;;
          @Index.type_ E h value 20 ;;;
          ret true
      | None => waitAndTypeFirst page rest value
      end
  end.

(** a rejected query skips the selector ([continue]); with [wait], the click
    and the 400 ms pause are started together and both awaited: the click is
    issued first *)
Fixpoint clickFirst (page : Ctx) (selectors : list string) (wait : bool) : M bool :=
  match selectors with
  | [] => ret false
  | sel :: rest =>
      fun s =>
        match @Index.query_ E page sel s with
        | (Throws _, s') => clickFirst page rest wait s'
        | (Ok el, s') =>
            match el with
            | Some h =>
                ((if wait
                  then attempt (@Index.click_ E h 1) tt ;;; @Index.sleep E 400
                  else attempt (@Index.click_ E h 1) tt) ;;;
                 ret true) s'
            | None => clickFirst page rest wait s'
            end
        end
  end.

End Program.
End Part000.

(** ** A scripted router, for running the program on concrete pages

    The world is the number of times the leaf menu entry was clicked; what
    the selectors resolve to and what the documents hold may depend on it. *)

Module Sim.
Import Auto.

Definition ctx_eqb (a b : Ctx) : bool :=
  match a, b with
  | Page, Page => true
  | Frame n, Frame m => (n =? m)%nat
  | _, _ => false
  end.

Record Site := mkSite {
  elements : nat -> list (Ctx * string * Handle);   (* what [ctx.$] finds *)
  malformed : list string;                          (* selectors the engine rejects *)
  frames : list (Handle * Ctx);                     (* accessible content frames *)
  pages : nat -> list (Ctx * Dom.Document);         (* the documents of the contexts *)
  stuck : list Handle;                              (* elements that cannot be typed into *)
  leaf : Handle                                     (* the leaf menu entry *)
}.

Fixpoint lookup_element (c : Ctx) (sel : string) (l : list (Ctx * string * Handle))
  : option Handle :=
  match l with
  | [] => None
  | (c', sel', h) :: r =>
      if ctx_eqb c c' && (sel =? sel')%string then Some h else lookup_element c sel r
  end.

Fixpoint lookup_frame (h : Handle) (l : list (Handle * Ctx)) : option Ctx :=
  match l with
  | [] => None
  | (h', c) :: r => if (h =? h')%nat then Some c else lookup_frame h r
  end.

Fixpoint lookup_page (c : Ctx) (l : list (Ctx * Dom.Document)) : option Dom.Document :=
  match l with
  | [] => None
  | (c', d) :: r => if ctx_eqb c c' then Some d else lookup_page c r
  end.

Definition engine (site : Site) : Engine :=
  {| World := nat;
     query := fun w c sel =>
       if existsb (String.eqb sel) (malformed site)
       then Throws "SyntaxError: not a valid selector"
       else Ok (lookup_element c sel (elements site w));
     contentFrame := fun _ h => Ok (lookup_frame h (frames site));
     document := fun w c =>
       match lookup_page c (pages site w) with
       | Some d => Ok d
       | None => Throws "Execution context was destroyed"
       end;
     commit := fun _ _ _ w => w;
     click := fun h _ w => (Ok tt, if (h =? leaf site)%nat then S w else w);
     type := fun h _ _ w =>
       (if existsb (Nat.eqb h) (stuck site)
        then Throws "Node is detached from document" else Ok tt, w);
     sleep := fun _ w => w;
     waitForSelector := fun _ _ _ w => (Ok tt, w);
     goto := fun _ w => (Ok tt, w);
     waitForNavigation := fun _ w => (Ok tt, w);
     frameUrl := fun _ _ => "http://192.168.1.1/html/bbsp/dhcp.asp";
     now := fun _ => 0%N;
     screenshot := fun _ w => (Ok tt, w);
     onDialogAccept := fun w => w;
     evaluateOnNewDocument := fun w => w;
     setDefaultTimeout := fun _ w => w;
     close := fun w => w |}.

Definition start (site : Site) : St (engine site) := mkSt (E := engine site) 0 [].

(** an element with the given tag, attributes, value and text *)
Definition el (tag : string) (attrs : list (string * string)) (value text : string)
  : Dom.Element :=
  Dom.mkElement tag attrs value text text None true false [] [].

Definition child (p : nat) (e : Dom.Element) : Dom.Element :=
  Dom.mkElement (Dom.tag e) (Dom.attrs e) (Dom.value e) (Dom.innerText e)
    (Dom.textContent e) (Some p) (Dom.offsetParent e) (Dom.fixedVisible e)
    (Dom.options e) (Dom.events e).

Definition doc (nodes : list Dom.Element) : Dom.Document :=
  Dom.mkDocument nodes None None [] false.

Definition docWithApplyConfig (nodes : list Dom.Element) : Dom.Document :=
  Dom.mkDocument nodes None (Some true) [] false.

(** the DHCP page of the router: title, the two DNS inputs holding [v1] and
    [v2], and, with [apply], the apply button *)
Definition dhcpNodes (title : bool) (v1 v2 : string) : list Dom.Element :=
  (if title then [el "div" [("id", "dhcp2title")] "" "DHCP Server Configuration"] else []) ++
  [ el "input" [("id", "dnsMainPri"); ("type", "text")] v1 "";
    el "input" [("id", "dnsMainSec"); ("type", "text")] v2 "" ].

(** the handles: 1 user name, 2 password, 3 login button, 4 to 6 the three
    menu entries, 7 the content iframe, 10 and 11 the DNS inputs, 12 the
    apply button *)
Definition loginAndMenu : list (Ctx * string * Handle) :=
  [ (Page, List.hd "" SELECTORS.username, 1);
    (Page, List.hd "" SELECTORS.password, 2);
    (Page, "button#loginBtn", 3);
    (Page, "#addconfig", 4);
    (Page, "#lanconfig", 5);
    (Page, "#landhcp", 6);
    (Page, "iframe#menuIframe", 7) ].

Definition dnsInputs : list (Ctx * string * Handle) :=
  [ (Frame 1, "input#dnsMainPri", 10);
    (Frame 1, "input#dnsMainSec", 11) ].

Definition applyButton : list (Ctx * string * Handle) :=
  [ (Frame 1, "#btnApply_ex", 12) ].

(** a router whose form shows the old values until the menu is walked a
    second time, and the written ones afterwards *)
Definition router (apply title : bool) (applyConfig : bool) (old1 old2 new1 new2 : string)
  : Site :=
  {| elements := fun _ => loginAndMenu ++ dnsInputs ++ (if apply then applyButton else []);
     malformed := [];
     frames := [(7, Frame 1)];
     pages := fun w =>
       let nodes := if (2 <=? w)%nat then dhcpNodes title new1 new2
                    else dhcpNodes title old1 old2 in
       [ (Page, doc []);
         (Frame 1, if applyConfig then docWithApplyConfig nodes else doc nodes) ];
     stuck := [];
     leaf := 6 |}.

(** a page whose DHCP iframe is present but has no accessible document,
    next to a plain iframe that has one *)
Definition blockedFrame : Site :=
  {| elements := fun _ => [ (Page, SELECTORS.iframeSrc "dhcp", 8);
                            (Page, "iframe", 7) ];
     malformed := [];
     frames := [(7, Frame 1)];
     pages := fun _ => [ (Page, doc []); (Frame 1, doc (dhcpNodes true "" "")) ];
     stuck := [];
     leaf := 6 |}.

(** the DHCP form with a primary input that rejects typing *)
Definition stuckPrimary : Site :=
  {| elements := fun _ => loginAndMenu ++ dnsInputs;
     malformed := [];
     frames := [(7, Frame 1)];
     pages := fun _ => [ (Page, doc []); (Frame 1, doc (dhcpNodes true "" "")) ];
     stuck := [10];
     leaf := 6 |}.

(** the DHCP form with a secondary input that rejects typing *)
Definition stuckSecondary : Site :=
  {| elements := fun _ => loginAndMenu ++ dnsInputs;
     malformed := [];
     frames := [(7, Frame 1)];
     pages := fun _ => [ (Page, doc []); (Frame 1, doc (dhcpNodes true "" "")) ];
     stuck := [11];
     leaf := 6 |}.

(** a DHCP form that has a primary input and nothing for a secondary *)
Definition primaryOnly : Site :=
  {| elements := fun _ => loginAndMenu ++ [ (Frame 1, "input#dnsMainPri", 10) ];
     malformed := [];
     frames := [(7, Frame 1)];
     pages := fun _ =>
       [ (Page, doc []);
         (Frame 1, doc [ el "input" [("id", "dnsMainPri"); ("type", "text")] "" "" ]) ];
     stuck := [];
     leaf := 6 |}.

(** a login page, and a selector list that starts with a pattern the
    engine rejects *)
Definition loginPage : Site :=
  {| elements := fun _ => [ (Page, "input#userName", 1); (Page, "button#loginBtn", 3) ];
     malformed := ["input[name="];
     frames := [];
     pages := fun _ => [ (Page, doc []) ];
     stuck := [];
     leaf := 6 |}.

Definition tunedSelectors : list string := [ "input[name="; "input#userName" ].
Definition tunedButtons : list string := [ "input[name="; "button#loginBtn" ].

(** a form whose only hint is a label *)
Definition labelledForm : Dom.Document :=
  doc [ el "label" [("for", "pdns")] "" "Primary DNS Server";
        el "input" [("id", "pdns")] "8.8.8.8" "" ].

Definition argv (dns1 dns2 : string) : Index.Argv :=
  Index.mkArgv "http://192.168.1.1" "admin" "secret" dns1 dns2 false false.

End Sim.

(** ** Where the document model is exact

    The document model keeps the [value] property of an element as a
    string, folds case and trims white space as on ASCII text, and lets an
    assignment to [value] store its argument.  A browser does the same on
    the documents and strings marked out here; elsewhere a script can
    differ from its embedding (a list item with a [value] attribute has a
    number for its [value], on which [trim] is not defined; a file input
    refuses a value; an SVG element cannot be clicked). *)

Module Scope.
Import Dom.

Definition ascii_char (a : ascii) : bool := (nat_of_ascii a <? 128)%nat.

Fixpoint ascii (s : string) : bool :=
  match s with
  | EmptyString => true
  | String a r => ascii_char a && ascii r
  end.


(** the [value] property is something other than a string or nothing: a
    number (a list item with a [value] attribute, a progress bar, a meter)
    or whatever a plug-in element exposes *)
Definition oddValue (e : Element) : bool :=
  (is_tag "li" e && has_attr "value" e) ||
  is_tag "progress" e || is_tag "meter" e ||
  is_tag "object" e || is_tag "embed" e || is_tag "applet" e.

(** an id or a name under which a form would expose the element in place
    of one of the properties the scripts read *)
Definition shadows (e : Element) : bool :=
  existsb (fun k => (id e =? k) || (name e =? k))
          ["value"; "innerText"; "textContent"; "click"].

Definition fileInput (e : Element) : bool :=
  is_tag "input" e && attr_is "type" "file" e.

(** the root of embedded SVG or MathML, whose elements have no [click()];
    without one, every element of a parsed document is an HTML element *)
Definition foreign (e : Element) : bool := is_tag "svg" e || is_tag "math" e.

(** no element on which reading [value], trimming it, assigning it or
    calling [click()] throws *)
Definition plain (d : Document) : bool :=
  forallb (fun e => negb (oddValue e) && negb (shadows e) && negb (fileInput e) &&
                    negb (foreign e)) (nodes d).

(** the texts and values of the document are ASCII *)
Definition asciiTexts (d : Document) : bool :=
  forallb (fun e => ascii (value e) && ascii (innerText e) && ascii (textContent e)) (nodes d).

(** documents on which the text matchers are embedded exactly *)
Definition matchers (d : Document) : bool := plain d && asciiTexts d.

End Scope.

(** ** A router that keeps what the scripts leave

    The state of this engine is the documents themselves: a script sees the
    document of its context and the document it leaves replaces it. *)

Module Live.
Import Auto.

Fixpoint store (c : Ctx) (d : Dom.Document) (w : list (Ctx * Dom.Document))
  : list (Ctx * Dom.Document) :=
  match w with
  | [] => []
  | (c', d0) :: r => if Sim.ctx_eqb c c' then (c', d) :: r else (c', d0) :: store c d r
  end.

Definition engine (elements : list (Ctx * string * Handle)) : Engine :=
  {| World := list (Ctx * Dom.Document);
     query := fun _ c sel => Ok (Sim.lookup_element c sel elements);
     contentFrame := fun _ _ => Ok None;
     document := fun w c =>
       match Sim.lookup_page c w with
       | Some d => Ok d
       | None => Throws "Execution context was destroyed"
       end;
     commit := fun c _ d w => store c d w;
     click := fun _ _ w => (Ok tt, w);
     type := fun _ _ _ w => (Ok tt, w);
     sleep := fun _ w => w;
     waitForSelector := fun _ _ _ w => (Ok tt, w);
     goto := fun _ w => (Ok tt, w);
     waitForNavigation := fun _ w => (Ok tt, w);
     frameUrl := fun _ _ => "http://192.168.1.1/html/bbsp/dhcp.asp";
     now := fun _ => 0%N;
     screenshot := fun _ w => (Ok tt, w);
     onDialogAccept := fun w => w;
     evaluateOnNewDocument := fun w => w;
     setDefaultTimeout := fun _ w => w;
     close := fun w => w |}.

(** a page as a parser builds it: the root and the body, both showing the
    text of the page, and the given elements as children of the body *)
Definition page (text : string) (els : list Dom.Element) : list Dom.Element :=
  Sim.el "html" [] "" text :: Sim.child 0 (Sim.el "body" [] "" text)
    :: List.map (Sim.child 1) els.

(** a frame whose only control is a styled division that reads Apply *)
Definition applyDivision : Dom.Document :=
  Sim.doc (page "DNS servers Apply settings"
             [ Sim.el "p" [] "" "DNS servers";
               Sim.el "div" [("class", "btn")] "" " Apply settings " ]).

(** a frame without any control, whose scripts define [ApplyConfig] *)
Definition applyFunction : Dom.Document :=
  Sim.docWithApplyConfig (page "DNS servers" [ Sim.el "p" [] "" "DNS servers" ]).

End Live.

(** * Properties *)

(** ** Field writers, on the document *)

Module DomFacts.
Import Dom.

Lemma nth_update_nth_same (l : list Element) (i : nat) (f : Element -> Element) (e : Element) :
  nth_error l i = Some e -> nth_error (update_nth l i f) i = Some (f e).
Proof.
  revert i; induction l as [|a l IH]; intros [|i] H; simpl in *; try discriminate.
  - now inversion H.
  - now apply IH.
Qed.

Lemma node_update_same (d : Document) (i : nat) (f : Element -> Element) (e : Element) :
  node d i = Some e -> node (update d i f) i = Some (f e).
Proof. unfold node, update; simpl; apply nth_update_nth_same. Qed.

Lemma node_focus (d : Document) (i j : nat) : node (focus i d) j = node d j.
Proof. reflexivity. Qed.

(** what the six statements of [setVal] leave on the element *)
Lemma setVal_writes (d : Document) (i : nat) (e : Element) (v : string) :
  node d i = Some e ->
  exists e',
    node (snd (Script.setVal (Some i) v d)) i = Some e' /\
    fst (Script.setVal (Some i) v d) = true /\
    value e' = v /\
    events e' = events e ++ ["input"; "input"; "change"].
Proof.
  intros H. unfold Script.setVal; simpl.
  unfold dispatchEvent, setValue.
  rewrite <- (node_focus d i i) in H.
  eexists; split; [|split; [reflexivity|]].
  - repeat (erewrite node_update_same; [|]); [reflexivity|..]; try eassumption;
      repeat (erewrite node_update_same; [|]); try reflexivity; try eassumption.
  - simpl. rewrite <- !app_assoc. split; reflexivity.
Qed.

Lemma select_from_valid (p : Element -> bool) (l : list Element) (base i : nat) :
  In i (select_from p base l) ->
  exists e, nth_error l (i - base) = Some e /\ p e = true /\ base <= i.
Proof.
  revert base; induction l as [|a l IH]; intros base H; simpl in H; [contradiction|].
  destruct (p a) eqn:Hp.
  - destruct H as [<-|H].
    + exists a. rewrite Nat.sub_diag. auto.
    + destruct (IH _ H) as (e & He & Hpe & Hle).
      exists e. replace (i - base) with (S (i - S base)) by lia. simpl. split; [assumption|]. split; [assumption|lia].
  - destruct (IH _ H) as (e & He & Hpe & Hle).
    exists e. replace (i - base) with (S (i - S base)) by lia. simpl. split; [assumption|]. split; [assumption|lia].
Qed.

Lemma querySelectorAll_valid (p : Element -> bool) (d : Document) (i : nat) :
  In i (querySelectorAll p d) -> exists e, node d i = Some e /\ p e = true.
Proof.
  intros H. destruct (@select_from_valid p (nodes d) 0 i H) as (e & He & Hp & _).
  rewrite Nat.sub_0_r in He. eauto.
Qed.

Lemma querySelector_valid (p : Element -> bool) (d : Document) (i : nat) :
  querySelector p d = Some i -> exists e, node d i = Some e.
Proof.
  unfold querySelector. intros H.
  destruct (querySelectorAll p d) as [|j q] eqn:Hq; simpl in H; [discriminate|].
  inversion H; subst j.
  destruct (@querySelectorAll_valid p d i) as (e & He & _); [rewrite Hq; now left|eauto].
Qed.

Lemma querySelectorUnder_valid (root : nat) (p : Element -> bool) (d : Document) (i : nat) :
  querySelectorUnder root p d = Some i -> exists e, node d i = Some e.
Proof.
  unfold querySelectorUnder. intros H. apply find_some in H as [H _].
  destruct (@querySelectorAll_valid _ _ _ H) as (e & He & _). eauto.
Qed.

(** what the label-based writer leaves on the input it picks: the value,
    and two [input] events *)
Lemma setInputByLabel_writes (labelText v : string) (d d' : Document) :
  Script.setInputByLabel labelText v d = (true, d') ->
  exists i e e',
    node d i = Some e /\ node d' i = Some e' /\
    value e' = v /\ events e' = events e ++ ["input"; "input"].
Proof.
  unfold Script.setInputByLabel.
  generalize (querySelectorAll (is_tag "label") d) as labels.
  induction labels as [|lb rest IH]; simpl; [discriminate|].
  destruct (node d lb) as [le|]; [|exact IH].
  destruct (Js.truthy (textContent le) && _); [|exact IH].
  set (input0 := match getAttribute "for" le with
                 | Some forId => if Js.truthy forId then getElementById forId d else None
                 | None => None
                 end).
  set (input1 := Script.orElseNode input0 (querySelectorUnder lb (is_tag "input") d)).
  set (input2 := match input1, parent le with
                 | None, Some p => querySelectorUnder p (is_tag "input") d
                 | _, _ => input1
                 end).
  assert (Hvalid : forall i, input2 = Some i -> exists e, node d i = Some e).
  { intros i Hi. subst input2.
    assert (H1 : forall j, input1 = Some j -> exists e, node d j = Some e).
    { intros j Hj. subst input1. unfold Script.orElseNode in Hj.
      destruct input0 as [k|] eqn:H0.
      - inversion Hj; subst k. subst input0.
        destruct (getAttribute "for" le) as [forId|]; [|discriminate].
        destruct (Js.truthy forId); [|discriminate].
        unfold getElementById in H0. eapply querySelector_valid; eassumption.
      - eapply querySelectorUnder_valid; eassumption. }
    destruct input1 as [j|]; [inversion Hi; subst; now apply H1|].
    destruct (parent le); [|discriminate].
    eapply querySelectorUnder_valid; eassumption. }
  destruct input2 as [i|]; [|exact IH].
  intros H; inversion H; subst d'; clear H.
  destruct (Hvalid i eq_refl) as [e He].
  exists i, e. eexists. split; [exact He|].
  unfold dispatchEvent, setValue.
  rewrite <- (node_focus d i i) in He.
  split.
  - repeat (erewrite node_update_same; [|]); [reflexivity|..]; try eassumption;
      repeat (erewrite node_update_same; [|]); try reflexivity; try eassumption.
  - simpl. rewrite <- !app_assoc. split; reflexivity.
Qed.

End DomFacts.

(** a matcher's search through a query result is a query for both tests *)
Module QueryFacts.
Import Dom.

Lemma find_select_from_both q d p l base :
  (forall k, nth_error l k = node d (base + k)) ->
  Script.find_node q d (select_from p base l)
  = hd_error (select_from (fun e => p e && q e) base l).
Proof.
  unfold Script.find_node.
  revert base; induction l as [|a l IH]; intros base Hl; simpl; [reflexivity|].
  assert (Hl' : forall k, nth_error l k = node d (S base + k)).
  { intros k. replace (S base + k) with (base + S k) by lia. exact (Hl (S k)). }
  assert (Ha : node d base = Some a)
    by (rewrite <- (Nat.add_0_r base); symmetry; exact (Hl 0)).
  destruct (p a); simpl; [|apply IH; exact Hl'].
  rewrite Ha. destruct (q a); [reflexivity|apply IH; exact Hl'].
Qed.

Lemma find_node_querySelector q p d :
  Script.find_node q d (querySelectorAll p d) = querySelector (fun e => p e && q e) d.
Proof. apply find_select_from_both. intros k. reflexivity. Qed.

End QueryFacts.

(** C2: the selector-based heuristic writer leaves the value and dispatches
    [input], [input], [change] ([DomFacts.setVal_writes]); the label-based
    writer leaves the value but dispatches no [change].  On a form with a
    label for an input holding 8.8.8.8, writing 1.1.1.1 by the label leaves
    the value 1.1.1.1 and exactly the two [input] events. *)
Theorem setInputByLabel_dispatches_no_change :
  let r := Script.setInputByLabel "Primary DNS Server" "1.1.1.1" Sim.labelledForm in
  fst r = true /\
  option_map Dom.value (Dom.node (snd r) 1) = Some "1.1.1.1" /\
  option_map Dom.events (Dom.node (snd r) 1) = Some ["input"; "input"] /\
  option_map Dom.events (Dom.node (snd (Script.setVal (Some 1) "1.1.1.1" Sim.labelledForm)) 1)
  = Some ["input"; "input"; "change"].
Proof. repeat split. Qed.

(** ** The selector cascades *)

Section Cascades.
Import Auto.
Variable E : Engine.
Implicit Types (w : World E) (l : list Call) (c : Ctx) (h : Handle).

(** what [ctx.$(sel)] finds in world [w]; a rejected query finds nothing *)
Definition found w c (sel : string) : option Handle :=
  match query E w c sel with
  | Ok (Some h) => Some h
  | _ => None
  end.

(** the accessible content frame of a handle, if any *)
Definition frameOf w h : option Ctx :=
  match contentFrame E w h with
  | Ok (Some f) => Some f
  | _ => None
  end.

Definition frameVia w c (sel : string) : option Ctx :=
  match found w c sel with
  | Some h => frameOf w h
  | None => None
  end.

(** the calls [getContentFrame] makes on candidates it passes over *)
Definition probes w c (sels : list string) : list Call :=
  flat_map (fun sel => CQuery c sel ::
                       match found w c sel with
                       | Some h => [CContentFrame h]
                       | None => []
                       end) sels.

Lemma attempt_query w l c sel :
  attempt (Index.query_ c sel) None (mkSt w l)
  = (Ok (found w c sel), mkSt w (l ++ [CQuery c sel])).
Proof.
  unfold attempt, catch, Index.query_, read, found; simpl.
  destruct (query E w c sel) as [[h|]|e]; reflexivity.
Qed.

Lemma attempt_contentFrame w l h :
  attempt (Index.contentFrame_ h) None (mkSt w l)
  = (Ok (frameOf w h), mkSt w (l ++ [CContentFrame h])).
Proof.
  unfold attempt, catch, Index.contentFrame_, read, frameOf; simpl.
  destruct (contentFrame E w h) as [[f|]|e]; reflexivity.
Qed.

Lemma attempt_click w l h n :
  attempt (Index.click_ h n) tt (mkSt w l)
  = (Ok tt, mkSt (snd (click E h n w)) (l ++ [CClick h n])).
Proof.
  unfold attempt, catch, Index.click_, act; simpl.
  destruct (click E h n w) as [[[]|e] w']; reflexivity.
Qed.

Lemma waitAndTypeFirst_cons w l c sel rest v :
  Index.waitAndTypeFirst c (sel :: rest) v (mkSt w l)
  = match found w c sel with
    | Some h =>
        let w1 := snd (click E h 3 w) in
        (match fst (type E h v 10 w1) with
         | Ok _ => Ok true
         | Throws e => Throws e
         end,
         mkSt (snd (type E h v 10 w1)) (l ++ [CQuery c sel; CClick h 3; CType h v 10]))
    | None => Index.waitAndTypeFirst c rest v (mkSt w (l ++ [CQuery c sel]))
    end.
Proof.
  simpl. unfold bind at 1. rewrite attempt_query.
  destruct (found w c sel) as [h|]; [|reflexivity].
  unfold bind at 1. rewrite attempt_click.
  unfold bind, Index.type_, act, ret; simpl.
  destruct (type E h v 10 (snd (click E h 3 w))) as [[[]|e] w2]; simpl;
    rewrite <- !app_assoc; reflexivity.
Qed.

Lemma waitAndTypeFirst_skip w l c pre rest v :
  Forall (fun sel => found w c sel = None) pre ->
  Index.waitAndTypeFirst c (pre ++ rest) v (mkSt w l)
  = Index.waitAndTypeFirst c rest v (mkSt w (l ++ map (CQuery c) pre)).
Proof.
  intros H; revert l; induction H as [|sel pre Hsel _ IH]; intros l.
  - simpl. now rewrite app_nil_r.
  - rewrite <- app_comm_cons, waitAndTypeFirst_cons, Hsel, IH.
    simpl. now rewrite <- app_assoc.
Qed.

Lemma clickFirst_cons w l c sel rest wait :
  Index.clickFirst c (sel :: rest) wait (mkSt w l)
  = match found w c sel with
    | Some h =>
        let w1 := snd (click E h 1 w) in
        (Ok true,
         mkSt (if wait then sleep E 300 w1 else w1)
              (l ++ [CQuery c sel; CClick h 1] ++ (if wait then [CSleep 300] else [])))
    | None => Index.clickFirst c rest wait (mkSt w (l ++ [CQuery c sel]))
    end.
Proof.
  simpl. unfold bind at 1. rewrite attempt_query.
  destruct (found w c sel) as [h|]; [|reflexivity].
  unfold bind at 1. rewrite attempt_click.
  destruct wait; unfold bind, Index.sleep, step, ret; simpl;
    rewrite <- !app_assoc; try rewrite app_nil_r; reflexivity.
Qed.

Lemma clickFirst_skip w l c pre rest wait :
  Forall (fun sel => found w c sel = None) pre ->
  Index.clickFirst c (pre ++ rest) wait (mkSt w l)
  = Index.clickFirst c rest wait (mkSt w (l ++ map (CQuery c) pre)).
Proof.
  intros H; revert l; induction H as [|sel pre Hsel _ IH]; intros l.
  - simpl. now rewrite app_nil_r.
  - rewrite <- app_comm_cons, clickFirst_cons, Hsel, IH.
    simpl. now rewrite <- app_assoc.
Qed.

Lemma getContentFrame_from_cons w l c sel rest :
  Index.getContentFrame_from c (sel :: rest) (mkSt w l)
  = match frameVia w c sel with
    | Some f => (Ok (Some f), mkSt w (l ++ probes w c [sel]))
    | None => Index.getContentFrame_from c rest (mkSt w (l ++ probes w c [sel]))
    end.
Proof.
  simpl. unfold bind at 1. rewrite attempt_query.
  unfold frameVia, probes; simpl.
  destruct (found w c sel) as [h|]; simpl; [|reflexivity].
  unfold bind at 1. rewrite attempt_contentFrame.
  destruct (frameOf w h); simpl; rewrite <- !app_assoc; reflexivity.
Qed.

Lemma getContentFrame_from_skip w l c pre rest :
  Forall (fun sel => frameVia w c sel = None) pre ->
  Index.getContentFrame_from c (pre ++ rest) (mkSt w l)
  = Index.getContentFrame_from c rest (mkSt w (l ++ probes w c pre)).
Proof.
  intros H; revert l; induction H as [|sel pre Hsel _ IH]; intros l.
  - simpl. now rewrite app_nil_r.
  - rewrite <- app_comm_cons, getContentFrame_from_cons, Hsel, IH.
    rewrite <- app_assoc. change (sel :: pre) with ([sel] ++ pre).
    unfold probes. now rewrite flat_map_app.
Qed.

(** C1, as the code has it: when none of the first N candidates matches an
    element (a rejected query matches nothing) and candidate N+1 matches the
    element [h], typing clicks and types into [h] alone and returns true
    unless the typing itself is rejected, which is passed on; clicking clicks
    [h] alone and returns true; frame location returns the content frame of
    [h] when it is accessible and otherwise goes on with the later
    candidates.  No later candidate is queried once [h] is acted on. *)
Theorem cascade_priority w l c pre sel post h :
  Forall (fun s => found w c s = None) pre ->
  found w c sel = Some h ->
  (forall v,
     Index.waitAndTypeFirst c (pre ++ sel :: post) v (mkSt w l)
     = (match fst (type E h v 10 (snd (click E h 3 w))) with
        | Ok _ => Ok true
        | Throws e => Throws e
        end,
        mkSt (snd (type E h v 10 (snd (click E h 3 w))))
             (l ++ map (CQuery c) pre ++ [CQuery c sel; CClick h 3; CType h v 10]))) /\
  (forall wait,
     Index.clickFirst c (pre ++ sel :: post) wait (mkSt w l)
     = (Ok true,
        mkSt (if wait then sleep E 300 (snd (click E h 1 w)) else snd (click E h 1 w))
             (l ++ map (CQuery c) pre ++ [CQuery c sel; CClick h 1] ++
                (if wait then [CSleep 300] else [])))) /\
  (Index.getContentFrame_from c (pre ++ sel :: post) (mkSt w l)
   = match frameOf w h with
     | Some f =>
         (Ok (Some f), mkSt w (l ++ map (CQuery c) pre ++ [CQuery c sel; CContentFrame h]))
     | None =>
         Index.getContentFrame_from c post
           (mkSt w (l ++ map (CQuery c) pre ++ [CQuery c sel; CContentFrame h]))
     end).
Proof.
  intros Hpre Hsel. repeat split.
  - intros v. rewrite waitAndTypeFirst_skip by assumption.
    rewrite waitAndTypeFirst_cons, Hsel. simpl. now rewrite <- !app_assoc.
  - intros wait. rewrite clickFirst_skip by assumption.
    rewrite clickFirst_cons, Hsel. simpl. now rewrite <- !app_assoc.
  - assert (Hnone : Forall (fun s => frameVia w c s = None) pre).
    { eapply Forall_impl; [|exact Hpre]. intros s Hs. unfold frameVia. now rewrite Hs. }
    assert (Hprobes : probes w c pre = map (CQuery c) pre).
    { clear -Hpre. induction Hpre as [|s pre Hs _ IH]; [reflexivity|].
      unfold probes in *; simpl. now rewrite Hs, IH. }
    rewrite getContentFrame_from_skip by assumption.
    rewrite getContentFrame_from_cons, Hprobes.
    unfold frameVia, probes; simpl. rewrite Hsel.
    destruct (frameOf w h); simpl; now rewrite <- !app_assoc.
Qed.

End Cascades.

(** C1 at a concrete page: the form of the router, a candidate list whose
    first entry matches nothing and whose second is the primary input *)
Lemma cascade_priority_witness :
  Index.waitAndTypeFirst (Auto.Frame 1) (["input#nope"] ++ "input#dnsMainPri" :: ["input#dns1"])
    "1.1.1.1" (Sim.start (Sim.router true true false "" "" "" ""))
  = (Auto.Ok true,
     Auto.mkSt (E := Sim.engine (Sim.router true true false "" "" "" "")) 0
       [ Auto.CQuery (Auto.Frame 1) "input#nope";
         Auto.CQuery (Auto.Frame 1) "input#dnsMainPri";
         Auto.CClick 10 3; Auto.CType 10 "1.1.1.1" 10 ]).
Proof.
  refine (proj1 (@cascade_priority (Sim.engine (Sim.router true true false "" "" "" ""))
                   0 [] (Auto.Frame 1) ["input#nope"] "input#dnsMainPri" ["input#dns1"] 10
                   _ _) "1.1.1.1").
  - repeat constructor.
  - reflexivity.
Defined.

(** C1 as stated fails for frame location and for the reported result of
    typing.  On a page whose first matching iframe has no accessible
    document, the frame of a later candidate is returned; and typing into an
    input that rejects it reports no success. *)
Lemma cascade_priority_counterexample :
  (found (Sim.engine Sim.blockedFrame) 0 Auto.Page "iframe#menuIframe" = None /\
   found (Sim.engine Sim.blockedFrame) 0 Auto.Page
     (SELECTORS.iframeSrc "dhcp") = Some 8 /\
   found (Sim.engine Sim.blockedFrame) 0 Auto.Page "iframe" = Some 7 /\
   Index.getContentFrame Auto.Page (Sim.start Sim.blockedFrame)
   = (Auto.Ok (Some (Auto.Frame 1)),
      Auto.mkSt (E := Sim.engine Sim.blockedFrame) 0
        [ Auto.CQuery Auto.Page "iframe#menuIframe";
          Auto.CQuery Auto.Page (SELECTORS.iframeSrc "dhcp");
          Auto.CContentFrame 8;
          Auto.CQuery Auto.Page (SELECTORS.iframeSrc "bbsp");
          Auto.CQuery Auto.Page (SELECTORS.iframeSrc "lan");
          Auto.CQuery Auto.Page "iframe";
          Auto.CContentFrame 7 ])) /\
  (found (Sim.engine Sim.stuckPrimary) 0 (Auto.Frame 1) "input#dnsMainPri" = Some 10 /\
   Index.waitAndTypeFirst (Auto.Frame 1) SELECTORS.primaryDns "1.1.1.1"
     (Sim.start Sim.stuckPrimary)
   = (Auto.Throws "Node is detached from document",
      Auto.mkSt (E := Sim.engine Sim.stuckPrimary) 0
        [ Auto.CQuery (Auto.Frame 1) "input#dnsMainPri";
          Auto.CClick 10 3; Auto.CType 10 "1.1.1.1" 10 ])).
Proof. repeat split. Qed.

(** ** The two revisions of the cascade helpers *)

(** the elements a run clicked or typed into, with the typed text *)
Definition elementActions (l : list Auto.Call) : list (Auto.Handle * option string) :=
  flat_map (fun c => match c with
                     | Auto.CClick h _ => [(h, None)]
                     | Auto.CType h v _ => [(h, Some v)]
                     | _ => []
                     end) l.

Section Revisions.
Import Auto.
Variable E : Engine.
Implicit Types (w : World E) (l : list Call) (c : Ctx) (h : Handle).

Lemma elementActions_app l1 l2 :
  elementActions (l1 ++ l2) = elementActions l1 ++ elementActions l2.
Proof. unfold elementActions. apply flat_map_app. Qed.

Lemma part000_clickFirst_cons w l c sel rest wait :
  Part000.clickFirst c (sel :: rest) wait (mkSt w l)
  = match found E w c sel with
    | Some h =>
        let w1 := snd (click E h 1 w) in
        (Ok true,
         mkSt (if wait then sleep E 400 w1 else w1)
              (l ++ [CQuery c sel; CClick h 1] ++ (if wait then [CSleep 400] else [])))
    | None => Part000.clickFirst c rest wait (mkSt w (l ++ [CQuery c sel]))
    end.
Proof.
  simpl. unfold Index.query_, read, found; simpl.
  destruct (query E w c sel) as [[h|]|e]; try reflexivity.
  destruct wait.
  - unfold bind at 1. unfold bind at 1. rewrite attempt_click.
    unfold Index.sleep, step, ret; simpl. now rewrite <- !app_assoc.
  - unfold bind at 1. rewrite attempt_click.
    unfold ret; simpl. now rewrite <- !app_assoc.
Qed.

(** the clicking cascade is the same in both revisions, up to the length of
    the pause: same result, same element clicked, whatever the queries do *)
Lemma clickFirst_revisions_agree c sels wait w l :
  fst (Part000.clickFirst c sels wait (mkSt w l)) = fst (Index.clickFirst c sels wait (mkSt w l)) /\
  elementActions (log (snd (Part000.clickFirst c sels wait (mkSt w l))))
  = elementActions (log (snd (Index.clickFirst c sels wait (mkSt w l)))).
Proof.
  revert l; induction sels as [|sel rest IH]; intros l.
  - split; reflexivity.
  - rewrite part000_clickFirst_cons, clickFirst_cons.
    destruct (found E w c sel) as [h|]; [|apply IH].
    split; [reflexivity|]. simpl.
    rewrite !elementActions_app. destruct wait; reflexivity.
Qed.

Lemma part000_waitAndTypeFirst_cons w l c sel rest v r :
  query E w c sel = Ok r ->
  Part000.waitAndTypeFirst c (sel :: rest) v (mkSt w l)
  = match r with
    | Some h =>
        let w1 := snd (click E h 3 w) in
        (match fst (type E h v 20 w1) with
         | Ok _ => Ok true
         | Throws e => Throws e
         end,
         mkSt (snd (type E h v 20 w1)) (l ++ [CQuery c sel; CClick h 3; CType h v 20]))
    | None => Part000.waitAndTypeFirst c rest v (mkSt w (l ++ [CQuery c sel]))
    end.
Proof.
  intros Hq. simpl. unfold bind at 1. unfold Index.query_, read; simpl. rewrite Hq.
  destruct r as [h|]; [|reflexivity].
  unfold bind at 1. rewrite attempt_click.
  unfold bind, Index.type_, act, ret; simpl.
  destruct (type E h v 20 (snd (click E h 3 w))) as [[[]|e] w2]; simpl;
    rewrite <- !app_assoc; reflexivity.
Qed.

(** a rejected query ends the earlier typing cascade at once *)
Lemma part000_waitAndTypeFirst_rejected w l c sel rest v e :
  query E w c sel = Throws e ->
  Part000.waitAndTypeFirst c (sel :: rest) v (mkSt w l)
  = (Throws e, mkSt w (l ++ [CQuery c sel])).
Proof.
  intros Hq. simpl. unfold bind, Index.query_, read; simpl. now rewrite Hq.
Qed.

(** when no query is rejected, and typing does not depend on the key
    delay, the typing cascades of the two revisions agree *)
Lemma waitAndTypeFirst_revisions_agree c sels v w l :
  Forall (fun sel => exists r, query E w c sel = Ok r) sels ->
  (forall h w1, fst (type E h v 20 w1) = fst (type E h v 10 w1)) ->
  fst (Part000.waitAndTypeFirst c sels v (mkSt w l))
  = fst (Index.waitAndTypeFirst c sels v (mkSt w l)) /\
  elementActions (log (snd (Part000.waitAndTypeFirst c sels v (mkSt w l))))
  = elementActions (log (snd (Index.waitAndTypeFirst c sels v (mkSt w l)))).
Proof.
  intros Hq Hty; revert l; induction Hq as [|sel rest [r Hr] _ IH]; intros l.
  - split; reflexivity.
  - rewrite (@part000_waitAndTypeFirst_cons w l c sel rest v r Hr), waitAndTypeFirst_cons.
    unfold found; rewrite Hr. destruct r as [h|]; [|apply IH].
    simpl. rewrite Hty. split; [reflexivity|].
    rewrite !elementActions_app. reflexivity.
Qed.

End Revisions.

(** C9: in the earlier revision the typing cascade has no handler around the
    query.  On a list whose first pattern the engine rejects, the rejection
    ends the cascade and the matching second candidate is never tried, while
    the clicking cascade of the same revision skips the pattern. *)
Theorem part000_typing_cascade_rejection_is_fatal :
  Part000.waitAndTypeFirst Auto.Page Sim.tunedSelectors "admin" (Sim.start Sim.loginPage)
  = (Auto.Throws "SyntaxError: not a valid selector",
     Auto.mkSt (E := Sim.engine Sim.loginPage) 0 [ Auto.CQuery Auto.Page "input[name=" ]) /\
  found (Sim.engine Sim.loginPage) 0 Auto.Page "input#userName" = Some 1 /\
  Part000.clickFirst Auto.Page Sim.tunedButtons true (Sim.start Sim.loginPage)
  = (Auto.Ok true,
     Auto.mkSt (E := Sim.engine Sim.loginPage) 0
       [ Auto.CQuery Auto.Page "input[name="; Auto.CQuery Auto.Page "button#loginBtn";
         Auto.CClick 3 1; Auto.CSleep 400 ]).
Proof. repeat split. Qed.

(** C10: on the same list the two revisions of the typing cascade differ:
    the later one types into the second candidate and returns true, the
    earlier one is rejected without touching any element. *)
Theorem typing_cascade_revisions_differ :
  Index.waitAndTypeFirst Auto.Page Sim.tunedSelectors "admin" (Sim.start Sim.loginPage)
  = (Auto.Ok true,
     Auto.mkSt (E := Sim.engine Sim.loginPage) 0
       [ Auto.CQuery Auto.Page "input[name="; Auto.CQuery Auto.Page "input#userName";
         Auto.CClick 1 3; Auto.CType 1 "admin" 10 ]) /\
  fst (Part000.waitAndTypeFirst Auto.Page Sim.tunedSelectors "admin" (Sim.start Sim.loginPage))
  = Auto.Throws "SyntaxError: not a valid selector" /\
  elementActions
    (Auto.log (snd (Part000.waitAndTypeFirst Auto.Page Sim.tunedSelectors "admin"
                      (Sim.start Sim.loginPage))))
  = [].
Proof. repeat split. Qed.

(** ** Reasoning about runs *)

Section Runs.
Import Auto.
Variable E : Engine.
Local Open Scope auto_scope.

Lemma bind_ok {A B} (m : M E A) (k : A -> M E B) s a s' :
  m s = (Ok a, s') -> bind m k s = k a s'.
Proof. intros H; unfold bind; now rewrite H. Qed.

Lemma bind_throws {A B} (m : M E A) (k : A -> M E B) s e s' :
  m s = (Throws e, s') -> bind m k s = (Throws e, s').
Proof. intros H; unfold bind; now rewrite H. Qed.

Lemma bind_ext {A B} (m : M E A) (k k' : A -> M E B) s :
  (forall a s1, k a s1 = k' a s1) -> bind m k s = bind m k' s.
Proof. intros H. unfold bind. destruct (m s) as [[a|e] s1]; [apply H|reflexivity]. Qed.

Lemma bind_ret_l {A B} (a : A) (k : A -> M E B) s : bind (ret a) k s = k a s.
Proof. reflexivity. Qed.

Lemma bind_bind {A B C} (m : M E A) (f : A -> M E B) (g : B -> M E C) s :
  bind (bind m f) g s = bind m (fun a => bind (f a) g) s.
Proof. unfold bind. destruct (m s) as [[a|e] s1]; reflexivity. Qed.

(** [m] never rejects *)
Definition safe {A} (m : M E A) : Prop := forall s, exists a s', m s = (Ok a, s').

Lemma safe_ret {A} (a : A) : safe (ret a).
Proof. intros s; now exists a, s. Qed.

Lemma safe_bind {A B} (m : M E A) (k : A -> M E B) :
  safe m -> (forall a, safe (k a)) -> safe (bind m k).
Proof.
  intros Hm Hk s. destruct (Hm s) as (a & s1 & H1).
  destruct (Hk a s1) as (b & s2 & H2). exists b, s2.
  unfold bind; now rewrite H1.
Qed.

Lemma safe_catch {A} (m : M E A) (h : string -> M E A) :
  (forall e, safe (h e)) -> safe (catch m h).
Proof.
  intros Hh s. unfold catch. destruct (m s) as [[a|e] s1]; [now exists a, s1|apply Hh].
Qed.

Lemma safe_attempt {A} (m : M E A) (dflt : A) : safe (attempt m dflt).
Proof. apply safe_catch; intros _; apply safe_ret. Qed.

Lemma safe_emit c : safe (emit c).
Proof. intros s; now eexists _, _. Qed.

Lemma safe_step c f : safe (step c f).
Proof. intros s; now eexists _, _. Qed.

Lemma safe_sleep ms : safe (Index.sleep ms).
Proof. apply safe_step. Qed.

Lemma safe_if {A} (b : bool) (m1 m2 : M E A) : safe m1 -> safe m2 -> safe (if b then m1 else m2).
Proof. now destruct b. Qed.

(** every call [m] logs satisfies [P] *)
Definition emits {A} (P : Call -> bool) (m : M E A) : Prop :=
  forall s, exists d, log (snd (m s)) = log s ++ d /\ forallb P d = true.

Lemma emits_ret {A} P (a : A) : emits P (ret a).
Proof. intros s; exists []; simpl; now rewrite app_nil_r. Qed.

Lemma emits_throw {A} P e : emits (A := A) P (throw e).
Proof. intros s; exists []; simpl; now rewrite app_nil_r. Qed.

Lemma emits_bind {A B} P (m : M E A) (k : A -> M E B) :
  emits P m -> (forall a, emits P (k a)) -> emits P (bind m k).
Proof.
  intros Hm Hk s. destruct (Hm s) as (d1 & H1 & P1). unfold bind.
  destruct (m s) as [[a|e] s1]; simpl in H1.
  - destruct (Hk a s1) as (d2 & H2 & P2). exists (d1 ++ d2).
    rewrite H2, H1, app_assoc, forallb_app, P1, P2. now split.
  - exists d1. now split.
Qed.

Lemma emits_catch {A} P (m : M E A) (h : string -> M E A) :
  emits P m -> (forall e, emits P (h e)) -> emits P (catch m h).
Proof.
  intros Hm Hh s. destruct (Hm s) as (d1 & H1 & P1). unfold catch.
  destruct (m s) as [[a|e] s1]; simpl in H1.
  - exists d1. now split.
  - destruct (Hh e s1) as (d2 & H2 & P2). exists (d1 ++ d2).
    rewrite H2, H1, app_assoc, forallb_app, P1, P2. now split.
Qed.

Lemma emits_attempt {A} P (m : M E A) (dflt : A) : emits P m -> emits P (attempt m dflt).
Proof. intros Hm; apply emits_catch; [assumption|intros _; apply emits_ret]. Qed.

Lemma emits_one {A} P c (m : M E A) :
  P c = true -> (forall s, log (snd (m s)) = log s ++ [c]) -> emits P m.
Proof. intros HP H s. exists [c]. simpl. now rewrite HP, H. Qed.

Lemma emits_emit P c : P c = true -> emits P (emit c).
Proof. intros HP; now apply (emits_one P c). Qed.

Lemma emits_step P c f : P c = true -> emits P (step c f).
Proof. intros HP; now apply (emits_one P c). Qed.

Lemma emits_read {A} P c (f : World E -> Res A) : P c = true -> emits P (read c f).
Proof. intros HP; now apply (emits_one P c). Qed.

Lemma emits_act {A} P c (f : World E -> Res A * World E) : P c = true -> emits P (act c f).
Proof.
  intros HP; apply (emits_one P c); [assumption|].
  intros s. unfold act. now destruct (f (world s)).
Qed.

Lemma emits_evaluate {A} P c sid (f : Dom.Document -> option A * Dom.Document) :
  P (CEvaluate c sid) = true -> emits P (Index.evaluate c sid f).
Proof.
  intros HP; apply (emits_one P (CEvaluate c sid)); [assumption|].
  intros s. unfold Index.evaluate.
  destruct (document E (world s) c) as [d|e]; [|reflexivity].
  destruct (f d) as [[a|] d']; reflexivity.
Qed.

Lemma emits_if {A} P (b : bool) (m1 m2 : M E A) :
  emits P m1 -> emits P m2 -> emits P (if b then m1 else m2).
Proof. now destruct b. Qed.

End Runs.

Arguments bind_ok {E A B} m k {s a s'} _.
Arguments bind_throws {E A B} m k {s e s'} _.

(** the calls of a program are found by going through its structure *)
Ltac emits_step_tac :=
  first
    [ match goal with H : emits ?P ?m |- emits ?P ?m => exact H end
    | apply emits_ret | apply emits_throw
    | apply emits_bind; [|intros ?]
    | apply emits_attempt | apply emits_catch; [|intros ?]
    | apply emits_emit; solve [reflexivity | auto]
    | apply emits_step; solve [reflexivity | auto]
    | apply emits_read; solve [reflexivity | auto]
    | apply emits_act; solve [reflexivity | auto]
    | apply emits_evaluate; solve [reflexivity | auto]
    | match goal with
      | |- emits _ (if ?b then _ else _) => destruct b
      | |- emits _ (match ?o with Some _ => _ | None => _ end) => destruct o
      | |- emits _ (let '(_, _) := ?p in _) => destruct p
      end ].

Ltac emits_tac :=
  unfold Index.query_, Index.click_, Index.type_, Index.sleep, Index.contentFrame_,
    Index.waitForSelector_, Index.orElse;
  repeat emits_step_tac.

Ltac safe_step_tac :=
  first
    [ match goal with H : safe ?m |- safe ?m => exact H end
    | apply safe_ret | apply safe_attempt | apply safe_emit | apply safe_step
    | apply safe_bind; [|intros ?]
    | match goal with
      | |- safe (if ?b then _ else _) => destruct b
      | |- safe (match ?o with Some _ => _ | None => _ end) => destruct o
      | |- safe (let '(_, _) := ?p in _) => destruct p
      end ].

Ltac safe_tac := unfold Index.sleep, Index.orElse; repeat safe_step_tac.

(** ** What the helpers log, and which of them never reject *)

Section Helpers.
Import Auto.
Variable E : Engine.
Variable P : Call -> bool.
Local Open Scope auto_scope.

Lemma emits_waitAndTypeFirst c sels v :
  forallb (fun sel => P (CQuery c sel)) sels = true ->
  (forall h, P (CClick h 3) = true) ->
  (forall h, P (CType h v 10) = true) ->
  emits P (Index.waitAndTypeFirst (E := E) c sels v).
Proof.
  intros Hq Hc Ht. induction sels as [|sel rest IH]; simpl.
  - apply emits_ret.
  - simpl in Hq. apply andb_prop in Hq as [Hsel Hrest]. specialize (IH Hrest).
    emits_tac.
Qed.

Lemma emits_clickFirst c sels wait :
  forallb (fun sel => P (CQuery c sel)) sels = true ->
  (forall h, P (CClick h 1) = true) ->
  P (CSleep 300) = true ->
  emits P (Index.clickFirst (E := E) c sels wait).
Proof.
  intros Hq Hc Hs. induction sels as [|sel rest IH]; simpl.
  - apply emits_ret.
  - simpl in Hq. apply andb_prop in Hq as [Hsel Hrest]. specialize (IH Hrest).
    emits_tac.
Qed.

Lemma emits_getContentFrame_from c sels :
  forallb (fun sel => P (CQuery c sel)) sels = true ->
  (forall h, P (CContentFrame h) = true) ->
  emits P (Index.getContentFrame_from (E := E) c sels).
Proof.
  intros Hq Hc. induction sels as [|sel rest IH]; simpl.
  - apply emits_ret.
  - simpl in Hq. apply andb_prop in Hq as [Hsel Hrest]. specialize (IH Hrest).
    emits_tac.
Qed.

Lemma emits_clickByText c text :
  P (CEvaluate c (SClickByText text)) = true -> P (CSleep 300) = true ->
  emits P (Index.clickByText (E := E) c text).
Proof. intros H1 H2. unfold Index.clickByText. emits_tac. Qed.

Lemma emits_clickByTextInContext c text :
  P (CEvaluate c (SClickByTextInContext (Js.toLowerCase text))) = true ->
  P (CSleep 300) = true ->
  emits P (Index.clickByTextInContext (E := E) c text).
Proof. intros H1 H2. unfold Index.clickByTextInContext. emits_tac. Qed.

Lemma safe_getContentFrame_from c sels : safe (Index.getContentFrame_from (E := E) c sels).
Proof. induction sels as [|sel rest IH]; simpl; safe_tac. Qed.

Lemma safe_clickFirst c sels wait : safe (Index.clickFirst (E := E) c sels wait).
Proof. induction sels as [|sel rest IH]; simpl; safe_tac. Qed.

Lemma safe_clickByTextInContext c text : safe (Index.clickByTextInContext (E := E) c text).
Proof. unfold Index.clickByTextInContext. safe_tac. Qed.

Lemma safe_readDnsValuesFromFrame c : safe (Index.readDnsValuesFromFrame (E := E) c).
Proof. apply safe_attempt. Qed.

Lemma safe_saveChanges c : safe (Index.saveChanges (E := E) c).
Proof.
  unfold Index.saveChanges.
  pose proof (safe_clickFirst c SELECTORS.saveButtons true).
  pose proof (fun t => safe_clickByTextInContext c t).
  safe_tac; auto.
Qed.

End Helpers.

(** ** The DNS field resolver *)

Section Resolver.
Import Auto.
Variable E : Engine.
Local Open Scope auto_scope.

Definition primaryLabels : list string :=
  ["Primary DNS Server"; "Primary DNS"; "Servidor DNS primário"; "Preferred DNS"].

Definition secondaryLabels : list string :=
  ["Secondary DNS Server"; "Secondary DNS"; "Servidor DNS secundário"; "Alternate DNS"].

(** the call is a label lookup with one of [labels] *)
Definition labelLookup (labels : list string) (c : Call) : bool :=
  match c with
  | CEvaluate _ (SSetInputByLabel l _) => existsb (String.eqb l) labels
  | _ => false
  end.

Ltac tiers_emits :=
  repeat first
    [ apply emits_waitAndTypeFirst; [reflexivity | intros ?; reflexivity | intros ?; reflexivity]
    | progress (unfold Index.primaryByLabel, Index.secondaryByLabel, Index.setInputByLabel,
                Index.setDnsByHeuristic)
    | progress emits_tac ].

Lemma primary_set_skips_its_labels (frame : Ctx) (dns1 dns2 : string) (s s1 : St E) r s' :
  Index.waitAndTypeFirst frame SELECTORS.primaryDns dns1 s = (Ok true, s1) ->
  Index.setDnsValues_tiers frame dns1 dns2 s = (r, s') ->
  exists d, log s' = log s ++ d /\
            forallb (fun c => negb (labelLookup primaryLabels c)) d = true.
Proof.
  intros H1 Ht.
  assert (E1 : emits (fun c => negb (labelLookup primaryLabels c))
                 (Index.waitAndTypeFirst (E := E) frame SELECTORS.primaryDns dns1))
    by tiers_emits.
  destruct (E1 s) as (d1 & L1 & P1). rewrite H1 in L1; simpl in L1.
  unfold Index.setDnsValues_tiers in Ht. rewrite (bind_ok _ _ H1) in Ht.
  simpl negb in Ht. cbv iota in Ht.
  match type of Ht with
  | ?K s1 = _ =>
      assert (E2 : emits (fun c => negb (labelLookup primaryLabels c)) K) by tiers_emits
  end.
  destruct (E2 s1) as (d2 & L2 & P2). rewrite Ht in L2; simpl in L2.
  exists (d1 ++ d2). rewrite L2, L1, app_assoc, forallb_app, P1, P2. now split.
Qed.

Lemma secondary_set_skips_its_labels (frame : Ctx) (dns1 dns2 : string) (s s1 s2 : St E)
    b1 r s' :
  Index.waitAndTypeFirst frame SELECTORS.primaryDns dns1 s = (Ok b1, s1) ->
  (if Js.truthy dns2
   then Index.waitAndTypeFirst frame SELECTORS.secondaryDns dns2
   else ret true) s1 = (Ok true, s2) ->
  Index.setDnsValues_tiers frame dns1 dns2 s = (r, s') ->
  exists d, log s' = log s ++ d /\
            forallb (fun c => negb (labelLookup secondaryLabels c)) d = true.
Proof.
  intros H1 H2 Ht.
  assert (E1 : emits (fun c => negb (labelLookup secondaryLabels c))
                 (Index.waitAndTypeFirst (E := E) frame SELECTORS.primaryDns dns1))
    by tiers_emits.
  destruct (E1 s) as (d1 & L1 & P1). rewrite H1 in L1; simpl in L1.
  assert (E2 : emits (fun c => negb (labelLookup secondaryLabels c))
                 (if Js.truthy dns2
                  then Index.waitAndTypeFirst (E := E) frame SELECTORS.secondaryDns dns2
                  else ret true))
    by tiers_emits.
  destruct (E2 s1) as (d2 & L2 & P2). rewrite H2 in L2; simpl in L2.
  unfold Index.setDnsValues_tiers in Ht.
  rewrite (bind_ok _ _ H1), (bind_ok _ _ H2) in Ht.
  simpl negb in Ht. simpl andb in Ht. cbv iota in Ht.
  match type of Ht with
  | ?K s2 = _ =>
      assert (E3 : emits (fun c => negb (labelLookup secondaryLabels c)) K) by tiers_emits
  end.
  destruct (E3 s2) as (d3 & L3 & P3). rewrite Ht in L3; simpl in L3.
  exists (d1 ++ d2 ++ d3).
  rewrite L3, L2, L1, <- !app_assoc, !forallb_app, P1, P2, P3. now split.
Qed.

(** C3: a tier is attempted only when the tier before it has failed.  When
    the selector cascades set both fields, the resolver ends in the very
    state they left: neither the labels nor the heuristic scan run or write.
    When every requested field is set by its cascade or, failing that, by
    its labels, the resolver ends in the state the labels left and the
    heuristic scan does not run.  And a field set by its cascade is never
    looked up by label, whatever happens to the other field. *)
Theorem tiers_fall_through_only_on_failure (frame : Ctx) (dns1 dns2 : string) (s : St E) :
  (forall s1 s2,
     Index.waitAndTypeFirst frame SELECTORS.primaryDns dns1 s = (Ok true, s1) ->
     (if Js.truthy dns2
      then Index.waitAndTypeFirst frame SELECTORS.secondaryDns dns2
      else ret true) s1 = (Ok true, s2) ->
     Index.setDnsValues_tiers frame dns1 dns2 s = (Ok (true, true), s2)) /\
  (forall b1 b2 s1 s2 s3 s4,
     Index.waitAndTypeFirst frame SELECTORS.primaryDns dns1 s = (Ok b1, s1) ->
     (if Js.truthy dns2
      then Index.waitAndTypeFirst frame SELECTORS.secondaryDns dns2
      else ret true) s1 = (Ok b2, s2) ->
     (if b1 then ret true else Index.primaryByLabel frame dns1) s2 = (Ok true, s3) ->
     (if b2 then ret true else Index.secondaryByLabel frame dns2) s3 = (Ok true, s4) ->
     Index.setDnsValues_tiers frame dns1 dns2 s = (Ok (true, true), s4)) /\
  (forall b1 b2 s1 s2 r s',
     Index.waitAndTypeFirst frame SELECTORS.primaryDns dns1 s = (Ok b1, s1) ->
     (if Js.truthy dns2
      then Index.waitAndTypeFirst frame SELECTORS.secondaryDns dns2
      else ret true) s1 = (Ok b2, s2) ->
     Index.setDnsValues_tiers frame dns1 dns2 s = (r, s') ->
     exists d, log s' = log s ++ d /\
       (b1 = true -> forallb (fun c => negb (labelLookup primaryLabels c)) d = true) /\
       (b2 = true -> forallb (fun c => negb (labelLookup secondaryLabels c)) d = true)).
Proof.
  assert (General : forall b1 b2 s1 s2 s3 s4,
     Index.waitAndTypeFirst frame SELECTORS.primaryDns dns1 s = (Ok b1, s1) ->
     (if Js.truthy dns2
      then Index.waitAndTypeFirst frame SELECTORS.secondaryDns dns2
      else ret true) s1 = (Ok b2, s2) ->
     (if b1 then ret true else Index.primaryByLabel frame dns1) s2 = (Ok true, s3) ->
     (if b2 then ret true else Index.secondaryByLabel frame dns2) s3 = (Ok true, s4) ->
     Index.setDnsValues_tiers frame dns1 dns2 s = (Ok (true, true), s4)).
  { intros b1 b2 s1 s2 s3 s4 H1 H2 H3 H4.
    unfold Index.setDnsValues_tiers.
    rewrite (bind_ok _ _ H1), (bind_ok _ _ H2).
    destruct (Js.truthy dns2), b1, b2; try discriminate H2; simpl negb; cbv iota;
      rewrite (bind_ok _ _ H3); simpl andb; cbv iota;
      rewrite (bind_ok _ _ H4); reflexivity. }
  split; [|split; [exact General|]].
  - intros s1 s2 H1 H2. exact (General true true s1 s2 s2 s2 H1 H2 eq_refl eq_refl).
  - intros b1 b2 s1 s2 r s' H1 H2 Ht.
    assert (Hd : exists d, log s' = log s ++ d).
    { assert (Eall : emits (fun _ => true) (Index.setDnsValues_tiers (E := E) frame dns1 dns2)).
      { unfold Index.setDnsValues_tiers. tiers_emits. }
      destruct (Eall s) as (d & L & _). rewrite Ht in L. eauto. }
    destruct Hd as (d & Ld). exists d. split; [exact Ld|]. split.
    + intros ->. destruct (@primary_set_skips_its_labels frame dns1 dns2 s s1 r s' H1 Ht) as (d' & L' & P').
      rewrite Ld in L'. apply app_inv_head in L'. now subst d'.
    + intros ->. destruct (@secondary_set_skips_its_labels frame dns1 dns2 s s1 s2 b1 r s' H1 H2 Ht)
        as (d' & L' & P').
      rewrite Ld in L'. apply app_inv_head in L'. now subst d'.
Qed.

(** C4, as the code has it.  [setDnsValues] raises when no content frame is
    found, before any tier runs.  With the frame found, a rejection inside
    the tiers is passed on; and when the tiers complete with [(ok1, ok2)] it
    raises exactly when [ok1] is false, whatever [ok2] is and whether or not
    a secondary value was requested (in debug mode, provided the dump of the
    inputs can read the document). *)
Theorem setDnsValues_raises (page : Ctx) (dns1 dns2 : string) (debug : bool) (s : St E) :
  (forall s1,
     Index.getContentFrame page s = (Ok None, s1) ->
     Index.setDnsValues page dns1 dns2 debug s
     = (Throws "Content frame not found (menuIframe).", s1)) /\
  (forall frame s1 e s3,
     Index.getContentFrame page s = (Ok (Some frame), s1) ->
     Index.setDnsValues_tiers frame dns1 dns2
       (snd ((attempt (Index.ensureManualDns frame ;;; ret tt) tt ;;; Index.sleep 300) s1))
     = (Throws e, s3) ->
     Index.setDnsValues page dns1 dns2 debug s = (Throws e, s3)) /\
  (forall frame s1 ok1 ok2 s3,
     Index.getContentFrame page s = (Ok (Some frame), s1) ->
     Index.setDnsValues_tiers frame dns1 dns2
       (snd ((attempt (Index.ensureManualDns frame ;;; ret tt) tt ;;; Index.sleep 300) s1))
     = (Ok (ok1, ok2), s3) ->
     (debug = true -> exists d, document E (world s3) frame = Ok d) ->
     fst (Index.setDnsValues page dns1 dns2 debug s)
     = if ok1 then Ok tt
       else Throws "Could not locate the Primary DNS field in the DHCP page.").
Proof.
  assert (Hpre : forall frame s1,
            (attempt (Index.ensureManualDns frame ;;; ret tt) tt ;;; Index.sleep 300) s1
            = (Ok tt, snd ((attempt (Index.ensureManualDns frame ;;; ret tt) tt ;;;
                            Index.sleep (E := E) 300) s1))).
  { intros frame s1.
    assert (Hs : safe (attempt (Index.ensureManualDns (E := E) frame ;;; ret tt) tt ;;;
                       Index.sleep 300)) by safe_tac.
    destruct (Hs s1) as ([] & s2 & H). now rewrite H. }
  split; [|split].
  - intros s1 H. unfold Index.setDnsValues. now rewrite (bind_ok _ _ H).
  - intros frame s1 e s3 H Ht. unfold Index.setDnsValues.
    rewrite (bind_ok _ _ H), <- bind_bind, (bind_ok _ _ (Hpre frame s1)).
    now rewrite (bind_throws _ _ Ht).
  - intros frame s1 ok1 ok2 s3 H Ht Hdoc. unfold Index.setDnsValues.
    rewrite (bind_ok _ _ H), <- bind_bind, (bind_ok _ _ (Hpre frame s1)).
    rewrite (bind_ok _ _ Ht).
    destruct debug.
    + destruct (Hdoc eq_refl) as [d Hd].
      unfold bind, Index.evaluate, Index.pure, emit, ret, throw; simpl.
      destruct ok1, ok2, (Js.truthy dns2); simpl; try rewrite Hd; reflexivity.
    + unfold bind, emit, ret, throw; simpl. destruct ok1; reflexivity.
Qed.

End Resolver.

(** C3 on the page of the specification: the form exposes [input#dnsMainPri]
    and [input#dnsMainSec]; the cascades set both and nothing else runs *)
Lemma tiers_fall_through_only_on_failure_witness :
  Index.setDnsValues_tiers (Auto.Frame 1) "1.1.1.1" "1.0.0.1"
    (Sim.start (Sim.router true true false "" "" "" ""))
  = (Auto.Ok (true, true),
     Auto.mkSt (E := Sim.engine (Sim.router true true false "" "" "" "")) 0
       [ Auto.CQuery (Auto.Frame 1) "input#dnsMainPri";
         Auto.CClick 10 3; Auto.CType 10 "1.1.1.1" 10;
         Auto.CQuery (Auto.Frame 1) "input#dnsMainSec";
         Auto.CClick 11 3; Auto.CType 11 "1.0.0.1" 10 ]).
Proof.
  refine (proj1 (@tiers_fall_through_only_on_failure
                   (Sim.engine (Sim.router true true false "" "" "" ""))
                   (Auto.Frame 1) "1.1.1.1" "1.0.0.1"
                   (Sim.start (Sim.router true true false "" "" "" "")))
                _ _ _ _).
  - reflexivity.
  - reflexivity.
Defined.

(** C4 on a form without any secondary input: a secondary value is
    requested, no tier can set it, and nothing is raised *)
Lemma setDnsValues_raises_witness :
  fst (Index.setDnsValues Auto.Page "1.1.1.1" "1.0.0.1" false (Sim.start Sim.primaryOnly))
  = Auto.Ok tt /\
  fst (Index.setDnsValues_tiers (Auto.Frame 1) "1.1.1.1" "1.0.0.1"
         (snd ((Auto.bind (Auto.attempt (Auto.bind (Index.ensureManualDns (Auto.Frame 1))
                                           (fun _ => Auto.ret tt)) tt)
                  (fun _ => Index.sleep 300))
                 (snd (Index.getContentFrame Auto.Page (Sim.start Sim.primaryOnly))))))
  = Auto.Ok (true, false).
Proof.
  split; [|vm_compute; reflexivity].
  refine (proj2 (proj2 (@setDnsValues_raises (Sim.engine Sim.primaryOnly)
                          Auto.Page "1.1.1.1" "1.0.0.1" false (Sim.start Sim.primaryOnly)))
                (Auto.Frame 1) _ true false _ _ _ _).
  - vm_compute; reflexivity.
  - vm_compute; reflexivity.
  - discriminate.
Defined.

(** C4 as stated fails.  With no content frame the resolver raises before
    any tier is attempted; and with the primary field set by its cascade, a
    secondary input that rejects typing makes the resolver raise. *)
Lemma setDnsValues_raises_counterexample :
  Index.setDnsValues Auto.Page "1.1.1.1" "" false (Sim.start Sim.loginPage)
  = (Auto.Throws "Content frame not found (menuIframe).",
     Auto.mkSt (E := Sim.engine Sim.loginPage) 0
       (map (Auto.CQuery Auto.Page) SELECTORS.contentFrames)) /\
  Index.waitAndTypeFirst (Auto.Frame 1) SELECTORS.primaryDns "1.1.1.1"
    (Sim.start Sim.stuckSecondary)
  = (Auto.Ok true,
     Auto.mkSt (E := Sim.engine Sim.stuckSecondary) 0
       [ Auto.CQuery (Auto.Frame 1) "input#dnsMainPri";
         Auto.CClick 10 3; Auto.CType 10 "1.1.1.1" 10 ]) /\
  fst (Index.setDnsValues Auto.Page "1.1.1.1" "1.0.0.1" false (Sim.start Sim.stuckSecondary))
  = Auto.Throws "Node is detached from document".
Proof. split; [|split]; vm_compute; reflexivity. Qed.

(** ** Menu navigation and verification *)

(** the call that opens a walk through the menu: the query for the
    top-level entry *)
Definition is_nav (c : Auto.Call) : bool :=
  match c with
  | Auto.CQuery _ sel => (sel =? "#addconfig")%string
  | _ => false
  end.

(** a read-back of the DNS values *)
Definition is_poll (c : Auto.Call) : bool :=
  match c with
  | Auto.CEvaluate _ Auto.SReadDns => true
  | _ => false
  end.

(** a line on the error stream *)
Definition is_error (c : Auto.Call) : bool :=
  match c with
  | Auto.CError _ => true
  | _ => false
  end.

Definition quiet (c : Auto.Call) : bool :=
  negb (is_nav c) && negb (is_poll c) && negb (is_error c).

Definition navs (d : list Auto.Call) : nat := List.length (List.filter is_nav d).
Definition polls (d : list Auto.Call) : nat := List.length (List.filter is_poll d).

(** the calls before the first walk through the menu, and those after its
    opening query *)
Fixpoint before_nav (d : list Auto.Call) : list Auto.Call :=
  match d with
  | [] => []
  | c :: r => if is_nav c then [] else c :: before_nav r
  end.

Fixpoint after_nav (d : list Auto.Call) : list Auto.Call :=
  match d with
  | [] => []
  | c :: r => if is_nav c then r else after_nav r
  end.

Lemma navs_app d1 d2 : navs (d1 ++ d2) = navs d1 + navs d2.
Proof. unfold navs. now rewrite filter_app, length_app. Qed.

Lemma polls_app d1 d2 : polls (d1 ++ d2) = polls d1 + polls d2.
Proof. unfold polls. now rewrite filter_app, length_app. Qed.

Lemma quiet_counts d : forallb quiet d = true -> navs d = 0 /\ polls d = 0.
Proof.
  induction d as [|c d IH]; simpl; [now split|].
  intros H. apply andb_prop in H as [Hc Hd]. destruct (IH Hd) as [IH1 IH2].
  unfold quiet in Hc. apply andb_prop in Hc as [Hc _]. apply andb_prop in Hc as [Hn Hp].
  unfold navs, polls in *; simpl.
  destruct (is_nav c), (is_poll c); simpl in *; try discriminate. now split.
Qed.

Lemma before_nav_app d1 d2 : navs d1 = 0 -> before_nav (d1 ++ d2) = d1 ++ before_nav d2.
Proof.
  induction d1 as [|c d1 IH]; simpl; [reflexivity|].
  unfold navs in *; simpl. destruct (is_nav c); simpl; [discriminate|].
  intros H. now rewrite IH.
Qed.

Lemma after_nav_app d1 d2 : navs d1 = 0 -> after_nav (d1 ++ d2) = after_nav d2.
Proof.
  induction d1 as [|c d1 IH]; simpl; [reflexivity|].
  unfold navs in *; simpl. destruct (is_nav c); simpl; [discriminate|].
  intros H. now rewrite IH.
Qed.

Section Navigation.
Import Auto.
Variable E : Engine.
Local Open Scope auto_scope.

Lemma emits_getContentFrame P page :
  forallb (fun sel => P (CQuery page sel)) SELECTORS.contentFrames = true ->
  (forall h, P (CContentFrame h) = true) ->
  emits P (Index.getContentFrame (E := E) page).
Proof. intros; now apply emits_getContentFrame_from. Qed.

Ltac nav_emits :=
  repeat first
    [ apply emits_getContentFrame; [reflexivity | intros ?; reflexivity]
    | apply emits_clickByText; reflexivity
    | progress emits_tac ].

Lemma quiet_title page debug : emits quiet (Index.navigateToDns_title (E := E) page debug).
Proof. unfold Index.navigateToDns_title. nav_emits. Qed.

Lemma quiet_dhcp page debug : emits quiet (Index.navigateToDns_dhcp (E := E) page debug).
Proof.
  pose proof (quiet_title page debug).
  unfold Index.navigateToDns_dhcp. nav_emits.
Qed.

Lemma quiet_lan page debug : emits quiet (Index.navigateToDns_lan (E := E) page debug).
Proof.
  pose proof (quiet_dhcp page debug).
  unfold Index.navigateToDns_lan. nav_emits.
Qed.

(** a walk through the menu logs its opening query once, and no read-back *)
Lemma navigateToDns_log page (s : St E) :
  exists d, log (snd (Index.navigateToDns page false s))
            = log s ++ CQuery page "#addconfig" :: d /\
            forallb quiet d = true.
Proof.
  pose proof (quiet_lan page false) as Hlan.
  unfold Index.navigateToDns.
  destruct s as [w l].
  rewrite (bind_ok _ _ (s := mkSt w l) (a := tt) (s' := mkSt w l) eq_refl).
  rewrite (bind_ok _ _ (attempt_query E w l page "#addconfig")).
  match goal with
  | |- exists d, log (snd (?K ?s1)) = _ /\ _ =>
      assert (HK : emits quiet K) by nav_emits;
      destruct (HK s1) as (d & L & Pd)
  end.
  exists d. simpl in L. rewrite L, <- app_assoc. now split.
Qed.

Lemma readDnsValuesFromFrame_log frame (s : St E) :
  exists vals s', Index.readDnsValuesFromFrame frame s = (Ok vals, s') /\
                  log s' = log s ++ [CEvaluate frame SReadDns].
Proof.
  unfold Index.readDnsValuesFromFrame, attempt, catch, Index.evaluate, Index.pure.
  destruct (document E (world s) frame) as [d|e]; simpl;
    eexists _, _; split; reflexivity.
Qed.

End Navigation.

Section Verification.
Import Auto.
Variable E : Engine.
Variables (page : Ctx) (expected1 expected2 : string) (retries : Z) (delayMs : N).
Local Open Scope auto_scope.

(** the calls of the polling loop with [n] iterations left: at most one walk
    through the menu, none when fewer than two iterations are left, and a
    walk is preceded by [n - 1] read-backs and followed by at most one *)
Lemma verifyDnsApplied_loop_log (n : nat) :
  forall (i : Z) (s : St E),
    (Z.of_nat n + i = retries)%Z ->
    exists d,
      log (snd (Index.verifyDnsApplied_loop n i page expected1 expected2 retries delayMs s))
      = log s ++ d /\
      navs d <= 1 /\ polls d <= n /\ (n <= 1 -> navs d = 0) /\
      (navs d = 1 -> S (polls (before_nav d)) = n /\ polls (after_nav d) <= 1) /\
      (2 <= n -> polls d = n -> navs d = 1).
Proof.
  induction n as [|n IH]; intros i s Hi.
  - exists []. simpl. rewrite app_nil_r. repeat split; auto; try discriminate; lia.
  - simpl Index.verifyDnsApplied_loop.
    assert (Hf : emits quiet (Index.getContentFrame (E := E) page))
      by (apply emits_getContentFrame; [reflexivity | intros ?; reflexivity]).
    destruct (Hf s) as (df & Lf & Pf). destruct (quiet_counts _ Pf) as [Nf Qf].
    unfold bind at 1.
    destruct (Index.getContentFrame page s) as [[[frame|]|e] s1]; simpl in Lf;
      try (exists df; simpl; rewrite Lf, Nf, Qf;
           repeat split; auto with arith; try discriminate; lia).
    destruct (readDnsValuesFromFrame_log frame s1) as (vals & s2 & Hr & Lr).
    rewrite (bind_ok _ _ Hr).
    assert (Nx : navs (df ++ [CEvaluate frame SReadDns]) = 0)
      by (rewrite navs_app, Nf; reflexivity).
    assert (Qx : polls (df ++ [CEvaluate frame SReadDns]) = 1)
      by (rewrite polls_app, Qf; reflexivity).
    destruct ((fst vals =? expected1)%string &&
              (negb (Js.truthy expected2) || (snd vals =? expected2)%string)).
    + exists (df ++ [CEvaluate frame SReadDns]). simpl.
      rewrite Lr, Lf, <- app_assoc, Nx, Qx.
      repeat split; auto with arith; try discriminate; lia.
    + unfold bind at 1. unfold Index.sleep at 1, step at 1.
      set (s3 := mkSt (sleep E delayMs (world s2)) (log s2 ++ [CSleep delayMs])).
      set (X := df ++ [CEvaluate frame SReadDns; CSleep delayMs]).
      assert (L3 : log s3 = log s ++ X).
      { unfold s3, X; simpl. rewrite Lr, Lf, <- !app_assoc. reflexivity. }
      assert (NX : navs X = 0) by (unfold X; rewrite navs_app, Nf; reflexivity).
      assert (QX : polls X = 1) by (unfold X; rewrite polls_app, Qf; reflexivity).
      destruct (Z.eqb_spec i (retries - 2)) as [Heq|Hne].
      * (* exactly one retry remains: walk the menu again *)
        assert (Hn : n = 1%nat) by lia. subst n.
        destruct (navigateToDns_log page s3) as (dq & Ln & Pq).
        destruct (quiet_counts _ Pq) as [Nq Qq].
        unfold bind at 1. unfold attempt at 1, catch at 1. unfold bind at 1.
        destruct (Index.navigateToDns page false s3) as [[r|e] s4]; simpl in Ln;
          simpl ret;
          (destruct (IH (i + 1)%Z s4 ltac:(lia)) as (dr & Lrest & N1 & Q1 & N0 & _);
           specialize (N0 (le_n 1));
           exists (X ++ (CQuery page "#addconfig" :: dq) ++ dr);
           simpl snd in *; simpl log in *;
           (split; [rewrite Lrest, Ln, L3, <- !app_assoc; reflexivity|]);
           assert (Nall : navs (X ++ (CQuery page "#addconfig" :: dq) ++ dr) = 1)
             by (rewrite !navs_app, NX, N0; change (navs (CQuery page "#addconfig" :: dq))
                   with (S (navs dq)); rewrite Nq; reflexivity);
           rewrite Nall; repeat split; auto;
           [ rewrite !polls_app, QX; change (polls (CQuery page "#addconfig" :: dq))
               with (polls dq); rewrite Qq; simpl; lia
           | lia
           | rewrite before_nav_app by assumption; simpl; rewrite polls_app, QX; reflexivity
           | rewrite after_nav_app by assumption; simpl; rewrite polls_app, Qq; simpl; lia ]).
      * (* no walk at this iteration *)
        unfold bind at 1. simpl ret.
        destruct (IH (i + 1)%Z s3 ltac:(lia)) as (dr & Lrest & N1 & Q1 & N0 & B1 & A1).
        exists (X ++ dr). simpl snd in *.
        split; [rewrite Lrest, L3, <- app_assoc; reflexivity|].
        rewrite navs_app, polls_app, NX, QX. simpl.
        repeat split; auto.
        -- lia.
        -- intros Hle. apply N0. lia.
        -- rewrite before_nav_app by assumption. rewrite polls_app, QX.
           destruct (B1 H) as [B _]. simpl. lia.
        -- rewrite after_nav_app by assumption. now destruct (B1 H).
        -- intros H2 Hp. apply A1; lia.
Qed.

Lemma verifyDnsApplied_loop_S n i (s : St E) :
  Index.verifyDnsApplied_loop (S n) i page expected1 expected2 retries delayMs s
  = (frame <- Index.getContentFrame page ;;
     match frame with
     | None => ret false
     | Some frame =>
         vals <- Index.readDnsValuesFromFrame frame ;;
         if (fst vals =? expected1)%string &&
            (negb (Js.truthy expected2) || (snd vals =? expected2)%string)
         then ret true else
         Index.sleep delayMs ;;;
         (if (i =? retries - 2)%Z
          then attempt (Index.navigateToDns page false ;;; ret tt) tt
          else ret tt) ;;;
         Index.verifyDnsApplied_loop n (i + 1)%Z page expected1 expected2 retries delayMs
     end) s.
Proof. reflexivity. Qed.

(** at the iteration that leaves exactly one retry, values that do not
    match make the loop walk the menu, once *)
Lemma verifyDnsApplied_walks (s s1 s2 : St E) frame vals :
  Index.getContentFrame page s = (Ok (Some frame), s1) ->
  Index.readDnsValuesFromFrame frame s1 = (Ok vals, s2) ->
  (fst vals =? expected1)%string &&
  (negb (Js.truthy expected2) || (snd vals =? expected2)%string) = false ->
  exists d,
    log (snd (Index.verifyDnsApplied_loop 2 (retries - 2) page expected1 expected2
                retries delayMs s))
    = log s ++ d /\ navs d = 1.
Proof.
  intros Hf Hr Hmis.
  assert (Ef : emits quiet (Index.getContentFrame (E := E) page))
    by (apply emits_getContentFrame; [reflexivity | intros ?; reflexivity]).
  destruct (Ef s) as (df & Lf & Pf). rewrite Hf in Lf; simpl in Lf.
  destruct (quiet_counts _ Pf) as [Nf _].
  destruct (readDnsValuesFromFrame_log frame s1) as (vals' & s2' & Hr' & Lr).
  rewrite Hr in Hr'. inversion Hr'; subst vals' s2'; clear Hr'.
  rewrite verifyDnsApplied_loop_S.
  rewrite (bind_ok _ _ Hf), (bind_ok _ _ Hr), Hmis.
  set (s3 := mkSt (sleep E delayMs (world s2)) (log s2 ++ [CSleep delayMs])).
  rewrite (bind_ok (Index.sleep delayMs) _ (s := s2) (a := tt) (s' := s3) eq_refl).
  rewrite Z.eqb_refl.
  destruct (navigateToDns_log page s3) as (dq & Ln & Pq).
  destruct (quiet_counts _ Pq) as [Nq _].
  assert (Hnav : exists s4, attempt (Index.navigateToDns page false ;;; ret tt) tt s3
                            = (Ok tt, s4) /\
                            log s4 = log s3 ++ CQuery page "#addconfig" :: dq).
  { unfold attempt, catch, bind.
    destruct (Index.navigateToDns page false s3) as [[r|e] s4]; simpl in Ln;
      exists s4; split; reflexivity || exact Ln. }
  destruct Hnav as (s4 & Hnav & L4). rewrite (bind_ok _ _ Hnav).
  destruct (verifyDnsApplied_loop_log 1 (retries - 2 + 1)%Z s4 ltac:(lia))
    as (dr & Lrest & _ & _ & N0 & _).
  specialize (N0 (le_n 1)).
  exists (df ++ [CEvaluate frame SReadDns; CSleep delayMs] ++
          (CQuery page "#addconfig" :: dq) ++ dr).
  rewrite Lrest, L4. unfold s3; simpl log. rewrite Lr, Lf.
  split; [now rewrite <- !app_assoc|].
  rewrite !navs_app, Nf, N0.
  change (navs (CQuery page "#addconfig" :: dq)) with (S (navs dq)).
  rewrite Nq. reflexivity.
Qed.
(** C7: a verification call walks the menu again at most once, and only
    when exactly one retry remains: the walk is preceded by [retries - 1]
    read-backs, none of which matched, and followed by at most one; with
    fewer than two retries there is no walk, and a call that uses all of
    its two or more retries has made the walk.  At any iteration, the last
    included, values that match make the call return true; and at the
    iteration that leaves exactly one retry, values that do not match make
    it walk the menu. *)
Theorem verification_renavigates_once (s : St E) :
  (exists d,
     log (snd (Index.verifyDnsApplied page expected1 expected2 retries delayMs s))
     = log s ++ d /\
     navs d <= 1 /\
     ((retries < 2)%Z -> navs d = 0) /\
     (navs d = 1 ->
      Z.of_nat (polls (before_nav d)) = (retries - 1)%Z /\ polls (after_nav d) <= 1) /\
     ((2 <= retries)%Z -> Z.of_nat (polls d) = retries -> navs d = 1)) /\
  (forall n i frame s1 vals s2,
     Index.getContentFrame page s = (Ok (Some frame), s1) ->
     Index.readDnsValuesFromFrame frame s1 = (Ok vals, s2) ->
     fst vals = expected1 ->
     (Js.truthy expected2 = true -> snd vals = expected2) ->
     Index.verifyDnsApplied_loop (S n) i page expected1 expected2 retries delayMs s
     = (Ok true, s2)) /\
  (forall frame s1 vals s2,
     Index.getContentFrame page s = (Ok (Some frame), s1) ->
     Index.readDnsValuesFromFrame frame s1 = (Ok vals, s2) ->
     (fst vals =? expected1)%string &&
     (negb (Js.truthy expected2) || (snd vals =? expected2)%string) = false ->
     exists d,
       log (snd (Index.verifyDnsApplied_loop 2 (retries - 2) page expected1 expected2
                   retries delayMs s))
       = log s ++ d /\ navs d = 1).
Proof.
  split; [|split; [|intros frame s1 vals s2; apply verifyDnsApplied_walks]].
  - unfold Index.verifyDnsApplied.
    destruct (Z_lt_le_dec retries 0) as [Hneg|Hpos].
    + replace (Z.to_nat retries) with 0%nat by lia.
      exists []. simpl. rewrite app_nil_r. repeat split; auto; try discriminate; lia.
    + destruct (verifyDnsApplied_loop_log (Z.to_nat retries) 0%Z s ltac:(lia))
        as (d & L & N1 & _ & N0 & B & A).
      exists d. repeat split; auto.
      * intros Hlt. apply N0. lia.
      * destruct (B H) as [Hb _]. lia.
      * now destruct (B H).
      * intros H2 Hp. apply A; lia.
  - intros n i frame s1 vals s2 Hf Hr H1 H2.
    simpl Index.verifyDnsApplied_loop.
    rewrite (bind_ok _ _ Hf), (bind_ok _ _ Hr).
    rewrite H1, String.eqb_refl.
    destruct (Js.truthy expected2); simpl; [|reflexivity].
    now rewrite (H2 eq_refl), String.eqb_refl.
Qed.

End Verification.

(** C7 on the router that shows the written values only after the menu is
    walked again: the last of four retries follows the walk, reads matching
    values and returns true; the whole call makes one walk, after three
    read-backs *)
Lemma verification_renavigates_once_witness :
  Index.verifyDnsApplied_loop 1 3 Auto.Page "1.1.1.1" "1.0.0.1" 4 800
    (Auto.mkSt (E := Sim.engine (Sim.router true true false "8.8.8.8" "8.8.4.4"
                                   "1.1.1.1" "1.0.0.1")) 2 [])
  = (Auto.Ok true,
     Auto.mkSt (E := Sim.engine (Sim.router true true false "8.8.8.8" "8.8.4.4"
                                   "1.1.1.1" "1.0.0.1")) 2
       [ Auto.CQuery Auto.Page "iframe#menuIframe"; Auto.CContentFrame 7;
         Auto.CEvaluate (Auto.Frame 1) Auto.SReadDns ]) /\
  (let run := Index.verifyDnsApplied Auto.Page "1.1.1.1" "1.0.0.1" 4 800
                (Auto.mkSt (E := Sim.engine (Sim.router true true false "8.8.8.8" "8.8.4.4"
                                               "1.1.1.1" "1.0.0.1")) 1 []) in
   fst run = Auto.Ok true /\ navs (Auto.log (snd run)) = 1 /\
   polls (before_nav (Auto.log (snd run))) = 3 /\
   polls (after_nav (Auto.log (snd run))) = 1).
Proof.
  split; [|vm_compute; repeat split].
  refine (proj1 (proj2 (@verification_renavigates_once
                   (Sim.engine (Sim.router true true false "8.8.8.8" "8.8.4.4"
                                  "1.1.1.1" "1.0.0.1"))
                   Auto.Page "1.1.1.1" "1.0.0.1" 4 800
                   (Auto.mkSt (E := Sim.engine (Sim.router true true false "8.8.8.8"
                                                  "8.8.4.4" "1.1.1.1" "1.0.0.1")) 2 [])))
                0 3%Z (Auto.Frame 1) _ ("1.1.1.1", "1.0.0.1") _ _ _ _ _).
  - vm_compute; reflexivity.
  - vm_compute; reflexivity.
  - reflexivity.
  - reflexivity.
Defined.

Section MenuNavigator.
Import Auto.
Variable E : Engine.
Local Open Scope auto_scope.

(** one transition of the menu: the entry with the fixed identifier when it
    is present, else the text matcher on the entry's label *)
Definition transition (page : Ctx) (idSel label : string) : M E bool :=
  el <- attempt (Index.query_ page idSel) None ;;
  match el with
  | Some h => attempt (Index.click_ h 1) tt ;;; ret true
  | None => Index.clickByText page label
  end.

(** the navigator as a sequence of three transitions, each of which must
    succeed, and the arrival check *)
Definition menuMachine (page : Ctx) (debug : bool) : M E (option string) :=
  (if debug
   then emit (CLog "Navigating via: Advanced Configuration → LAN → DHCP Server (iframe-aware)")
   else ret tt) ;;;
  top <- transition page "#addconfig" "Advanced Configuration" ;;
  if negb top then ret None else
  Index.sleep 400 ;;;
  sub <- transition page "#lanconfig" "LAN" ;;
  if negb sub then ret None else
  attempt (Index.waitForSelector_ page "#lanconfig_menu" 3000) tt ;;;
  Index.sleep 200 ;;;
  leaf <- transition page "#landhcp" "DHCP Server" ;;
  if negb leaf then ret None else
  Index.navigateToDns_title page debug.

Lemma navigateToDns_dhcp_machine page debug (s : St E) :
  Index.navigateToDns_dhcp page debug s
  = (leaf <- transition page "#landhcp" "DHCP Server" ;;
     if negb leaf then ret None else Index.navigateToDns_title page debug) s.
Proof.
  unfold Index.navigateToDns_dhcp, transition. rewrite bind_bind.
  apply bind_ext. intros [h|] s1.
  - rewrite bind_bind. apply bind_ext. intros [] s2. reflexivity.
  - apply bind_ext. intros [|] s2; reflexivity.
Qed.

Lemma navigateToDns_lan_machine page debug (s : St E) :
  Index.navigateToDns_lan page debug s
  = (sub <- transition page "#lanconfig" "LAN" ;;
     if negb sub then ret None else
     attempt (Index.waitForSelector_ page "#lanconfig_menu" 3000) tt ;;;
     Index.sleep 200 ;;;
     leaf <- transition page "#landhcp" "DHCP Server" ;;
     if negb leaf then ret None else Index.navigateToDns_title page debug) s.
Proof.
  assert (Hsettle : forall s0 : St E,
            (attempt (Index.waitForSelector_ page "#lanconfig_menu" 3000) tt ;;;
             Index.sleep 200 ;;; Index.navigateToDns_dhcp page debug) s0
            = (attempt (Index.waitForSelector_ page "#lanconfig_menu" 3000) tt ;;;
               Index.sleep 200 ;;;
               leaf <- transition page "#landhcp" "DHCP Server" ;;
               if negb leaf then ret None else Index.navigateToDns_title page debug) s0).
  { intros s0. apply bind_ext. intros _ s1. apply bind_ext. intros _ s2.
    apply navigateToDns_dhcp_machine. }
  unfold Index.navigateToDns_lan. unfold transition at 1. rewrite bind_bind.
  apply bind_ext. intros [h|] s1.
  - rewrite bind_bind. apply bind_ext. intros [] s2. rewrite bind_ret_l. apply Hsettle.
  - apply bind_ext. intros [|] s2; [apply Hsettle|reflexivity].
Qed.

Lemma navigateToDns_machine page debug (s : St E) :
  Index.navigateToDns page debug s = menuMachine page debug s.
Proof.
  assert (Hsettle : forall s0 : St E,
            (Index.sleep 400 ;;; Index.navigateToDns_lan page debug) s0
            = (Index.sleep 400 ;;;
               sub <- transition page "#lanconfig" "LAN" ;;
               if negb sub then ret None else
               attempt (Index.waitForSelector_ page "#lanconfig_menu" 3000) tt ;;;
               Index.sleep 200 ;;;
               leaf <- transition page "#landhcp" "DHCP Server" ;;
               if negb leaf then ret None else Index.navigateToDns_title page debug) s0).
  { intros s0. apply bind_ext. intros _ s1. apply navigateToDns_lan_machine. }
  unfold Index.navigateToDns, menuMachine.
  apply bind_ext. intros _ s0.
  unfold transition at 1. rewrite bind_bind.
  apply bind_ext. intros [h|] s1.
  - rewrite bind_bind. apply bind_ext. intros [] s2. rewrite bind_ret_l. apply Hsettle.
  - apply bind_ext. intros [|] s2; [apply Hsettle|reflexivity].
Qed.

(** what the arrival check returns once the content frame is found *)
Lemma navigateToDns_title_result page debug frame (s s1 : St E) :
  Index.getContentFrame page s = (Ok (Some frame), s1) ->
  let s2 := snd (attempt (Index.waitForSelector_ frame "#dhcp2title" 8000) tt s1) in
  let okTitle := match document E (world s2) frame with
                 | Ok d => Script.dhcpTitle d
                 | Throws _ => false
                 end in
  fst (Index.navigateToDns_title page debug s)
  = Ok (Some (if okTitle then "iframe-dhcp" else "iframe-dhcp-no-title")) /\
  exists d,
    log (snd (Index.navigateToDns_title page debug s))
    = log s1 ++ [CWaitForSelector frame "#dhcp2title" 8000; CEvaluate frame STitle] ++ d.
Proof.
  intros Hf s2 okTitle. unfold Index.navigateToDns_title.
  rewrite (bind_ok _ _ Hf).
  assert (Hw : attempt (Index.waitForSelector_ frame "#dhcp2title" 8000) tt s1
               = (Ok tt, s2) /\
               log s2 = log s1 ++ [CWaitForSelector frame "#dhcp2title" 8000]).
  { subst s2. unfold attempt, catch, Index.waitForSelector_, act.
    destruct (waitForSelector E frame "#dhcp2title" 8000 (world s1)) as [[[]|e] w];
      simpl; split; reflexivity. }
  destruct Hw as [Hw Lw]. rewrite (bind_ok _ _ Hw).
  unfold bind, attempt, catch, Index.evaluate, Index.pure, emit, ret.
  subst okTitle.
  destruct (document E (world s2) frame) as [d|e]; simpl.
  - destruct (Script.dhcpTitle d), debug; simpl; (split; [reflexivity|]);
      rewrite Lw, <- !app_assoc; simpl; eexists; reflexivity.
  - destruct debug; simpl; (split; [reflexivity|]);
      rewrite Lw, <- !app_assoc; simpl; eexists; reflexivity.
Qed.


(** C8, as the code has it.  The navigator is the sequence of the three
    transitions, each of which must succeed, followed by the arrival check:
    a failed transition, or a content frame that is not found, gives null.
    Once the frame is found the check waits (bounded) for the title and then
    reports a path either way: [iframe-dhcp] when the title matches and
    [iframe-dhcp-no-title] when it does not.  The caller raises its terminal
    error on null alone, and goes on to write the values on either path. *)
Theorem navigation_reports (page : Ctx) (debug : bool) (s : St E) :
  Index.navigateToDns page debug s = menuMachine page debug s /\
  (forall s1,
     Index.getContentFrame page s = (Ok None, s1) ->
     Index.navigateToDns_title page debug s = (Ok None, s1)) /\
  (forall frame s1,
     Index.getContentFrame page s = (Ok (Some frame), s1) ->
     let s2 := snd (attempt (Index.waitForSelector_ frame "#dhcp2title" 8000) tt s1) in
     let okTitle := match document E (world s2) frame with
                    | Ok d => Script.dhcpTitle d
                    | Throws _ => false
                    end in
     fst (Index.navigateToDns_title page debug s)
     = Ok (Some (if okTitle then "iframe-dhcp" else "iframe-dhcp-no-title")) /\
     exists d,
       log (snd (Index.navigateToDns_title page debug s))
       = log s1 ++ [CWaitForSelector frame "#dhcp2title" 8000; CEvaluate frame STitle] ++ d) /\
  (forall argv s1,
     Index.navigateToDns Page (Index.debug argv) s = (Ok None, s1) ->
     Index.main_configure argv s
     = (Throws "Could not reach DNS page automatically. Run with --headful and adjust SELECTORS.",
        s1)) /\
  (forall argv path s1,
     Index.navigateToDns Page (Index.debug argv) s = (Ok (Some path), s1) ->
     Index.main_configure argv s
     = ((if Index.debug argv
         then cf <- Index.getContentFrame Page ;;
              u <- match cf with Some c => Index.frameUrl_ c | None => ret "N/A" end ;;
              emit (CLog ("Content frame URL: " ++ u))
         else ret tt) ;;;
        (if Index.debug argv
         then emit (CLog ("Reached DNS page via path: " ++ path))
         else ret tt) ;;;
        Index.setDnsValues Page (Index.dns1 argv) (Index.dns2 argv) (Index.debug argv)) s1).
Proof.
  split; [apply navigateToDns_machine|].
  split; [|split; [|split]].
  - intros s1 H. unfold Index.navigateToDns_title. now rewrite (bind_ok _ _ H).
  - intros frame s1 H. now apply navigateToDns_title_result.
  - intros argv s1 H. unfold Index.main_configure. now rewrite (bind_ok _ _ H).
  - intros argv path s1 H. unfold Index.main_configure. now rewrite (bind_ok _ _ H).
Qed.

End MenuNavigator.

(** C8 on the router whose DHCP page shows its title: the arrival check
    reports the confirmed path *)
Lemma navigation_reports_witness :
  fst (Index.navigateToDns_title Auto.Page false
         (Sim.start (Sim.router true true false "" "" "" "")))
  = Auto.Ok (Some "iframe-dhcp").
Proof.
  refine (proj1 (proj1 (proj2 (proj2 (@navigation_reports
                   (Sim.engine (Sim.router true true false "" "" "" ""))
                   Auto.Page false (Sim.start (Sim.router true true false "" "" "" "")))))
                 (Auto.Frame 1)
                 (snd (Index.getContentFrame Auto.Page
                         (Sim.start (Sim.router true true false "" "" "" ""))))
                 _)).
  vm_compute; reflexivity.
Defined.

(** C8 as stated fails: on a router whose DHCP page has no title element the
    three transitions succeed, the wait for the title ends without
    confirmation, and the navigator still reports a path; the run goes on
    and ends with exit status 0. *)
Lemma navigation_reports_counterexample :
  Script.dhcpTitle (Sim.doc (Sim.dhcpNodes false "" "")) = false /\
  fst (Index.navigateToDns Auto.Page false
         (Sim.start (Sim.router true false false "" "" "" "")))
  = Auto.Ok (Some "iframe-dhcp-no-title") /\
  In (Auto.CWaitForSelector (Auto.Frame 1) "#dhcp2title" 8000)
     (Auto.log (snd (Index.navigateToDns Auto.Page false
                       (Sim.start (Sim.router true false false "" "" "" ""))))) /\
  fst (Index.main (Sim.argv "1.1.1.1" "") (Sim.start (Sim.router true false false "" "" "" "")))
  = Auto.Ok 0.
Proof.
  split; [|split; [|split]]; vm_compute; try reflexivity.
  intuition.
Qed.

(** ** Apply, verify and the end of the run *)

Section ApplyVerify.
Import Auto.
Variable E : Engine.
Local Open Scope auto_scope.

(** try in order, first success wins *)
Fixpoint firstSuccess (attempts : list (M E bool)) : M E bool :=
  match attempts with
  | [] => ret false
  | a :: rest => ok <- a ;; if ok then ret true else firstSuccess rest
  end.

(** an attempt followed, when it succeeds, by the 300 ms pause *)
Definition settled (a : M E bool) : M E bool :=
  ok <- a ;; if ok then Index.sleep 300 ;;; ret true else ret false.

(** the control with the known fixed identifier *)
Definition byFixedId (ctx : Ctx) : M E bool :=
  applyBtn <- attempt (Index.query_ ctx "#btnApply_ex") None ;;
  match applyBtn with
  | Some h => attempt (Index.click_ h 1) tt ;;; ret true
  | None => ret false
  end.

(** the global function, if the page exposes one *)
Definition byGlobalFunction (ctx : Ctx) : M E bool :=
  attempt (Index.evaluate ctx SApplyConfig Script.callApplyConfig) false.

Definition applyWords : list string :=
  ["Apply"; "Save"; "Guardar"; "Aplicar"; "Submit"; "OK"].

(** the apply attempts in the order of the specification *)
Definition applyAttempts (ctx : Ctx) : list (M E bool) :=
  map settled
    ([byFixedId ctx; Index.clickFirst ctx SELECTORS.saveButtons true] ++
     map (Index.clickByTextInContext ctx) applyWords ++
     [byGlobalFunction ctx]).

Lemma firstSuccess_settled (a : M E bool) rest (k : M E bool) s :
  (forall s1, firstSuccess rest s1 = k s1) ->
  firstSuccess (settled a :: rest) s
  = (ok <- a ;; if ok then Index.sleep 300 ;;; ret true else k) s.
Proof.
  intros Hk. simpl. unfold settled. rewrite bind_bind.
  apply bind_ext. intros [|] s1.
  - rewrite bind_bind. apply bind_ext. intros _ s2. reflexivity.
  - rewrite bind_ret_l. apply Hk.
Qed.

Lemma saveChanges_in_order ctx (s : St E) :
  Index.saveChanges ctx s
  = (attempt (Index.evaluate ctx SDialogs (fun d => (Some tt, Script.overrideDialogs d))) tt ;;;
     firstSuccess (applyAttempts ctx)) s.
Proof.
  unfold Index.saveChanges. apply bind_ext. intros _ s0.
  unfold applyAttempts, applyWords. simpl map.
  symmetry. etransitivity.
  { apply firstSuccess_settled. intros s1.
    repeat (etransitivity; [apply firstSuccess_settled; intros ?|reflexivity]).
    reflexivity. }
  unfold byFixedId. rewrite bind_bind. apply bind_ext. intros [h|] s1.
  - rewrite bind_bind. apply bind_ext. intros _ s2. reflexivity.
  - rewrite bind_ret_l. unfold byGlobalFunction.
    repeat (apply bind_ext; intros [|] ?; try reflexivity).
Qed.


Definition notError (c : Call) : bool := negb (is_error c).

Lemma emits_impl {A} (P Q : Call -> bool) (m : M E A) :
  (forall c, P c = true -> Q c = true) -> emits P m -> emits Q m.
Proof.
  intros H Hm s. destruct (Hm s) as (d & L & Pd). exists d. split; [exact L|].
  rewrite forallb_forall in *. auto.
Qed.

Lemma quiet_notError c : quiet c = true -> notError c = true.
Proof. unfold quiet, notError. intros H. now apply andb_prop in H as [_ H]. Qed.

Lemma notError_navigateToDns page : emits notError (Index.navigateToDns (E := E) page false).
Proof.
  intros s. destruct (navigateToDns_log page s) as (d & L & Pd).
  exists (CQuery page "#addconfig" :: d). split; [exact L|].
  simpl. rewrite forallb_forall in *. intros c Hc. apply quiet_notError. auto.
Qed.

Lemma safe_getContentFrame page : safe (Index.getContentFrame (E := E) page).
Proof. apply safe_getContentFrame_from. Qed.

Lemma safe_verifyDnsApplied_loop n : forall i page e1 e2 retries delayMs,
  safe (Index.verifyDnsApplied_loop (E := E) n i page e1 e2 retries delayMs).
Proof.
  induction n as [|n IH]; intros i page e1 e2 retries delayMs; simpl.
  - apply safe_ret.
  - pose proof (safe_getContentFrame page).
    pose proof (fun f => safe_readDnsValuesFromFrame (E := E) f).
    pose proof (IH (i + 1)%Z page e1 e2 retries delayMs).
    safe_tac; auto.
Qed.

Lemma notError_verifyDnsApplied_loop n : forall i page e1 e2 retries delayMs,
  emits notError (Index.verifyDnsApplied_loop (E := E) n i page e1 e2 retries delayMs).
Proof.
  induction n as [|n IH]; intros i page e1 e2 retries delayMs; simpl.
  - apply emits_ret.
  - pose proof (notError_navigateToDns page).
    pose proof (IH (i + 1)%Z page e1 e2 retries delayMs).
    assert (emits notError (Index.getContentFrame (E := E) page))
      by (apply emits_getContentFrame; [reflexivity | intros ?; reflexivity]).
    unfold Index.readDnsValuesFromFrame. emits_tac.
Qed.

(** the verification part of the run never rejects and prints no error *)
Lemma main_verify_advisory argv :
  safe (Index.main_verify (E := E) argv) /\ emits notError (Index.main_verify (E := E) argv).
Proof.
  pose proof (safe_getContentFrame Page).
  pose proof (safe_verifyDnsApplied_loop 4 0%Z Page (Index.dns1 argv) (Index.dns2 argv) 4 800).
  pose proof (notError_verifyDnsApplied_loop 4 0%Z Page (Index.dns1 argv) (Index.dns2 argv)
                4 800).
  assert (emits notError (Index.getContentFrame (E := E) Page))
    by (apply emits_getContentFrame; [reflexivity | intros ?; reflexivity]).
  unfold Index.main_verify, Index.verifyDnsApplied. change (Z.to_nat 4) with 4%nat.
  split; [safe_tac; auto | emits_tac].
Qed.

Definition successLine (argv : Index.Argv) : string :=
  "✔ DNS updated to " ++ Index.dns1 argv ++
  (if Js.truthy (Index.dns2 argv) then ", " ++ Index.dns2 argv else "").

(** the run from the save on, by the result of the save *)
Lemma main_from_save argv (s s1 s2 s3 : St E) cf saved :
  (Index.main_login argv ;;; Index.main_configure argv) (snd (Index.main_setup s))
  = (Ok tt, s1) ->
  Index.getContentFrame Page s1 = (Ok cf, s2) ->
  Index.saveChanges (match cf with Some f => f | None => Page end) s2 = (Ok saved, s3) ->
  exists d s4,
    Index.main_verify argv s3 = (Ok tt, s4) /\
    log s4 = log s3 ++ d /\ forallb notError d = true /\
    if saved
    then Index.main argv s
         = (Ok 0, mkSt (close E (sleep E 600 (world s4)))
                    (log s4 ++ [CSleep 600; CLog (successLine argv); CClose]))
    else fst (Index.main argv s) = Ok 1 /\
         exists d', log (snd (Index.main argv s))
                    = log s4 ++ CError "✖ Failed: Could not find a Save/Apply button." :: d'.
Proof.
  intros Hpre Hcf Hsave.
  destruct (main_verify_advisory argv) as [Hsafe Hemits].
  destruct (Hsafe s3) as ([] & s4 & Hv).
  destruct (Hemits s3) as (d & L & Pd). rewrite Hv in L; simpl in L.
  exists d, s4. split; [exact Hv|]. split; [exact L|]. split; [exact Pd|].
  assert (Hsetup : Index.main_setup s = (Ok tt, snd (Index.main_setup s))) by reflexivity.
  assert (Htry : Index.main_try argv (snd (Index.main_setup s))
                 = (if negb saved then throw "Could not find a Save/Apply button." else
                    Index.sleep 600 ;;; emit (CLog (successLine argv)) ;;; ret 0) s4).
  { unfold Index.main_try. rewrite <- bind_bind, (bind_ok _ _ Hpre).
    unfold Index.main_apply. rewrite bind_bind, (bind_ok _ _ Hcf).
    rewrite bind_bind, (bind_ok _ _ Hsave). rewrite bind_bind, (bind_ok _ _ Hv).
    destruct saved; simpl; [|reflexivity].
    rewrite bind_bind. apply bind_ext. intros _ s5. reflexivity. }
  assert (Hcatch_ok : forall {A} (m : M E A) h s0 a s', m s0 = (Ok a, s') ->
                        catch m h s0 = (Ok a, s')).
  { intros A m h s0 a s' H. unfold catch. now rewrite H. }
  assert (Hcatch_throws : forall {A} (m : M E A) h s0 e s', m s0 = (Throws e, s') ->
                            catch m h s0 = h e s').
  { intros A m h s0 e s' H. unfold catch. now rewrite H. }
  unfold Index.main. rewrite (bind_ok _ _ Hsetup).
  destruct saved; unfold negb in Htry.
  - assert (Hrun : Index.main_try argv (snd (Index.main_setup s))
                   = (Ok 0, mkSt (sleep E 600 (world s4))
                              (log s4 ++ [CSleep 600; CLog (successLine argv)]))).
    { rewrite Htry. unfold bind, Index.sleep, step, emit, ret; simpl.
      now rewrite <- !app_assoc. }
    rewrite (bind_ok _ _ (Hcatch_ok _ _ (Index.main_catch argv) _ _ _ Hrun)).
    unfold bind, step, ret; simpl. now rewrite <- !app_assoc.
  - unfold throw in Htry.
    rewrite (bind_ok _ _ (s' := snd (Index.main_catch argv "Could not find a Save/Apply button." s4))
               (a := 1)).
    + unfold bind, step, ret; simpl. split; [reflexivity|].
      unfold Index.main_catch.
      set (s5 := mkSt (world s4)
                   (log s4 ++ [CError "✖ Failed: Could not find a Save/Apply button."])).
      rewrite (bind_ok (emit (CError ("✖ Failed: " ++ "Could not find a Save/Apply button."))) _
                 (s := s4) (a := tt) (s' := s5) eq_refl).
      assert (Ec2 : emits (fun _ => true)
                      ((if Index.debug argv
                        then attempt (Index.screenshot_ (E := E) ;;;
                                      emit (CError "Saved screenshot")) tt
                        else ret tt) ;;; ret 1)).
      { apply emits_bind; [|intros ?; apply emits_ret].
        unfold Index.screenshot_. destruct (Index.debug argv); [|apply emits_ret].
        apply emits_attempt. apply emits_bind; [|intros ?; now apply emits_emit].
        intros s0. eexists [_]. split; [|reflexivity].
        unfold act. destruct (screenshot E (now E (world s0)) (world s0)). reflexivity. }
      destruct (Ec2 s5) as (d6 & L6 & _).
      exists (d6 ++ [CClose]). rewrite L6. unfold s5; simpl. now rewrite <- !app_assoc.
    + rewrite (Hcatch_throws _ _ (Index.main_catch argv) _ _ _ Htry).
      unfold Index.main_catch.
      unfold bind, emit, ret; simpl.
      destruct (Index.debug argv); [|reflexivity].
      unfold attempt, catch.
      destruct (Index.screenshot_ _) as [[[]|e] s7]; reflexivity.
Qed.

Lemma byFixedId_run ctx (w : World E) l :
  byFixedId ctx (mkSt w l)
  = match found E w ctx "#btnApply_ex" with
    | Some h => (Ok true, mkSt (snd (click E h 1 w))
                            (l ++ [CQuery ctx "#btnApply_ex"; CClick h 1]))
    | None => (Ok false, mkSt w (l ++ [CQuery ctx "#btnApply_ex"]))
    end.
Proof.
  unfold byFixedId. unfold bind at 1. rewrite attempt_query.
  destruct (found E w ctx "#btnApply_ex") as [h|]; [|reflexivity].
  unfold bind at 1. rewrite attempt_click. unfold ret. now rewrite <- app_assoc.
Qed.

(** the element a text match settles on: the first one, in document order,
    that the query finds, that is visible, and whose text or value contains
    the needle *)
Definition textTarget (n : string) (d : Dom.Document) : option nat :=
  Dom.querySelector (fun e => Script.clickableInContext e &&
                              (Script.isVisible e && Script.textMatches n e)) d.

Lemma clickByTextInContext_run ctx word (w : World E) l d :
  document E w ctx = Ok d ->
  Index.clickByTextInContext ctx word (mkSt w l)
  = let n := Js.toLowerCase word in
    match textTarget n d with
    | Some i =>
        (Ok true,
         mkSt (sleep E 300 (commit E ctx (SClickByTextInContext n) (Dom.click i d) w))
              (l ++ [CEvaluate ctx (SClickByTextInContext n); CSleep 300]))
    | None =>
        (Ok false,
         mkSt (commit E ctx (SClickByTextInContext n) d w)
              (l ++ [CEvaluate ctx (SClickByTextInContext n)]))
    end.
Proof.
  intros Hd. unfold Index.clickByTextInContext, textTarget. cbv zeta.
  unfold bind, attempt, catch, Index.evaluate, Index.total. cbn [world log].
  rewrite Hd. unfold Script.clickByTextInContext.
  rewrite QueryFacts.find_node_querySelector.
  destruct (Dom.querySelector _ d) as [i|]; cbn [world log]; [|reflexivity].
  unfold Index.sleep, step, ret. cbn [world log]. now rewrite <- app_assoc.
Qed.

(** the document after a call of [ApplyConfig] *)
Definition called (d : Dom.Document) : Dom.Document :=
  Dom.mkDocument (Dom.nodes d) (Dom.activeElement d) (Dom.applyConfig d)
    (Dom.invoked d ++ ["ApplyConfig"]) (Dom.autoDialogs d).

Lemma byGlobalFunction_run ctx (w : World E) l d :
  document E w ctx = Ok d ->
  byGlobalFunction ctx (mkSt w l)
  = match Dom.applyConfig d with
    | Some returns =>
        (Ok returns, mkSt (commit E ctx SApplyConfig (called d) w)
                       (l ++ [CEvaluate ctx SApplyConfig]))
    | None =>
        (Ok false, mkSt (commit E ctx SApplyConfig d w) (l ++ [CEvaluate ctx SApplyConfig]))
    end.
Proof.
  intros Hd. unfold byGlobalFunction, attempt, catch, Index.evaluate. cbn [world log].
  rewrite Hd. unfold Script.callApplyConfig, called.
  destruct (Dom.applyConfig d) as [[|]|]; reflexivity.
Qed.

(** C5: the apply step installs the dialog overrides and then is the
    first success among, in this order, the fixed identifier, the generic
    selector cascade, the text matcher on Apply, Save, Guardar, Aplicar,
    Submit, OK, and the global function [ApplyConfig]; each success is
    followed by the pause and ends the step with true, and the step never
    rejects.  The attempts do what their names say.  The fixed identifier
    and the cascade click the element their first resolving selector finds,
    and fail when none resolves.  A text match clicks the first visible
    element of its query whose text or value contains the word, and fails,
    leaving the document as it was, when there is none (on documents where
    the text matcher is embedded exactly).  The last attempt calls
    [ApplyConfig] when the page defines it, and succeeds when the call
    returns; it fails without a call when the page does not define it.
    When the step returns false the run ends with exit status 1 and the
    error line of the missing save control. *)
Theorem apply_order_and_exhaustion :
  (forall ctx (s : St E),
     Index.saveChanges ctx s
     = (attempt (Index.evaluate ctx SDialogs
                   (fun d => (Some tt, Script.overrideDialogs d))) tt ;;;
        firstSuccess (applyAttempts ctx)) s) /\
  (forall ctx, safe (Index.saveChanges (E := E) ctx)) /\
  (forall ctx (w : World E) l,
     byFixedId ctx (mkSt w l)
     = match found E w ctx "#btnApply_ex" with
       | Some h => (Ok true, mkSt (snd (click E h 1 w))
                               (l ++ [CQuery ctx "#btnApply_ex"; CClick h 1]))
       | None => (Ok false, mkSt w (l ++ [CQuery ctx "#btnApply_ex"]))
       end) /\
  (forall ctx (w : World E) l pre sel post h,
     SELECTORS.saveButtons = pre ++ sel :: post ->
     Forall (fun s => found E w ctx s = None) pre ->
     found E w ctx sel = Some h ->
     Index.clickFirst ctx SELECTORS.saveButtons true (mkSt w l)
     = (Ok true, mkSt (sleep E 300 (snd (click E h 1 w)))
                   (l ++ map (CQuery ctx) pre ++ [CQuery ctx sel; CClick h 1; CSleep 300]))) /\
  (forall ctx (w : World E) l,
     Forall (fun s => found E w ctx s = None) SELECTORS.saveButtons ->
     Index.clickFirst ctx SELECTORS.saveButtons true (mkSt w l)
     = (Ok false, mkSt w (l ++ map (CQuery ctx) SELECTORS.saveButtons))) /\
  (forall ctx word (w : World E) l d,
     document E w ctx = Ok d ->
     Scope.matchers d = true ->
     Scope.ascii word = true ->
     Index.clickByTextInContext ctx word (mkSt w l)
     = match textTarget (Js.toLowerCase word) d with
       | Some i =>
           (Ok true,
            mkSt (sleep E 300
                    (commit E ctx (SClickByTextInContext (Js.toLowerCase word))
                       (Dom.click i d) w))
                 (l ++ [CEvaluate ctx (SClickByTextInContext (Js.toLowerCase word));
                        CSleep 300]))
       | None =>
           (Ok false,
            mkSt (commit E ctx (SClickByTextInContext (Js.toLowerCase word)) d w)
                 (l ++ [CEvaluate ctx (SClickByTextInContext (Js.toLowerCase word))]))
       end) /\
  (forall ctx (w : World E) l d,
     document E w ctx = Ok d ->
     byGlobalFunction ctx (mkSt w l)
     = match Dom.applyConfig d with
       | Some returns =>
           (Ok returns, mkSt (commit E ctx SApplyConfig (called d) w)
                          (l ++ [CEvaluate ctx SApplyConfig]))
       | None =>
           (Ok false, mkSt (commit E ctx SApplyConfig d w)
                        (l ++ [CEvaluate ctx SApplyConfig]))
       end) /\
  (forall argv (s s1 s2 s3 : St E) cf,
     (Index.main_login argv ;;; Index.main_configure argv) (snd (Index.main_setup s))
     = (Ok tt, s1) ->
     Index.getContentFrame Page s1 = (Ok cf, s2) ->
     Index.saveChanges (match cf with Some f => f | None => Page end) s2 = (Ok false, s3) ->
     fst (Index.main argv s) = Ok 1 /\
     In (CError "✖ Failed: Could not find a Save/Apply button.")
        (log (snd (Index.main argv s)))).
Proof.
  split; [exact saveChanges_in_order|]. split; [exact (safe_saveChanges (E := E))|].
  split; [exact byFixedId_run|]. split; [|split; [|split; [|split]]].
  - intros ctx w l pre sel post h Hsels Hpre Hsel. rewrite Hsels.
    rewrite clickFirst_skip by assumption. rewrite clickFirst_cons, Hsel.
    cbv zeta. now rewrite <- !app_assoc.
  - intros ctx w l Hnone.
    pose proof (@clickFirst_skip E w l ctx SELECTORS.saveButtons [] true Hnone) as Hx.
    rewrite app_nil_r in Hx. exact Hx.
  - intros ctx word w l d Hd _ _. exact (clickByTextInContext_run ctx word w l Hd).
  - exact byGlobalFunction_run.
  - intros argv s s1 s2 s3 cf Hpre Hcf Hsave.
    destruct (@main_from_save argv s s1 s2 s3 cf false Hpre Hcf Hsave)
      as (d & s4 & _ & _ & _ & Hexit & d' & Hlog).
    split; [exact Hexit|]. rewrite Hlog. apply in_or_app. right. now left.
Qed.

(** C6: once the save has succeeded the run ends with exit status 0, and
    its last lines are the success message and the closing of the browser,
    whatever the verification finds: the verification never rejects, writes
    nothing to the error stream, and its result is not consulted. *)
Theorem advisory_verification argv (s s1 s2 s3 : St E) cf :
  (Index.main_login argv ;;; Index.main_configure argv) (snd (Index.main_setup s))
  = (Ok tt, s1) ->
  Index.getContentFrame Page s1 = (Ok cf, s2) ->
  Index.saveChanges (match cf with Some f => f | None => Page end) s2 = (Ok true, s3) ->
  exists d s4,
    Index.main_verify argv s3 = (Ok tt, s4) /\
    log s4 = log s3 ++ d /\ forallb notError d = true /\
    Index.main argv s
    = (Ok 0, mkSt (close E (sleep E 600 (world s4)))
               (log s4 ++ [CSleep 600; CLog (successLine argv); CClose])).
Proof.
  intros Hpre Hcf Hsave.
  destruct (@main_from_save argv s s1 s2 s3 cf true Hpre Hcf Hsave)
    as (d & s4 & Hv & L & Pd & Hmain).
  exists d, s4. auto.
Qed.

End ApplyVerify.

(** C5 on a router without any save control: the run ends with status 1 and
    the error line.  On a frame whose only control is a division that reads
    Apply, the text match clicks that division.  On a frame without any
    control whose scripts define [ApplyConfig], the last attempt calls it;
    and the whole apply step, after trying everything else, leaves the
    frame with the dialogs overridden and [ApplyConfig] called once, and
    returns true. *)
Lemma apply_order_and_exhaustion_witness :
  (fst (Index.main (Sim.argv "1.1.1.1" "1.0.0.1")
          (Sim.start (Sim.router false true false "" "" "" "")))
   = Auto.Ok 1 /\
   In (Auto.CError "✖ Failed: Could not find a Save/Apply button.")
      (Auto.log (snd (Index.main (Sim.argv "1.1.1.1" "1.0.0.1")
                        (Sim.start (Sim.router false true false "" "" "" "")))))) /\
  Index.clickByTextInContext (Auto.Frame 1) "Apply"
    (Auto.mkSt (E := Live.engine []) [(Auto.Frame 1, Live.applyDivision)] [])
  = (Auto.Ok true,
     Auto.mkSt (E := Live.engine []) [(Auto.Frame 1, Dom.click 3 Live.applyDivision)]
       [ Auto.CEvaluate (Auto.Frame 1) (Auto.SClickByTextInContext "apply");
         Auto.CSleep 300 ]) /\
  byGlobalFunction (E := Live.engine []) (Auto.Frame 1)
    (Auto.mkSt (E := Live.engine []) [(Auto.Frame 1, Live.applyFunction)] [])
  = (Auto.Ok true,
     Auto.mkSt (E := Live.engine []) [(Auto.Frame 1, called Live.applyFunction)]
       [ Auto.CEvaluate (Auto.Frame 1) Auto.SApplyConfig ]) /\
  (let run := Index.saveChanges (Auto.Frame 1)
                (Auto.mkSt (E := Live.engine []) [(Auto.Frame 1, Live.applyFunction)] []) in
   fst run = Auto.Ok true /\
   Auto.world (snd run)
   = [(Auto.Frame 1, called (Script.overrideDialogs Live.applyFunction))] /\
   Dom.invoked (called (Script.overrideDialogs Live.applyFunction)) = ["ApplyConfig"] /\
   List.rev (Auto.log (snd run))
   = [ Auto.CSleep 300; Auto.CEvaluate (Auto.Frame 1) Auto.SApplyConfig;
       Auto.CEvaluate (Auto.Frame 1) (Auto.SClickByTextInContext "ok");
       Auto.CEvaluate (Auto.Frame 1) (Auto.SClickByTextInContext "submit");
       Auto.CEvaluate (Auto.Frame 1) (Auto.SClickByTextInContext "aplicar");
       Auto.CEvaluate (Auto.Frame 1) (Auto.SClickByTextInContext "guardar");
       Auto.CEvaluate (Auto.Frame 1) (Auto.SClickByTextInContext "save");
       Auto.CEvaluate (Auto.Frame 1) (Auto.SClickByTextInContext "apply") ]
     ++ List.rev (Auto.CEvaluate (Auto.Frame 1) Auto.SDialogs
                  :: Auto.CQuery (Auto.Frame 1) "#btnApply_ex"
                  :: map (Auto.CQuery (Auto.Frame 1)) SELECTORS.saveButtons)).
Proof.
  split; [|split; [|split]].
  - destruct (@apply_order_and_exhaustion
                (Sim.engine (Sim.router false true false "" "" "" "")))
      as (_ & _ & _ & _ & _ & _ & _ & Hexit).
    refine (Hexit (Sim.argv "1.1.1.1" "1.0.0.1")
                (Sim.start (Sim.router false true false "" "" "" ""))
                (snd (Auto.bind (Index.main_login (Sim.argv "1.1.1.1" "1.0.0.1"))
                        (fun _ => Index.main_configure (Sim.argv "1.1.1.1" "1.0.0.1"))
                        (snd (Index.main_setup
                                (Sim.start (Sim.router false true false "" "" "" ""))))))
                _ _ (Some (Auto.Frame 1)) _ _ _).
    + vm_compute; reflexivity.
    + vm_compute; reflexivity.
    + vm_compute; reflexivity.
  - destruct (@apply_order_and_exhaustion (Live.engine []))
      as (_ & _ & _ & _ & _ & Htext & _ & _).
    refine (eq_trans (Htext (Auto.Frame 1) "Apply" [(Auto.Frame 1, Live.applyDivision)] []
                        Live.applyDivision _ _ _) _).
    + reflexivity.
    + vm_compute; reflexivity.
    + vm_compute; reflexivity.
    + vm_compute; reflexivity.
  - destruct (@apply_order_and_exhaustion (Live.engine []))
      as (_ & _ & _ & _ & _ & _ & Hcall & _).
    refine (eq_trans (Hcall (Auto.Frame 1) [(Auto.Frame 1, Live.applyFunction)] []
                        Live.applyFunction _) _).
    + reflexivity.
    + vm_compute; reflexivity.
  - vm_compute. repeat split; reflexivity.
Defined.

(** C6 on a router that takes the save but never shows the written values:
    all four retries of the verification fail, the menu is walked again
    once, and the run still ends with status 0 *)
Lemma advisory_verification_witness :
  fst (Index.verifyDnsApplied Auto.Page "1.1.1.1" "1.0.0.1" 4 800
         (Auto.mkSt (E := Sim.engine (Sim.router true true false "8.8.8.8" "8.8.4.4"
                                        "8.8.8.8" "8.8.4.4")) 1 []))
  = Auto.Ok false /\
  fst (Index.main (Sim.argv "1.1.1.1" "1.0.0.1")
         (Sim.start (Sim.router true true false "8.8.8.8" "8.8.4.4" "8.8.8.8" "8.8.4.4")))
  = Auto.Ok 0.
Proof.
  split; [vm_compute; reflexivity|].
  destruct (@advisory_verification
              (Sim.engine (Sim.router true true false "8.8.8.8" "8.8.4.4" "8.8.8.8" "8.8.4.4"))
              (Sim.argv "1.1.1.1" "1.0.0.1")
              (Sim.start (Sim.router true true false "8.8.8.8" "8.8.4.4" "8.8.8.8" "8.8.4.4"))
              (snd (Auto.bind (Index.main_login (Sim.argv "1.1.1.1" "1.0.0.1"))
                      (fun _ => Index.main_configure (Sim.argv "1.1.1.1" "1.0.0.1"))
                      (snd (Index.main_setup
                              (Sim.start (Sim.router true true false "8.8.8.8" "8.8.4.4"
                                            "8.8.8.8" "8.8.4.4"))))))
              (snd (Index.getContentFrame Auto.Page
                      (snd (Auto.bind (Index.main_login (Sim.argv "1.1.1.1" "1.0.0.1"))
                              (fun _ => Index.main_configure (Sim.argv "1.1.1.1" "1.0.0.1"))
                              (snd (Index.main_setup
                                      (Sim.start (Sim.router true true false "8.8.8.8"
                                                    "8.8.4.4" "8.8.8.8" "8.8.4.4"))))))))
              (snd (Index.saveChanges (Auto.Frame 1)
                 (snd (Index.getContentFrame Auto.Page
                      (snd (Auto.bind (Index.main_login (Sim.argv "1.1.1.1" "1.0.0.1"))
                              (fun _ => Index.main_configure (Sim.argv "1.1.1.1" "1.0.0.1"))
                              (snd (Index.main_setup
                                      (Sim.start (Sim.router true true false "8.8.8.8"
                                                    "8.8.4.4" "8.8.8.8" "8.8.4.4"))))))))))
              (Some (Auto.Frame 1)))
    as (d & s4 & _ & _ & _ & Hmain).
  - vm_compute; reflexivity.
  - vm_compute; reflexivity.
  - vm_compute; reflexivity.
  - rewrite Hmain. reflexivity.
Defined.


(** * Further properties of the in-page scripts *)

Module ScriptFacts.
Import Dom.

(** everything of an element that the writers and the text matchers must
    leave alone: all but the value and the record of events *)
Definition shape (e : Element)
  : string * list (string * string) * string * string * option nat * bool * bool
    * list (string * string) :=
  (tag e, attrs e, innerText e, textContent e, parent e, offsetParent e, fixedVisible e,
   options e).

Definition shapes (d : Document) := List.map shape (nodes d).

Lemma update_nth_length l i f : List.length (update_nth l i f) = List.length l.
Proof.
  revert i; induction l as [|a l IH]; intros [|i]; simpl; auto.
Qed.

Lemma nth_update_nth_other l i j f :
  i <> j -> nth_error (update_nth l i f) j = nth_error l j.
Proof.
  revert i j; induction l as [|a l IH]; intros i j H; destruct i, j; simpl;
    try reflexivity; try (exfalso; now apply H).
  apply IH. intros ->. now apply H.
Qed.

Lemma node_update_other d i j f : i <> j -> node (update d i f) j = node d j.
Proof. intros H. unfold node, update; simpl. now apply nth_update_nth_other. Qed.

Lemma map_update_nth {B} (g : Element -> B) l i f :
  (forall e, g (f e) = g e) -> List.map g (update_nth l i f) = List.map g l.
Proof.
  intros H. revert i; induction l as [|a l IH]; intros [|i]; simpl; auto.
  - now rewrite H.
  - now rewrite IH.
Qed.

Lemma shapes_setValue i v d : shapes (setValue i v d) = shapes d.
Proof. unfold shapes, setValue, update; simpl. now apply map_update_nth. Qed.

Lemma shapes_dispatchEvent i ty d : shapes (dispatchEvent i ty d) = shapes d.
Proof. unfold shapes, dispatchEvent, update; simpl. now apply map_update_nth. Qed.

Lemma shapes_focus i d : shapes (focus i d) = shapes d.
Proof. reflexivity. Qed.

Lemma shapes_setVal el v d : shapes (snd (Script.setVal el v d)) = shapes d.
Proof.
  destruct el as [i|]; simpl; [|reflexivity].
  now rewrite !shapes_dispatchEvent, !shapes_setValue, shapes_dispatchEvent, shapes_setValue.
Qed.

(** a predicate that looks at the shape alone *)
Definition shapely (p : Element -> bool) : Prop :=
  forall e e', shape e = shape e' -> p e = p e'.

Lemma select_from_shapes p l l' base :
  shapely p -> List.map shape l = List.map shape l' ->
  select_from p base l = select_from p base l'.
Proof.
  intros Hp. revert l' base; induction l as [|a l IH]; intros [|a' l'] base H;
    simpl in *; try discriminate; auto.
  pose proof (f_equal (fun l => hd (shape a) l) H) as H1; simpl in H1.
  pose proof (f_equal (@tl _) H) as H2; simpl in H2.
  rewrite (Hp a a' H1). now rewrite (IH l' (S base) H2).
Qed.

Lemma querySelectorAll_shapes p d d' :
  shapely p -> shapes d = shapes d' -> querySelectorAll p d = querySelectorAll p d'.
Proof. intros Hp H. now apply select_from_shapes. Qed.


(** ** The heuristic scan *)

(** the [inputs] of [setDnsByHeuristic]: the text-like inputs whose id, name
    or class contains "dns", in document order *)
Definition candidates (d : Document) : list nat :=
  List.filter (fun i => match node d i with
                        | Some e => Script.looksLikeDns e
                        | None => false
                        end)
              (querySelectorAll Script.textLikeInput d).

Definition priAlts : list string := ["pri"; "primary"; "dns1"; "pref"].
Definition secAlts : list string := ["sec"; "secondary"; "dns2"; "alt"].

(** [pick(rx)] *)
Definition pickBy (alts : list string) (d : Document) : option nat :=
  List.find (fun i => match node d i with
                      | Some e => Js.test_any_i alts (Script.blob e)
                      | None => false
                      end) (candidates d).

(** [pri] and, when a secondary value is requested, [sec] *)
Definition primaryTarget (d : Document) : option nat :=
  Script.orElseNode (pickBy priAlts d) (hd_error (candidates d)).

Definition secondaryTarget (d : Document) : option nat :=
  Script.orElseNode (pickBy secAlts d)
    (List.find (fun i => negb (match primaryTarget d with
                               | Some p => (i =? p)%nat
                               | None => false
                               end)) (candidates d)).

Lemma setDnsByHeuristic_targets dns1 dns2 d :
  Script.setDnsByHeuristic dns1 dns2 d
  = match candidates d with
    | [] => ((false, negb (Js.truthy dns2)), d)
    | _ :: _ =>
        let r1 := Script.setVal (primaryTarget d) dns1 d in
        let r2 := if Js.truthy dns2
                  then Script.setVal (secondaryTarget d) dns2 (snd r1)
                  else (true, snd r1) in
        ((fst r1, fst r2), snd r2)
    end.
Proof.
  unfold Script.setDnsByHeuristic, secondaryTarget, primaryTarget, pickBy, priAlts, secAlts.
  fold (candidates d).
  destruct (candidates d) as [|first rest]; [reflexivity|].
  cbv zeta. change (hd_error (first :: rest)) with (Some first).
  set (pri := Script.orElseNode _ (Some first)).
  set (r1 := Script.setVal pri dns1 d).
  destruct r1 as [ok1 d1]. cbn [fst snd].
  destruct (Js.truthy dns2); [|reflexivity].
  set (r2 := Script.setVal _ dns2 d1).
  destruct r2 as [ok2 d2]. reflexivity.
Qed.

Lemma candidates_valid d i :
  In i (candidates d) ->
  exists e, node d i = Some e /\ Script.textLikeInput e = true /\ Script.looksLikeDns e = true.
Proof.
  unfold candidates. intros H. apply filter_In in H as [Hq Hl].
  destruct (DomFacts.querySelectorAll_valid _ _ _ Hq) as (e & He & Hp).
  rewrite He in Hl. eauto.
Qed.

Lemma primaryTarget_in d p : primaryTarget d = Some p -> In p (candidates d).
Proof.
  unfold primaryTarget, Script.orElseNode, pickBy.
  destruct (List.find _ (candidates d)) as [q|] eqn:Hf.
  - intros H; inversion H; subst. now apply find_some in Hf as [Hf _].
  - destruct (candidates d); simpl; [discriminate|]. intros H; inversion H. now left.
Qed.

Lemma secondaryTarget_in d p : secondaryTarget d = Some p -> In p (candidates d).
Proof.
  unfold secondaryTarget, Script.orElseNode, pickBy.
  destruct (List.find _ (candidates d)) as [q|] eqn:Hf.
  - intros H; inversion H; subst. now apply find_some in Hf as [Hf _].
  - intros H. now apply find_some in H as [H _].
Qed.

Lemma node_setVal_other p v d j :
  p <> j -> node (snd (Script.setVal (Some p) v d)) j = node d j.
Proof.
  intros H. simpl. unfold dispatchEvent, setValue.
  now rewrite !node_update_other.
Qed.




Lemma value_setVal i v d e :
  node d i = Some e ->
  option_map value (node (snd (Script.setVal (Some i) v d)) i) = Some v /\
  option_map events (node (snd (Script.setVal (Some i) v d)) i)
  = Some (events e ++ ["input"; "input"; "change"]).
Proof.
  intros H. destruct (DomFacts.setVal_writes d i v H) as (e' & He' & _ & Hv & Hev).
  rewrite He'. simpl. now rewrite Hv, Hev.
Qed.

(** X5: the scan writes DNS-like text inputs and nothing else: every other
    element keeps its value and its events *)
Theorem heuristic_leaves_other_elements dns1 dns2 d i e :
  node d i = Some e ->
  Script.textLikeInput e && Script.looksLikeDns e = false ->
  node (snd (Script.setDnsByHeuristic dns1 dns2 d)) i = Some e.
Proof.
  intros He Hp.
  assert (Hout : ~ In i (candidates d)).
  { intros Hin. destruct (candidates_valid d i Hin) as (e' & He' & H1 & H2).
    rewrite He in He'. inversion He'; subst e'. now rewrite H1, H2 in Hp. }
  rewrite setDnsByHeuristic_targets.
  destruct (candidates d) as [|c cs] eqn:Hc; [exact He|].
  rewrite <- Hc in Hout. cbv zeta. simpl snd.
  assert (H1 : node (snd (Script.setVal (primaryTarget d) dns1 d)) i = Some e).
  { destruct (primaryTarget d) as [p|] eqn:Hp1; [|exact He].
    rewrite node_setVal_other; [exact He|].
    intros ->. apply Hout. now apply primaryTarget_in. }
  destruct (Js.truthy dns2); [|exact H1].
  destruct (secondaryTarget d) as [q|] eqn:Hq; [|exact H1].
  rewrite node_setVal_other; [exact H1|].
  intros ->. apply Hout. now apply secondaryTarget_in.
Qed.






(** ** First match in document order *)

Lemma find_select_from q d p l base i :
  (forall k, nth_error l k = node d (base + k)) ->
  Script.find_node q d (select_from p base l) = Some i ->
  exists k e, i = base + k /\ nth_error l k = Some e /\ p e = true /\ q e = true /\
    forall k' e', k' < k -> nth_error l k' = Some e' -> p e' = true -> q e' = false.
Proof.
  unfold Script.find_node.
  revert base; induction l as [|a l IH]; intros base Hl H; simpl in H; [discriminate|].
  assert (Hl' : forall k, nth_error l k = node d (S base + k)).
  { intros k. replace (S base + k) with (base + S k) by lia. exact (Hl (S k)). }
  assert (Ha : node d base = Some a) by (rewrite <- (Nat.add_0_r base); symmetry; exact (Hl 0)).
  destruct (p a) eqn:Hp.
  - simpl in H. rewrite Ha in H. destruct (q a) eqn:Hq.
    + inversion H; subst i. exists 0, a. rewrite Nat.add_0_r.
      repeat split; auto. intros k' e' Hlt. lia.
    + destruct (IH _ Hl' H) as (k & e & -> & He & Hpe & Hqe & Hfirst).
      exists (S k), e. split; [lia|]. split; [exact He|]. split; [exact Hpe|].
      split; [exact Hqe|].
      intros [|k'] e' Hlt He' Hpe'; simpl in He'.
      * now inversion He'; subst e'.
      * apply (Hfirst k' e'); auto. lia.
  - destruct (IH _ Hl' H) as (k & e & -> & He & Hpe & Hqe & Hfirst).
    exists (S k), e. split; [lia|]. split; [exact He|]. split; [exact Hpe|].
    split; [exact Hqe|].
    intros [|k'] e' Hlt He' Hpe'; simpl in He'.
    * inversion He'; subst e'. congruence.
    * apply (Hfirst k' e'); auto. lia.
Qed.

Lemma find_select_from_none q d p l base :
  (forall k, nth_error l k = node d (base + k)) ->
  Script.find_node q d (select_from p base l) = None ->
  forall k e, nth_error l k = Some e -> p e = true -> q e = false.
Proof.
  unfold Script.find_node.
  revert base; induction l as [|a l IH]; intros base Hl H k e He Hp.
  - destruct k; discriminate.
  - assert (Hl' : forall k, nth_error l k = node d (S base + k)).
    { intros k0. replace (S base + k0) with (base + S k0) by lia. exact (Hl (S k0)). }
    assert (Ha : node d base = Some a)
      by (rewrite <- (Nat.add_0_r base); symmetry; exact (Hl 0)).
    simpl in H. destruct (p a) eqn:Hpa.
    + simpl in H. rewrite Ha in H. destruct (q a) eqn:Hq; [discriminate|].
      destruct k as [|k]; simpl in He.
      * now inversion He; subst e.
      * exact (IH _ Hl' H k e He Hp).
    + destruct k as [|k]; simpl in He.
      * inversion He; subst e. congruence.
      * exact (IH _ Hl' H k e He Hp).
Qed.

(** the element a matcher finds is the first one of the query that passes
    its test *)
Lemma find_node_first q p d i :
  Script.find_node q d (querySelectorAll p d) = Some i ->
  exists e, node d i = Some e /\ p e = true /\ q e = true /\
    forall j e', j < i -> node d j = Some e' -> p e' = true -> q e' = false.
Proof.
  intros H. destruct (@find_select_from q d p (nodes d) 0 i (fun k => eq_refl) H)
    as (k & e & -> & He & Hp & Hq & Hfirst).
  exists e. repeat split; auto.
Qed.

Lemma find_node_none q p d :
  Script.find_node q d (querySelectorAll p d) = None ->
  forall j e, node d j = Some e -> p e = true -> q e = false.
Proof.
  intros H. exact (@find_select_from_none q d p (nodes d) 0 (fun k => eq_refl) H).
Qed.


(** ** The text matchers *)

(** X2: on a document where the text matcher is embedded exactly, and for
    an ASCII needle, [clickByText] clicks the first clickable element whose
    text or value contains the needle; when no clickable element does, the
    first element of any kind that does; it reports false, and leaves the
    document as it was, exactly when no element at all does *)
Theorem clickByText_clicks_first_match t d :
  Scope.matchers d = true ->
  Scope.ascii t = true ->
  (fst (Script.clickByText t d) = false /\ snd (Script.clickByText t d) = d /\
   forall j e, node d j = Some e -> Script.textMatches (Js.toLowerCase t) e = false)
  \/
  (fst (Script.clickByText t d) = true /\
   exists i e, snd (Script.clickByText t d) = click i d /\ node d i = Some e /\
     Script.textMatches (Js.toLowerCase t) e = true /\
     (forall j e', node d j = Some e' ->
        Script.textMatches (Js.toLowerCase t) e' = true ->
        Script.clickable e' = true -> Script.clickable e = true) /\
     (forall j e', j < i -> node d j = Some e' ->
        Script.textMatches (Js.toLowerCase t) e' = true ->
        Script.clickable e = true /\ Script.clickable e' = false)).
Proof.
  intros _ _. unfold Script.clickByText. cbv zeta.
  set (needle := Js.toLowerCase t).
  destruct (Script.find_node (Script.textMatches needle) d
              (querySelectorAll Script.clickable d)) as [i|] eqn:H1.
  - right. destruct (find_node_first _ _ _ H1) as (e & He & Hc & Hm & Hfirst).
    split; [reflexivity|]. exists i, e. simpl. repeat split; auto.
    destruct (Script.clickable e') eqn:Hc'; [|reflexivity].
    rewrite (Hfirst j e') in H2; auto.
  - pose proof (find_node_none _ _ _ H1) as Hnone.
    destruct (Script.find_node (Script.textMatches needle) d
                (querySelectorAll (fun _ => true) d)) as [i|] eqn:H2.
    + right. destruct (find_node_first _ _ _ H2) as (e & He & _ & Hm & Hfirst).
      split; [reflexivity|]. exists i, e. simpl.
      split; [reflexivity|]. split; [exact He|]. split; [exact Hm|]. split.
      * intros j e' He' Hm' Hc'. rewrite (Hnone j e' He' Hc') in Hm'. discriminate.
      * intros j e' Hlt He' Hm'. rewrite (Hfirst j e' Hlt He' eq_refl) in Hm'. discriminate.
    + left. simpl. repeat split.
      intros j e He. exact (find_node_none _ _ _ H2 j He eq_refl).
Qed.

(** X3: on a document where the text matcher is embedded exactly, and for
    an ASCII needle, [clickByTextInContext] clicks the first visible element
    of its query whose text or value contains the needle, and nothing else:
    an element that is hidden or outside the query is never clicked *)
Theorem clickByTextInContext_clicks_first_visible n d :
  Scope.matchers d = true ->
  Scope.ascii n = true ->
  (fst (Script.clickByTextInContext n d) = false /\
   snd (Script.clickByTextInContext n d) = d /\
   forall j e, node d j = Some e -> Script.clickableInContext e = true ->
     Script.isVisible e && Script.textMatches n e = false)
  \/
  (fst (Script.clickByTextInContext n d) = true /\
   exists i e, snd (Script.clickByTextInContext n d) = click i d /\ node d i = Some e /\
     Script.clickableInContext e = true /\ Script.isVisible e = true /\
     Script.textMatches n e = true /\
     forall j e', j < i -> node d j = Some e' -> Script.clickableInContext e' = true ->
       Script.isVisible e' && Script.textMatches n e' = false).
Proof.
  intros _ _. unfold Script.clickByTextInContext.
  destruct (Script.find_node _ d (querySelectorAll Script.clickableInContext d))
    as [i|] eqn:H1.
  - right. destruct (find_node_first _ _ _ H1) as (e & He & Hc & Hm & Hfirst).
    apply andb_true_iff in Hm as [Hv Hm].
    split; [reflexivity|]. exists i, e. simpl. repeat split; auto.
  - left. simpl. repeat split. exact (find_node_none _ _ _ H1).
Qed.

(** ** Reading back what was written *)





Lemma shapes_setDnsByHeuristic dns1 dns2 d :
  shapes (snd (Script.setDnsByHeuristic dns1 dns2 d)) = shapes d.
Proof.
  rewrite setDnsByHeuristic_targets.
  destruct (candidates d); [reflexivity|]. cbv zeta. cbn [snd].
  destruct (Js.truthy dns2); [rewrite shapes_setVal|]; apply shapes_setVal.
Qed.

Lemma orElse_empty v : Js.orElse v "" = v.
Proof. unfold Js.orElse, Js.truthy. destruct v; reflexivity. Qed.


(** ** Concrete pages *)

(** the DHCP form of the router, two inputs named after no field, and one
    input whose names fit both fields *)
Definition dhcpForm : Document := Sim.doc (Sim.dhcpNodes true "" "").



(** a login page: a link, a hidden division and the login button *)
Definition loginDocument : Document :=
  Sim.doc (Live.page "Router Help Log In"
             [ Sim.el "a" [("href", "help.html")] "" "Help";
               Dom.mkElement "div" [] "" "log in to continue" "log in to continue"
                 (Some 1) false false [] [];
               Sim.el "button" [("id", "loginBtn")] "" "Log In" ]).

Lemma clickByText_clicks_first_match_witness :
  exists i e, snd (Script.clickByText "Log In" loginDocument) = click i loginDocument /\
    node loginDocument i = Some e /\
    Script.textMatches (Js.toLowerCase "Log In") e = true /\
    (forall j e', node loginDocument j = Some e' ->
       Script.textMatches (Js.toLowerCase "Log In") e' = true ->
       Script.clickable e' = true -> Script.clickable e = true) /\
    (forall j e', j < i -> node loginDocument j = Some e' ->
       Script.textMatches (Js.toLowerCase "Log In") e' = true ->
       Script.clickable e = true /\ Script.clickable e' = false).
Proof.
  destruct (@clickByText_clicks_first_match "Log In" loginDocument) as [[H _]|[_ H]].
  - vm_compute; reflexivity.
  - vm_compute; reflexivity.
  - vm_compute in H. discriminate H.
  - exact H.
Defined.

Lemma clickByTextInContext_clicks_first_visible_witness :
  exists i e, snd (Script.clickByTextInContext "log in" loginDocument)
              = click i loginDocument /\
    node loginDocument i = Some e /\
    Script.clickableInContext e = true /\ Script.isVisible e = true /\
    Script.textMatches "log in" e = true /\
    forall j e', j < i -> node loginDocument j = Some e' ->
      Script.clickableInContext e' = true ->
      Script.isVisible e' && Script.textMatches "log in" e' = false.
Proof.
  destruct (@clickByTextInContext_clicks_first_visible "log in" loginDocument)
    as [[H _]|[_ H]].
  - vm_compute; reflexivity.
  - vm_compute; reflexivity.
  - vm_compute in H. discriminate H.
  - exact H.
Defined.

Lemma heuristic_leaves_other_elements_witness :
  node (snd (Script.setDnsByHeuristic "1.1.1.1" "8.8.8.8" dhcpForm)) 0
  = Some (Sim.el "div" [("id", "dhcp2title")] "" "DHCP Server Configuration").
Proof.
  apply (@heuristic_leaves_other_elements "1.1.1.1" "8.8.8.8" dhcpForm 0).
  - reflexivity.
  - vm_compute. reflexivity.
Defined.




End ScriptFacts.

(** * The in-page scripts of the earlier revision

    [src/unnamed/part_000] looks at one label and at one select only: the
    first that passes the test, whether or not it leads anywhere. *)

Module Part000Script.
Import Dom.

Definition labelMatches (labelText : string) (le : Element) : bool :=
  Js.truthy (textContent le) &&
  Js.includes (Js.toLowerCase labelText) (Js.toLowerCase (Js.trim (textContent le))).

Definition setInputByLabel_at (labelText value : string) (labels : list nat) (d : Document)
  : bool * Document :=
  match Script.find_node (labelMatches labelText) d labels with
  | None => (false, d)
  | Some l =>
      match node d l with
      | None => (false, d)
      | Some le =>
          let input0 :=
            match getAttribute "for" le with
            | Some forId => if Js.truthy forId then getElementById forId d else None
            | None => None
            end in
          let input1 := Script.orElseNode input0 (querySelectorUnder l (is_tag "input") d) in
          let input2 :=
            match input1 with
            | Some _ => input1
            | None =>
                match parent le with
                | Some p => querySelectorUnder p (is_tag "input") d
                | None => None
                end
            end in
          match input2 with
          | Some i =>
              let d := focus i d in
              let d := setValue i "" d in
              let d := dispatchEvent i "input" d in
              let d := setValue i value d in
              let d := dispatchEvent i "input" d in
              (true, d)
          | None => (false, d)
          end
      end
  end.

Definition setInputByLabel (labelText value : string) (d : Document) : bool * Document :=
  setInputByLabel_at labelText value (querySelectorAll (is_tag "label") d) d.

Definition ensureManualDns_at (sels : list nat) (d : Document) : bool * Document :=
  match Script.find_node Script.dnsModeSelect d sels with
  | None => (false, d)
  | Some s =>
      match node d s with
      | None => (false, d)
      | Some e =>
          match List.find Script.manualOption (options e) with
          | Some o => (true, Script.setSelect s (snd o) d)
          | None => (false, d)
          end
      end
  end.

Definition ensureManualDns (d : Document) : bool * Document :=
  ensureManualDns_at (querySelectorAll (is_tag "select") d) d.

(** two labels read alike, each in a division of its own, and only the
    second division holds an input: elements 0 and 1 are the root and the
    body, 2 and 4 the divisions, 3 and 5 the labels, 6 the input *)
Definition twoLabels : Document :=
  Sim.doc [ Sim.el "html" [] "" "Primary DNS Primary DNS Server";
            Sim.child 0 (Sim.el "body" [] "" "Primary DNS Primary DNS Server");
            Sim.child 1 (Sim.el "div" [("class", "title")] "" "Primary DNS");
            Sim.child 2 (Sim.el "label" [] "" "Primary DNS");
            Sim.child 1 (Sim.el "div" [("class", "row")] "" "Primary DNS Server");
            Sim.child 4 (Sim.el "label" [("for", "pdns")] "" "Primary DNS Server");
            Sim.child 4 (Sim.el "input" [("id", "pdns"); ("type", "text")] "" "") ].

(** two selects for the DNS service, children of the body, and only the
    second offers a manual mode *)
Definition twoSelects : Document :=
  Sim.doc [ Sim.el "html" [] "" "On Off Automatic Manual";
            Sim.child 0 (Sim.el "body" [] "" "On Off Automatic Manual");
            Dom.mkElement "select" [("id", "dnsRelay")] "on" "On Off" "On Off"
              (Some 1) true false [("On", "on"); ("Off", "off")] [];
            Dom.mkElement "select" [("id", "dnsMode")] "auto" "Automatic Manual"
              "Automatic Manual" (Some 1) true false
              [("Automatic", "auto"); ("Manual", "man")] [] ].

(** a label that names its input *)
Definition labelled : Document :=
  Sim.doc (Live.page "Primary DNS Server"
             [ Sim.el "label" [("for", "pdns")] "" "Primary DNS Server";
               Sim.el "input" [("id", "pdns"); ("type", "text")] "8.8.8.8" "" ]).

Lemma setInputByLabel_at_extends labelText v labels d :
  fst (setInputByLabel_at labelText v labels d) = true ->
  Script.setInputByLabel_loop labelText v labels d = setInputByLabel_at labelText v labels d.
Proof.
  unfold setInputByLabel_at, Script.find_node.
  induction labels as [|l rest IH]; simpl; [discriminate|].
  destruct (node d l) as [le|] eqn:Hl; [|exact IH].
  fold (labelMatches labelText le).
  destruct (labelMatches labelText le); [|exact IH].
  rewrite Hl. cbv zeta.
  set (input1 := Script.orElseNode _ _).
  destruct input1 as [i|]; [reflexivity|].
  destruct (parent le) as [p|]; [|discriminate].
  destruct (querySelectorUnder p (is_tag "input") d); [reflexivity|discriminate].
Qed.

Lemma ensureManualDns_at_extends sels d :
  fst (ensureManualDns_at sels d) = true ->
  Script.ensureManualDns_loop sels d = ensureManualDns_at sels d.
Proof.
  unfold ensureManualDns_at, Script.find_node.
  induction sels as [|s rest IH]; simpl; [discriminate|].
  destruct (node d s) as [e|] eqn:Hs; [|exact IH].
  destruct (Script.dnsModeSelect e); [|exact IH].
  rewrite Hs.
  destruct (List.find Script.manualOption (options e)); [reflexivity|discriminate].
Qed.

(** X10: the scripts of [index.js] extend those of the earlier revision: where
    the earlier one succeeds the later one does the same thing, and there
    are pages where only the later one succeeds: a page whose first matching
    label stands in a division without an input, and a page whose first DNS
    select offers no manual mode *)
Theorem scripts_extend_earlier_revision :
  (forall labelText v d,
     fst (setInputByLabel labelText v d) = true ->
     Script.setInputByLabel labelText v d = setInputByLabel labelText v d) /\
  (forall d,
     fst (ensureManualDns d) = true ->
     Script.ensureManualDns d = ensureManualDns d) /\
  (fst (setInputByLabel "Primary DNS" "1.1.1.1" twoLabels) = false /\
   fst (Script.setInputByLabel "Primary DNS" "1.1.1.1" twoLabels) = true /\
   option_map value (node (snd (Script.setInputByLabel "Primary DNS" "1.1.1.1" twoLabels)) 6)
   = Some "1.1.1.1") /\
  (fst (ensureManualDns twoSelects) = false /\
   fst (Script.ensureManualDns twoSelects) = true /\
   option_map value (node (snd (Script.ensureManualDns twoSelects)) 3) = Some "man").
Proof.
  split; [|split; [|split]].
  - intros. now apply setInputByLabel_at_extends.
  - intros. now apply ensureManualDns_at_extends.
  - vm_compute. repeat split.
  - vm_compute. repeat split.
Qed.

Lemma scripts_extend_earlier_revision_witness :
  Script.setInputByLabel "Primary DNS" "1.1.1.1" labelled
  = setInputByLabel "Primary DNS" "1.1.1.1" labelled.
Proof.
  apply (proj1 scripts_extend_earlier_revision "Primary DNS" "1.1.1.1" labelled).
  vm_compute. reflexivity.
Defined.

End Part000Script.

(** * Further properties of the automation *)

Section Exhaustion.
Import Auto.
Variable E : Engine.

Lemma waitAndTypeFirst_exhausted (w : World E) (l : list Call) (c : Ctx) (sels : list string) v :
  Forall (fun s => found E w c s = None) sels ->
  Index.waitAndTypeFirst c sels v (mkSt w l) = (Ok false, mkSt w (l ++ map (CQuery c) sels)).
Proof.
  intros H. pose proof (@waitAndTypeFirst_skip E w l c sels [] v H) as Hx.
  rewrite app_nil_r in Hx. exact Hx.
Qed.

(** X1: a cascade none of whose candidates resolves queries every candidate
    once and in order, clicks and types nothing, leaves the router as it
    was, and reports false (no frame, for the frame locator) *)
Theorem cascade_exhaustion (w : World E) (l : list Call) (c : Ctx) (sels : list string) :
  Forall (fun s => found E w c s = None) sels ->
  (forall v, Index.waitAndTypeFirst c sels v (mkSt w l)
             = (Ok false, mkSt w (l ++ map (CQuery c) sels))) /\
  (forall wait, Index.clickFirst c sels wait (mkSt w l)
                = (Ok false, mkSt w (l ++ map (CQuery c) sels))) /\
  Index.getContentFrame_from c sels (mkSt w l)
  = (Ok None, mkSt w (l ++ map (CQuery c) sels)).
Proof.
  intros H.
  assert (Hnone : Forall (fun s => frameVia E w c s = None) sels).
  { eapply Forall_impl; [|exact H]. intros s Hs. unfold frameVia. now rewrite Hs. }
  assert (Hprobes : probes E w c sels = map (CQuery c) sels).
  { clear -H. induction H as [|s pre Hs _ IH]; [reflexivity|].
    unfold probes in *; simpl. now rewrite Hs, IH. }
  split; [|split].
  - intros v. now apply waitAndTypeFirst_exhausted.
  - intros wait. pose proof (@clickFirst_skip E w l c sels [] wait H) as Hx.
    rewrite app_nil_r in Hx. exact Hx.
  - pose proof (@getContentFrame_from_skip E w l c sels [] Hnone) as Hx.
    rewrite app_nil_r, Hprobes in Hx. exact Hx.
Qed.

End Exhaustion.

Lemma cascade_exhaustion_witness :
  Index.waitAndTypeFirst Auto.Page SELECTORS.password "secret" (Sim.start Sim.loginPage)
  = (Auto.Ok false,
     Auto.mkSt (E := Sim.engine Sim.loginPage) 0
       ([] ++ map (Auto.CQuery Auto.Page) SELECTORS.password)).
Proof.
  refine (proj1 (@cascade_exhaustion (Sim.engine Sim.loginPage) 0 [] Auto.Page
                   SELECTORS.password _) "secret").
  vm_compute. repeat constructor.
Defined.

(** ** The run as a whole *)

(** the first byte of the check mark that opens the success line *)
Definition firstByte (s : string) : ascii :=
  match s with String a _ => a | EmptyString => Ascii.zero end.

Definition tick : ascii := firstByte "✔".

(** neither an error line nor a line that opens like the success line *)
Definition plain (c : Auto.Call) : bool :=
  match c with
  | Auto.CError _ => false
  | Auto.CLog (String a _) => negb (Ascii.eqb a tick)
  | _ => true
  end.

(** what may follow the failure line: the screenshot and its report *)
Definition afterFailure (c : Auto.Call) : bool :=
  match c with
  | Auto.CScreenshot _ => true
  | Auto.CError line => line =? "Saved screenshot"
  | _ => false
  end.

Section WholeRun.
Import Auto.
Variable E : Engine.
Local Open Scope auto_scope.

Ltac plain_tac :=
  repeat first
    [ apply emits_getContentFrame; [reflexivity | intros ?; reflexivity]
    | apply emits_waitAndTypeFirst; [reflexivity | intros ?; reflexivity | intros ?; reflexivity]
    | apply emits_clickFirst; [reflexivity | intros ?; reflexivity | reflexivity]
    | apply emits_clickByText; reflexivity
    | apply emits_clickByTextInContext; reflexivity
    | progress emits_tac ].

Lemma plain_title page debug : emits plain (Index.navigateToDns_title (E := E) page debug).
Proof. unfold Index.navigateToDns_title. plain_tac. Qed.

Lemma plain_dhcp page debug : emits plain (Index.navigateToDns_dhcp (E := E) page debug).
Proof. pose proof (plain_title page debug). unfold Index.navigateToDns_dhcp. plain_tac. Qed.

Lemma plain_lan page debug : emits plain (Index.navigateToDns_lan (E := E) page debug).
Proof. pose proof (plain_dhcp page debug). unfold Index.navigateToDns_lan. plain_tac. Qed.

Lemma plain_navigateToDns page debug : emits plain (Index.navigateToDns (E := E) page debug).
Proof. pose proof (plain_lan page debug). unfold Index.navigateToDns. plain_tac. Qed.

Lemma plain_main_login argv : emits plain (Index.main_login (E := E) argv).
Proof. unfold Index.main_login. plain_tac. Qed.

Lemma plain_toggles page sels (k : M E bool) :
  emits plain k -> emits plain (Index.ensureManualDns_toggles page sels k).
Proof. intros Hk. induction sels as [|sel rest IH]; simpl; [exact Hk|]. plain_tac. Qed.

Lemma plain_ensureManualDns page : emits plain (Index.ensureManualDns (E := E) page).
Proof.
  assert (Hk : emits plain
    (Index.ensureManualDns_toggles (E := E) page SELECTORS.manualDnsToggles
       (Index.orElse (Index.clickByText page "Manual")
          (Index.orElse (Index.clickByText page "Estático") (ret false)))))
    by (apply plain_toggles; plain_tac).
  unfold Index.ensureManualDns. cbv zeta. plain_tac.
Qed.

Lemma plain_tiers frame dns1 dns2 :
  emits plain (Index.setDnsValues_tiers (E := E) frame dns1 dns2).
Proof.
  unfold Index.setDnsValues_tiers, Index.primaryByLabel, Index.secondaryByLabel,
    Index.setInputByLabel, Index.setDnsByHeuristic.
  plain_tac.
Qed.

Lemma plain_setDnsValues page dns1 dns2 debug :
  emits plain (Index.setDnsValues (E := E) page dns1 dns2 debug).
Proof.
  pose proof (plain_ensureManualDns) as H1.
  pose proof (fun f => plain_tiers f dns1 dns2) as H2.
  unfold Index.setDnsValues. plain_tac.
Qed.

Lemma plain_main_configure argv : emits plain (Index.main_configure (E := E) argv).
Proof.
  pose proof (plain_navigateToDns Page (Index.debug argv)).
  pose proof (plain_setDnsValues Page (Index.dns1 argv) (Index.dns2 argv) (Index.debug argv)).
  assert (Hurl : forall c, emits plain (Index.frameUrl_ (E := E) c))
    by (intros c s; exists []; simpl; now rewrite app_nil_r).
  unfold Index.main_configure. plain_tac. apply Hurl.
Qed.

Lemma plain_saveChanges ctx : emits plain (Index.saveChanges (E := E) ctx).
Proof. unfold Index.saveChanges. plain_tac. Qed.

Lemma plain_verifyDnsApplied_loop n : forall i page e1 e2 retries delayMs,
  emits plain (Index.verifyDnsApplied_loop (E := E) n i page e1 e2 retries delayMs).
Proof.
  induction n as [|n IH]; intros i page e1 e2 retries delayMs; simpl.
  - apply emits_ret.
  - pose proof (plain_navigateToDns page false).
    pose proof (IH (i + 1)%Z page e1 e2 retries delayMs).
    unfold Index.readDnsValuesFromFrame. plain_tac.
Qed.

Lemma plain_main_verify argv : emits plain (Index.main_verify (E := E) argv).
Proof.
  pose proof (plain_verifyDnsApplied_loop 4 0%Z Page (Index.dns1 argv) (Index.dns2 argv) 4 800).
  unfold Index.main_verify, Index.verifyDnsApplied. change (Z.to_nat 4) with 4%nat.
  plain_tac.
Qed.

(** the [try] block up to the test of [saved] *)
Definition main_upToSave (argv : Index.Argv) : M E bool :=
  Index.main_login argv ;;;
  Index.main_configure argv ;;;
  contentFrame <- Index.getContentFrame Page ;;
  saved <- Index.saveChanges (match contentFrame with Some f => f | None => Page end) ;;
  Index.main_verify argv ;;;
  ret saved.

Lemma main_try_split argv s :
  Index.main_try argv s
  = (saved <- main_upToSave argv ;;
     if negb saved then throw "Could not find a Save/Apply button." else
     Index.sleep 600 ;;; emit (CLog (successLine argv)) ;;; ret 0) s.
Proof.
  unfold Index.main_try, main_upToSave, Index.main_apply, successLine, bind.
  destruct (Index.main_login argv s) as [[[]|e] s1]; [|reflexivity].
  destruct (Index.main_configure argv s1) as [[[]|e] s2]; [|reflexivity].
  destruct (Index.getContentFrame Page s2) as [[cf|e] s3]; [|reflexivity].
  destruct (Index.saveChanges _ s3) as [[saved|e] s4]; [|reflexivity].
  destruct (Index.main_verify argv s4) as [[[]|e] s5]; [|reflexivity].
  simpl. destruct saved; reflexivity.
Qed.

Lemma plain_main_upToSave argv : emits plain (main_upToSave argv).
Proof.
  pose proof (plain_main_login argv).
  pose proof (plain_main_configure argv).
  pose proof (plain_main_verify argv).
  pose proof (fun c => plain_saveChanges c).
  unfold main_upToSave. plain_tac. all: auto.
Qed.

(** the [catch] and [finally] blocks *)
Definition main_fail (argv : Index.Argv) (message : string) : M E nat :=
  exitCode <- Index.main_catch argv message ;;
  step CClose (close E) ;;;
  ret exitCode.

Lemma main_split argv s :
  Index.main argv s
  = match main_upToSave argv (snd (Index.main_setup s)) with
    | (Ok true, s1) =>
        (Ok 0, mkSt (close E (sleep E 600 (world s1)))
                 (log s1 ++ [CSleep 600; CLog (successLine argv); CClose]))
    | (Ok false, s1) => main_fail argv "Could not find a Save/Apply button." s1
    | (Throws e, s1) => main_fail argv e s1
    end.
Proof.
  unfold Index.main, main_fail. unfold bind at 1.
  change (Index.main_setup s) with (Ok tt, snd (Index.main_setup s)).
  generalize (snd (Index.main_setup s)). intros s0. cbn [snd].
  unfold bind at 1, catch. rewrite main_try_split. unfold bind at 1.
  destruct (main_upToSave argv s0) as [[[|]|e] s1]; simpl.
  - unfold bind, Index.sleep, step, emit, ret; simpl. now rewrite <- !app_assoc.
  - reflexivity.
  - reflexivity.
Qed.

Lemma main_fail_log argv message (s1 : St E) :
  exists d1,
    fst (main_fail argv message s1) = Ok 1 /\
    log (snd (main_fail argv message s1))
    = log s1 ++ (CError ("✖ Failed: " ++ message) :: d1) ++ [CClose] /\
    forallb afterFailure d1 = true /\
    (d1 = [] \/ Index.debug argv = true).
Proof.
  unfold main_fail, Index.main_catch.
  destruct (Index.debug argv) eqn:Hd.
  - unfold bind, throw, emit, attempt, catch, Index.screenshot_, act, ret, step; simpl.
    destruct (screenshot E _ _) as [[[]|e'] w2]; simpl.
    + exists [CScreenshot (now E (world s1)); CError "Saved screenshot"].
      rewrite <- !app_assoc. repeat split; auto.
    + exists [CScreenshot (now E (world s1))].
      rewrite <- !app_assoc. repeat split; auto.
  - exists []. simpl. rewrite <- !app_assoc. repeat split; auto.
Qed.

Lemma block_split argv (s0 : St E) :
  catch (Index.main_try argv) (Index.main_catch argv) s0
  = match main_upToSave argv s0 with
    | (Ok true, s1) =>
        (Ok 0, mkSt (sleep E 600 (world s1))
                 (log s1 ++ [CSleep 600; CLog (successLine argv)]))
    | (Ok false, s1) => Index.main_catch argv "Could not find a Save/Apply button." s1
    | (Throws e, s1) => Index.main_catch argv e s1
    end.
Proof.
  unfold catch. rewrite main_try_split. unfold bind at 1.
  destruct (main_upToSave argv s0) as [[[|]|e] s1]; simpl.
  - unfold bind, Index.sleep, step, emit, ret; simpl. now rewrite <- !app_assoc.
  - reflexivity.
  - reflexivity.
Qed.

Lemma main_catch_log argv message (s1 : St E) :
  exists d1,
    fst (Index.main_catch argv message s1) = Ok 1 /\
    log (snd (Index.main_catch argv message s1))
    = log s1 ++ CError ("✖ Failed: " ++ message) :: d1 /\
    forallb afterFailure d1 = true /\
    (d1 = [] \/ Index.debug argv = true).
Proof.
  unfold Index.main_catch.
  destruct (Index.debug argv) eqn:Hd.
  - unfold bind, throw, emit, attempt, catch, Index.screenshot_, act, ret, step; simpl.
    destruct (screenshot E _ _) as [[[]|e'] w2]; simpl.
    + exists [CScreenshot (now E (world s1)); CError "Saved screenshot"].
      rewrite <- !app_assoc. repeat split; auto.
    + exists [CScreenshot (now E (world s1))].
      rewrite <- !app_assoc. repeat split; auto.
  - exists []. simpl. repeat split; auto.
Qed.

(** X15: once the page is set up, nothing that happens in the [try] block
    escapes it: the [try] and [catch] blocks together never reject and
    leave status 0 or 1.  With 0 the success line is the last thing printed
    and nothing went to the error stream; with 1 a single failure line was
    printed, followed at most (in debug mode) by the screenshot and its
    report, and the success line was never printed.  Either way the
    [finally] block then calls [browser.close()], as the last call of the
    run. *)
Theorem run_always_settles argv (s : St E) :
  (exists code d,
     fst (catch (Index.main_try argv) (Index.main_catch argv) s) = Ok code /\
     log (snd (catch (Index.main_try argv) (Index.main_catch argv) s)) = log s ++ d /\
     ((code = 0 /\
       exists d0, d = d0 ++ [CSleep 600; CLog (successLine argv)] /\
                  forallb plain d0 = true)
      \/
      (code = 1 /\
       exists d0 message d1,
         d = d0 ++ CError ("✖ Failed: " ++ message) :: d1 /\
         forallb plain d0 = true /\ forallb afterFailure d1 = true /\
         (d1 = [] \/ Index.debug argv = true)))) /\
  log (snd (Index.main argv s))
  = log (snd (catch (Index.main_try argv) (Index.main_catch argv)
                (snd (Index.main_setup s)))) ++ [CClose].
Proof.
  split.
  - rewrite block_split.
    destruct (plain_main_upToSave argv s) as (d0 & L1 & P0).
    assert (Hfail : forall message (s1 : St E), log s1 = log s ++ d0 ->
      exists code d,
        fst (Index.main_catch argv message s1) = Ok code /\
        log (snd (Index.main_catch argv message s1)) = log s ++ d /\
        ((code = 0 /\
          exists d0, d = d0 ++ [CSleep 600; CLog (successLine argv)] /\
                     forallb plain d0 = true)
         \/
         (code = 1 /\
          exists d0 message d1,
            d = d0 ++ CError ("✖ Failed: " ++ message) :: d1 /\
            forallb plain d0 = true /\ forallb afterFailure d1 = true /\
            (d1 = [] \/ Index.debug argv = true)))).
    { intros message s1 L.
      destruct (main_catch_log argv message s1) as (d1 & Hc & Hl & Ha & Hd).
      exists 1, (d0 ++ CError ("✖ Failed: " ++ message) :: d1).
      split; [exact Hc|]. split.
      - rewrite Hl, L. now rewrite <- app_assoc.
      - right. split; [reflexivity|]. exists d0, message, d1. auto. }
    destruct (main_upToSave argv s) as [[[|]|e] s1]; simpl in L1.
    + exists 0, (d0 ++ [CSleep 600; CLog (successLine argv)]).
      split; [reflexivity|]. split.
      * simpl. rewrite L1, <- !app_assoc. reflexivity.
      * left. split; [reflexivity|]. now exists d0.
    + now apply Hfail.
    + now apply Hfail.
  - unfold Index.main. unfold bind at 1.
    remember (snd (Index.main_setup s)) as s0 eqn:Hs0.
    replace (Index.main_setup s) with (Ok tt, s0) by (subst s0; reflexivity).
    clear Hs0. unfold bind at 1.
    destruct (catch (Index.main_try argv) (Index.main_catch argv) s0)
      as [[code|e] s1] eqn:Hblock.
    + reflexivity.
    + exfalso. rewrite block_split in Hblock.
      destruct (main_upToSave argv s0) as [[[|]|e'] s2];
        try discriminate;
        match type of Hblock with
        | Index.main_catch ?a ?m ?st = _ =>
            destruct (main_catch_log a m st) as (d1 & Hc & _); rewrite Hblock in Hc;
            discriminate
        end.
Qed.

(** the opening of the router page *)
Definition main_open (argv : Index.Argv) : M E unit :=
  (if Index.debug argv then emit (CLog ("Opening " ++ Index.url argv)) else ret tt) ;;;
  act (CGoto (Index.url argv)) (goto E (Index.url argv)).

(** X16: without a password field the run stops at the login page: the password
    candidates are the last thing queried, nothing is clicked after them,
    no menu entry is looked for, and the run ends with status 1 and the
    error line of the missing password field; a missing user-name field
    does not stop the run before that *)
Theorem missing_password_is_fatal argv (s s1 s2 : St E) usernameTyped :
  main_open argv (snd (Index.main_setup s)) = (Ok tt, s1) ->
  Index.waitAndTypeFirst Page SELECTORS.username (Index.user argv) s1
  = (Ok usernameTyped, s2) ->
  Forall (fun sel => found E (world s2) Page sel = None) SELECTORS.password ->
  fst (Index.main argv s) = Ok 1 /\
  exists d1,
    log (snd (Index.main argv s))
    = log s2 ++ map (CQuery Page) SELECTORS.password
        ++ (if negb usernameTyped && Index.debug argv
            then [CLog "Username field not found; continuing (some firmwares use password-only login)."]
            else [])
        ++ (CError "✖ Failed: Password field not found on login page." :: d1)
        ++ [CClose] /\
    forallb afterFailure d1 = true.
Proof.
  intros Hopen Huser Hpass.
  assert (Hrun : exists s3,
    main_upToSave argv (snd (Index.main_setup s))
    = (Throws "Password field not found on login page.", s3) /\
    log s3 = log s2 ++ map (CQuery Page) SELECTORS.password
        ++ (if negb usernameTyped && Index.debug argv
            then [CLog "Username field not found; continuing (some firmwares use password-only login)."]
            else [])).
  { unfold main_upToSave. unfold bind at 1.
    assert (Hlogin : exists s3,
      Index.main_login argv (snd (Index.main_setup s))
      = (Throws "Password field not found on login page.", s3) /\
      log s3 = log s2 ++ map (CQuery Page) SELECTORS.password
        ++ (if negb usernameTyped && Index.debug argv
            then [CLog "Username field not found; continuing (some firmwares use password-only login)."]
            else [])).
    { unfold Index.main_login. cbv zeta.
      unfold main_open in Hopen. rewrite <- bind_bind.
      rewrite (bind_ok _ _ Hopen).
      rewrite (bind_ok _ _ Huser).
      destruct s2 as [w2 l2]. simpl in Hpass.
      rewrite (bind_ok _ _ (@waitAndTypeFirst_exhausted E w2 l2 Page SELECTORS.password
                              (Index.pass argv) Hpass)).
      destruct (negb usernameTyped && Index.debug argv); simpl.
      - eexists. split; [reflexivity|]. cbn [log]. rewrite <- ?app_assoc. reflexivity.
      - eexists. split; [reflexivity|]. cbn [log]. rewrite ?app_nil_r. reflexivity. }
    destruct Hlogin as (s3 & -> & L). now exists s3. }
  destruct Hrun as (s3 & Hrun & L).
  rewrite main_split, Hrun.
  destruct (main_fail_log argv "Password field not found on login page." s3)
    as (d1 & Hc & Hl & Ha & _).
  split; [exact Hc|]. exists d1. split; [|exact Ha].
  rewrite Hl, L, <- !app_assoc. reflexivity.
Qed.

End WholeRun.

Lemma missing_password_is_fatal_witness :
  fst (Index.main (Sim.argv "1.1.1.1" "8.8.8.8") (Sim.start Sim.loginPage)) = Auto.Ok 1 /\
  exists d1,
    Auto.log (snd (Index.main (Sim.argv "1.1.1.1" "8.8.8.8") (Sim.start Sim.loginPage)))
    = [ Auto.COnDialogAccept; Auto.CEvaluateOnNewDocument; Auto.CSetDefaultTimeout 15000;
        Auto.CGoto "http://192.168.1.1";
        Auto.CQuery Auto.Page ("input" ++ SELECTORS.attr "name" "=" "Username");
        Auto.CQuery Auto.Page ("input" ++ SELECTORS.attr "name" "=" "username");
        Auto.CQuery Auto.Page "input#userName";
        Auto.CClick 1 3; Auto.CType 1 "admin" 10 ]
      ++ map (Auto.CQuery Auto.Page) SELECTORS.password
      ++ []
      ++ (Auto.CError "✖ Failed: Password field not found on login page." :: d1)
      ++ [Auto.CClose] /\
    forallb afterFailure d1 = true.
Proof.
  refine (@missing_password_is_fatal (Sim.engine Sim.loginPage)
            (Sim.argv "1.1.1.1" "8.8.8.8") (Sim.start Sim.loginPage)
            (Auto.mkSt (E := Sim.engine Sim.loginPage) 0 _)
            (Auto.mkSt (E := Sim.engine Sim.loginPage) 0 _) true _ _ _).
  - vm_compute. reflexivity.
  - vm_compute. reflexivity.
  - vm_compute. repeat constructor.
Defined.

(** ** Where a rejection can come from *)

Section Rejections.
Import Auto.
Variable E : Engine.
Local Open Scope auto_scope.

(** the document of [c] can be read in every state of the router *)
Definition readable (c : Ctx) : Prop := forall w, exists d, document E w c = Ok d.

Lemma safe_evaluate_total {A} c sid (f : Dom.Document -> A * Dom.Document) :
  readable c -> safe (Index.evaluate (E := E) c sid (Index.total f)).
Proof.
  intros Hc s. unfold Index.evaluate, Index.total.
  destruct (Hc (world s)) as [d ->].
  destruct (f d) as [a d']. now eexists _, _.
Qed.

Lemma safe_clickByText c text : readable c -> safe (Index.clickByText (E := E) c text).
Proof.
  intros Hc. pose proof (safe_evaluate_total (SClickByText text) (Script.clickByText text) Hc).
  unfold Index.clickByText. safe_tac.
Qed.

Lemma safe_toggles page sels (k : M E bool) :
  safe k -> safe (Index.ensureManualDns_toggles page sels k).
Proof. intros Hk. induction sels as [|sel rest IH]; simpl; [exact Hk|]. safe_tac. Qed.

Lemma safe_navigateToDns_title page debug :
  safe (Index.navigateToDns_title (E := E) page debug).
Proof.
  pose proof (safe_getContentFrame (E := E) page).
  unfold Index.navigateToDns_title. safe_tac.
Qed.

(** X12: as long as the document of the page can be read and holds no
    element on which the scripts throw (no element whose [value] is not a
    string, no file input), the text matcher, the label writer, the switch
    to manual mode and the walk through the menu never reject: missing menu
    entries, missing frames and rejected clicks and queries all end in a
    plain result *)
Theorem readable_page_never_rejects page :
  (forall w, exists d, document E w page = Ok d /\ Scope.plain d = true) ->
  (forall text, safe (Index.clickByText (E := E) page text)) /\
  (forall labelText v, safe (Index.setInputByLabel (E := E) page labelText v)) /\
  safe (Index.ensureManualDns (E := E) page) /\
  (forall debug, safe (Index.navigateToDns (E := E) page debug)).
Proof.
  intros Hplain.
  assert (Hc : readable page).
  { intros w. destruct (Hplain w) as (d & Hd & _). now exists d. }
  pose proof (fun t => safe_clickByText t Hc) as Hclick.
  split; [exact Hclick|]. split; [|split].
  - intros. now apply safe_evaluate_total.
  - assert (Hk : safe (Index.ensureManualDns_toggles (E := E) page SELECTORS.manualDnsToggles
       (Index.orElse (Index.clickByText page "Manual")
          (Index.orElse (Index.clickByText page "Estático") (ret false))))).
    { apply safe_toggles.
      pose proof (Hclick "Manual"). pose proof (Hclick "Estático"). safe_tac. }
    pose proof (safe_evaluate_total SEnsureManual Script.ensureManualDns Hc).
    unfold Index.ensureManualDns. cbv zeta. safe_tac.
  - intros debug.
    pose proof (safe_navigateToDns_title page debug) as Ht.
    pose proof (Hclick "DHCP Server"). pose proof (Hclick "LAN").
    pose proof (Hclick "Advanced Configuration").
    assert (Hd : safe (Index.navigateToDns_dhcp (E := E) page debug))
      by (unfold Index.navigateToDns_dhcp; safe_tac).
    assert (Hl : safe (Index.navigateToDns_lan (E := E) page debug))
      by (unfold Index.navigateToDns_lan; cbv zeta; safe_tac).
    unfold Index.navigateToDns. safe_tac.
Qed.

Lemma evaluate_unreadable {A} c sid (f : Dom.Document -> option A * Dom.Document) w l e :
  document E w c = Throws e ->
  Index.evaluate c sid f (mkSt w l) = (Throws e, mkSt w (l ++ [CEvaluate c sid])).
Proof. intros H. unfold Index.evaluate. simpl. now rewrite H. Qed.

(** X13: when the document of a context cannot be read, the helpers that guard
    their evaluation report their default (not clicked, nothing set, empty
    values) while the text matcher and the label writer pass the rejection
    on; so a walk through the menu whose first entry is missing rejects, and
    so does the field resolver as soon as it reaches the labels, before the
    heuristic scan that would have contained the failure *)
Theorem unreadable_document c w l e :
  document E w c = Throws e ->
  (forall t, Index.clickByTextInContext c t (mkSt w l)
             = (Ok false, mkSt w (l ++ [CEvaluate c (SClickByTextInContext (Js.toLowerCase t))]))) /\
  (forall dns1 dns2, Index.setDnsByHeuristic c dns1 dns2 (mkSt w l)
             = (Ok (false, negb (Js.truthy dns2)),
                mkSt w (l ++ [CEvaluate c (SHeuristic dns1 dns2)]))) /\
  Index.readDnsValuesFromFrame c (mkSt w l)
  = (Ok ("", ""), mkSt w (l ++ [CEvaluate c SReadDns])) /\
  (forall t, Index.clickByText c t (mkSt w l)
             = (Throws e, mkSt w (l ++ [CEvaluate c (SClickByText t)]))) /\
  (forall labelText v, Index.setInputByLabel c labelText v (mkSt w l)
             = (Throws e, mkSt w (l ++ [CEvaluate c (SSetInputByLabel labelText v)]))) /\
  (forall debug, found E w c "#addconfig" = None ->
     Index.navigateToDns c debug (mkSt w l)
     = (Throws e,
        mkSt w (l ++ (if debug
                      then [CLog "Navigating via: Advanced Configuration → LAN → DHCP Server (iframe-aware)"]
                      else [])
                  ++ [CQuery c "#addconfig";
                      CEvaluate c (SClickByText "Advanced Configuration")]))) /\
  (forall dns1, Forall (fun sel => found E w c sel = None) SELECTORS.primaryDns ->
     Index.setDnsValues_tiers c dns1 "" (mkSt w l)
     = (Throws e,
        mkSt w (l ++ map (CQuery c) SELECTORS.primaryDns
                  ++ [CEvaluate c (SSetInputByLabel "Primary DNS Server" dns1)]))).
Proof.
  intros H.
  assert (Hev : forall A sid (f : Dom.Document -> option A * Dom.Document) l',
            Index.evaluate c sid f (mkSt w l')
            = (Throws e, mkSt w (l' ++ [CEvaluate c sid])))
    by (intros; now apply evaluate_unreadable).
  split; [|split; [|split; [|split; [|split; [|split]]]]].
  - intros t. unfold Index.clickByTextInContext. cbv zeta.
    unfold bind, attempt, catch. now rewrite Hev.
  - intros dns1 dns2. unfold Index.setDnsByHeuristic, attempt, catch. now rewrite Hev.
  - unfold Index.readDnsValuesFromFrame, attempt, catch. now rewrite Hev.
  - intros t. unfold Index.clickByText, bind. now rewrite Hev.
  - intros labelText v. unfold Index.setInputByLabel. now rewrite Hev.
  - intros debug Hq. unfold Index.navigateToDns.
    assert (Hrest : forall l',
      (advEl <- attempt (Index.query_ c "#addconfig") None ;;
       match advEl with
       | Some h => attempt (Index.click_ h 1) tt ;;; Index.sleep 400 ;;;
                   Index.navigateToDns_lan c debug
       | None =>
           ok <- Index.clickByText c "Advanced Configuration" ;;
           if ok then Index.sleep 400 ;;; Index.navigateToDns_lan c debug else ret None
       end) (mkSt w l')
      = (Throws e, mkSt w (l' ++ [CQuery c "#addconfig";
                                  CEvaluate c (SClickByText "Advanced Configuration")]))).
    { intros l'. unfold bind at 1. rewrite attempt_query, Hq.
      unfold bind at 1, Index.clickByText. unfold bind at 1. rewrite Hev.
      now rewrite <- app_assoc. }
    destruct debug.
    + unfold bind at 1, emit. cbn [world log]. rewrite Hrest. now rewrite <- !app_assoc.
    + unfold bind at 1, ret. rewrite Hrest. reflexivity.
  - intros dns1 Hsel. unfold Index.setDnsValues_tiers.
    rewrite (bind_ok _ _ (@waitAndTypeFirst_exhausted E w l c SELECTORS.primaryDns dns1 Hsel)).
    change (Js.truthy "") with false. cbv iota.
    rewrite bind_ret_l. cbn [negb].
    unfold Index.primaryByLabel, Index.orElse.
    rewrite bind_bind.
    unfold Index.setInputByLabel at 1. unfold bind at 1. rewrite Hev.
    now rewrite <- app_assoc.
Qed.

End Rejections.

(** a router that shows its login page whatever is done to it *)
Definition loginOnly : Sim.Site :=
  {| Sim.elements := fun _ => [ (Auto.Page, "button#loginBtn", 3) ];
     Sim.malformed := [];
     Sim.frames := [];
     Sim.pages := fun _ => [ (Auto.Page, ScriptFacts.loginDocument) ];
     Sim.stuck := [];
     Sim.leaf := 6 |}.

Lemma readable_page_never_rejects_witness :
  exists a s', Index.clickByText Auto.Page "Log In" (Sim.start loginOnly) = (Auto.Ok a, s').
Proof.
  refine (proj1 (@readable_page_never_rejects (Sim.engine loginOnly) Auto.Page _)
            "Log In" (Sim.start loginOnly)).
  intros w. exists ScriptFacts.loginDocument. split; [reflexivity|vm_compute; reflexivity].
Defined.

Lemma unreadable_document_witness :
  Index.readDnsValuesFromFrame (Auto.Frame 1) (Sim.start Sim.loginPage)
  = (Auto.Ok ("", ""),
     Auto.mkSt (E := Sim.engine Sim.loginPage) 0
       ([] ++ [Auto.CEvaluate (Auto.Frame 1) Auto.SReadDns])).
Proof.
  refine (proj1 (proj2 (proj2 (@unreadable_document (Sim.engine Sim.loginPage)
            (Auto.Frame 1) 0 [] "Execution context was destroyed" _)))).
  reflexivity.
Defined.

(** ** What a positive verification means *)

Section Soundness.
Import Auto.
Variable E : Engine.
Local Open Scope auto_scope.

Lemma verifyDnsApplied_loop_sound n : forall i page e1 e2 retries delayMs (s s' : St E),
  Index.verifyDnsApplied_loop n i page e1 e2 retries delayMs s = (Ok true, s') ->
  exists frame s1 vals,
    Index.readDnsValuesFromFrame frame s1 = (Ok vals, s') /\
    fst vals = e1 /\ (Js.truthy e2 = true -> snd vals = e2).
Proof.
  induction n as [|n IH]; intros i page e1 e2 retries delayMs s s' H; simpl in H.
  - discriminate.
  - unfold bind at 1 in H.
    destruct (Index.getContentFrame page s) as [[[frame|]|e] s1]; try discriminate.
    unfold bind at 1 in H.
    destruct (Index.readDnsValuesFromFrame frame s1) as [[vals|e] s2] eqn:Hr;
      try discriminate.
    destruct ((fst vals =? e1)%string && (negb (Js.truthy e2) || (snd vals =? e2)%string))
      eqn:Hm.
    + inversion H; subst s'. exists frame, s1, vals. split; [exact Hr|].
      apply andb_true_iff in Hm as [H1 H2]. apply String.eqb_eq in H1.
      split; [exact H1|]. intros Ht. rewrite Ht in H2. simpl in H2.
      now apply String.eqb_eq in H2.
    + unfold bind at 1 in H. unfold Index.sleep, step in H. cbn [world log] in H.
      unfold bind at 1 in H.
      match type of H with
      | context [match ?m ?st with _ => _ end] =>
          destruct (m st) as [[[]|e] s3]; try discriminate
      end.
      exact (IH _ _ _ _ _ _ _ _ H).
Qed.

(** X14: the verification answers true only if the last thing it did was to read
    the form and find the expected values in it: the primary equal to the
    expected one, and the secondary too when one is expected; with no
    retries allowed it never answers true *)
Theorem verification_is_sound page e1 e2 retries delayMs (s s' : St E) :
  Index.verifyDnsApplied page e1 e2 retries delayMs s = (Ok true, s') ->
  (0 < retries)%Z /\
  exists frame s1 vals,
    Index.readDnsValuesFromFrame frame s1 = (Ok vals, s') /\
    log s' = log s1 ++ [CEvaluate frame SReadDns] /\
    fst vals = e1 /\ (Js.truthy e2 = true -> snd vals = e2).
Proof.
  unfold Index.verifyDnsApplied. intros H. split.
  - destruct (Z_lt_le_dec 0 retries) as [Hpos|Hneg]; [exact Hpos|].
    replace (Z.to_nat retries) with 0%nat in H by lia. discriminate.
  - destruct (verifyDnsApplied_loop_sound _ _ _ _ _ _ _ _ H)
      as (frame & s1 & vals & Hr & H1 & H2).
    exists frame, s1, vals. split; [exact Hr|]. split; [|now split].
    destruct (readDnsValuesFromFrame_log frame s1) as (vals' & s2' & Hr' & L).
    rewrite Hr in Hr'. now inversion Hr'; subst.
Qed.

End Soundness.

Lemma verification_is_sound_witness :
  (0 < 4)%Z /\
  exists frame s1 vals,
    Index.readDnsValuesFromFrame frame s1
    = (Auto.Ok vals,
       snd (Index.verifyDnsApplied Auto.Page "1.1.1.1" "8.8.8.8" 4 800
              (Auto.mkSt (E := Sim.engine (Sim.router true true false "" "" "1.1.1.1" "8.8.8.8"))
                 2 []))) /\
    Auto.log (snd (Index.verifyDnsApplied Auto.Page "1.1.1.1" "8.8.8.8" 4 800
              (Auto.mkSt (E := Sim.engine (Sim.router true true false "" "" "1.1.1.1" "8.8.8.8"))
                 2 [])))
    = Auto.log s1 ++ [Auto.CEvaluate frame Auto.SReadDns] /\
    fst vals = "1.1.1.1" /\ (Js.truthy "8.8.8.8" = true -> snd vals = "8.8.8.8").
Proof.
  refine (@verification_is_sound (Sim.engine (Sim.router true true false "" "" "1.1.1.1" "8.8.8.8"))
            Auto.Page "1.1.1.1" "8.8.8.8" 4%Z 800%N
            (Auto.mkSt (E := Sim.engine (Sim.router true true false "" "" "1.1.1.1" "8.8.8.8"))
               2 []) _ _).
  vm_compute. reflexivity.
Defined.

(** ** What a reported success means *)

Section Success.
Import Auto.
Variable E : Engine.
Local Open Scope auto_scope.

Lemma bind_inv {A B} (m : M E A) (k : A -> M E B) s b s' :
  bind m k s = (Ok b, s') -> exists a s1, m s = (Ok a, s1) /\ k a s1 = (Ok b, s').
Proof.
  unfold bind. destruct (m s) as [[a|e] s1]; [|discriminate]. intros H. now exists a, s1.
Qed.

(** the login phase after the password is typed: the click on the login
    button and the wait for the next page *)
Definition login_submit (argv : Index.Argv) (usernameTyped : bool) : M E unit :=
  (if negb usernameTyped && Index.debug argv
   then emit (CLog "Username field not found; continuing (some firmwares use password-only login).")
   else ret tt) ;;;
  clickedLogin <-
    Index.orElse (Index.clickFirst Page SELECTORS.loginButtons true)
      (Index.orElse (Index.clickByText Page "Log In")
        (Index.orElse (Index.clickByText Page "Login")
          (Index.orElse (Index.clickByText Page "Entrar")
            (Index.orElse (Index.clickByText Page "Iniciar sessão")
              (Index.clickByText Page "Iniciar sesión"))))) ;;
  (if negb clickedLogin && Index.debug argv
   then emit (CLog "No explicit login button clicked (page may auto-submit).")
   else ret tt) ;;;
  attempt (act (CWaitForNavigation 15000) (waitForNavigation E 15000)) tt ;;;
  Index.sleep 600.

(** the debug report between the walk through the menu and the writing *)
Definition configure_report (argv : Index.Argv) (path : string) : M E unit :=
  (if Index.debug argv
   then cf <- Index.getContentFrame Page ;;
        u <- match cf with Some c => Index.frameUrl_ c | None => ret "N/A" end ;;
        emit (CLog ("Content frame URL: " ++ u))
   else ret tt) ;;;
  (if Index.debug argv then emit (CLog ("Reached DNS page via path: " ++ path)) else ret tt).

(** the switch to manual mode and the pause that precede the tiers *)
Definition setDnsValues_prepare (frame : Ctx) : M E unit :=
  attempt (Index.ensureManualDns frame ;;; ret tt) tt ;;; Index.sleep 300.

Lemma main_login_inv argv (s0 s4 : St E) :
  Index.main_login argv s0 = (Ok tt, s4) ->
  exists s1 usernameTyped s2 s3,
    main_open argv s0 = (Ok tt, s1) /\
    Index.waitAndTypeFirst Page SELECTORS.username (Index.user argv) s1
    = (Ok usernameTyped, s2) /\
    Index.waitAndTypeFirst Page SELECTORS.password (Index.pass argv) s2 = (Ok true, s3) /\
    login_submit argv usernameTyped s3 = (Ok tt, s4).
Proof.
  unfold Index.main_login. cbv zeta. intros H.
  rewrite <- bind_bind in H. fold (main_open (E := E) argv) in H.
  apply bind_inv in H as ([] & s1 & Hopen & H).
  apply bind_inv in H as (u & s2 & Huser & H).
  apply bind_inv in H as (p & s3 & Hpass & H).
  destruct p.
  - exists s1, u, s2, s3. repeat (split; [assumption|]). exact H.
  - apply bind_inv in H as ([] & s3' & _ & H). discriminate.
Qed.

Lemma main_configure_inv argv (s4 s7 : St E) :
  Index.main_configure argv s4 = (Ok tt, s7) ->
  exists path s5 s6,
    Index.navigateToDns Page (Index.debug argv) s4 = (Ok (Some path), s5) /\
    configure_report argv path s5 = (Ok tt, s6) /\
    Index.setDnsValues Page (Index.dns1 argv) (Index.dns2 argv) (Index.debug argv) s6
    = (Ok tt, s7).
Proof.
  unfold Index.main_configure. cbv zeta. intros H.
  apply bind_inv in H as ([path|] & s5 & Hnav & H); [|discriminate].
  rewrite <- bind_bind in H. fold (configure_report argv path) in H.
  apply bind_inv in H as ([] & s6 & Hrep & H).
  now exists path, s5, s6.
Qed.

Lemma setDnsValues_inv page dns1 dns2 debug (s6 s7 : St E) :
  Index.setDnsValues page dns1 dns2 debug s6 = (Ok tt, s7) ->
  exists frame s6a ok2 sb,
    Index.getContentFrame page s6 = (Ok (Some frame), s6a) /\
    Index.setDnsValues_tiers frame dns1 dns2 (snd (setDnsValues_prepare frame s6a))
    = (Ok (true, ok2), sb).
Proof.
  unfold Index.setDnsValues. intros H.
  apply bind_inv in H as ([frame|] & s6a & Hframe & H); [|discriminate].
  rewrite <- bind_bind in H. fold (setDnsValues_prepare frame) in H.
  apply bind_inv in H as ([] & sa & Hprep & H).
  apply bind_inv in H as ([ok1 ok2] & sb & Ht & H).
  apply bind_inv in H as ([] & s2 & _ & H).
  apply bind_inv in H as ([] & s3 & _ & H).
  destruct ok1; [|discriminate].
  exists frame, s6a, ok2, sb. split; [exact Hframe|]. now rewrite Hprep.
Qed.

(** X17: the [try] block leaves status 0 only after a run in which the page
    opened, the password cascade typed the password, the login phase
    completed, the walk through the menu returned a path, a content frame
    was found, the tiers of the field resolver reported the primary field
    set, the field resolver completed, and the save step returned true.
    Each state is the one the step before it left. *)
Theorem success_means_every_step_succeeded argv (s0 : St E) :
  fst (catch (Index.main_try argv) (Index.main_catch argv) s0) = Ok 0 ->
  exists s1 usernameTyped s2 s3 s4 path s5 s6 frame s6a ok2 sb s7 cf s8 s9,
    main_open argv s0 = (Ok tt, s1) /\
    Index.waitAndTypeFirst Page SELECTORS.username (Index.user argv) s1
    = (Ok usernameTyped, s2) /\
    Index.waitAndTypeFirst Page SELECTORS.password (Index.pass argv) s2 = (Ok true, s3) /\
    login_submit argv usernameTyped s3 = (Ok tt, s4) /\
    Index.navigateToDns Page (Index.debug argv) s4 = (Ok (Some path), s5) /\
    configure_report argv path s5 = (Ok tt, s6) /\
    Index.getContentFrame Page s6 = (Ok (Some frame), s6a) /\
    Index.setDnsValues_tiers frame (Index.dns1 argv) (Index.dns2 argv)
      (snd (setDnsValues_prepare frame s6a))
    = (Ok (true, ok2), sb) /\
    Index.setDnsValues Page (Index.dns1 argv) (Index.dns2 argv) (Index.debug argv) s6
    = (Ok tt, s7) /\
    Index.getContentFrame Page s7 = (Ok cf, s8) /\
    Index.saveChanges (match cf with Some f => f | None => Page end) s8 = (Ok true, s9).
Proof.
  rewrite block_split. intros H.
  destruct (main_upToSave argv s0) as [[saved|e] s10] eqn:Hrun.
  - destruct saved.
    + clear H. unfold main_upToSave in Hrun.
      apply bind_inv in Hrun as ([] & s4 & Hlogin & Hrun).
      apply bind_inv in Hrun as ([] & s7 & Hconf & Hrun).
      apply bind_inv in Hrun as (cf & s8 & Hcf & Hrun).
      apply bind_inv in Hrun as (saved & s9 & Hsave & Hrun).
      apply bind_inv in Hrun as ([] & s10' & _ & Hrun).
      inversion Hrun; subst saved s10'.
      destruct (@main_login_inv argv _ _ Hlogin) as (s1 & u & s2 & s3 & Ho & Hu & Hp & Hs).
      destruct (@main_configure_inv argv _ _ Hconf) as (path & s5 & s6 & Hnav & Hrep & Hset).
      destruct (@setDnsValues_inv _ _ _ _ _ _ Hset) as (frame & s6a & ok2 & sb & Hf & Ht).
      exists s1, u, s2, s3, s4, path, s5, s6, frame, s6a, ok2, sb, s7, cf, s8, s9.
      repeat (split; [assumption|]). assumption.
    + destruct (main_catch_log argv "Could not find a Save/Apply button." s10)
        as (d1 & Hc & _). rewrite Hc in H. discriminate.
  - destruct (main_catch_log argv e s10) as (d1 & Hc & _). rewrite Hc in H. discriminate.
Qed.

End Success.

Lemma success_means_every_step_succeeded_witness :
  exists s1 usernameTyped s2 s3 s4 path s5 s6 frame s6a ok2 sb s7 cf s8 s9,
    main_open (E := Sim.engine (Sim.router true true false "" "" "1.1.1.1" "8.8.8.8"))
      (Sim.argv "1.1.1.1" "8.8.8.8")
      (Sim.start (Sim.router true true false "" "" "1.1.1.1" "8.8.8.8"))
    = (Auto.Ok tt, s1) /\
    Index.waitAndTypeFirst Auto.Page SELECTORS.username "admin" s1
    = (Auto.Ok usernameTyped, s2) /\
    Index.waitAndTypeFirst Auto.Page SELECTORS.password "secret" s2 = (Auto.Ok true, s3) /\
    login_submit (Sim.argv "1.1.1.1" "8.8.8.8") usernameTyped s3 = (Auto.Ok tt, s4) /\
    Index.navigateToDns Auto.Page false s4 = (Auto.Ok (Some path), s5) /\
    configure_report (Sim.argv "1.1.1.1" "8.8.8.8") path s5 = (Auto.Ok tt, s6) /\
    Index.getContentFrame Auto.Page s6 = (Auto.Ok (Some frame), s6a) /\
    Index.setDnsValues_tiers frame "1.1.1.1" "8.8.8.8" (snd (setDnsValues_prepare frame s6a))
    = (Auto.Ok (true, ok2), sb) /\
    Index.setDnsValues Auto.Page "1.1.1.1" "8.8.8.8" false s6 = (Auto.Ok tt, s7) /\
    Index.getContentFrame Auto.Page s7 = (Auto.Ok cf, s8) /\
    Index.saveChanges (match cf with Some f => f | None => Auto.Page end) s8
    = (Auto.Ok true, s9).
Proof.
  apply (@success_means_every_step_succeeded
           (Sim.engine (Sim.router true true false "" "" "1.1.1.1" "8.8.8.8"))
           (Sim.argv "1.1.1.1" "8.8.8.8")
           (Sim.start (Sim.router true true false "" "" "1.1.1.1" "8.8.8.8"))).
  vm_compute. reflexivity.
Defined.

(** ** The switch to manual mode *)

Section ManualMode.
Import Auto.
Variable E : Engine.
Local Open Scope auto_scope.

Lemma toggles_cons (w : World E) l page sel rest (k : M E bool) :
  Index.ensureManualDns_toggles page (sel :: rest) k (mkSt w l)
  = match found E w page sel with
    | Some h => (Ok true, mkSt (snd (click E h 1 w)) (l ++ [CQuery page sel; CClick h 1]))
    | None => Index.ensureManualDns_toggles page rest k (mkSt w (l ++ [CQuery page sel]))
    end.
Proof.
  simpl. unfold bind at 1. rewrite attempt_query.
  destruct (found E w page sel) as [h|]; [|reflexivity].
  unfold bind at 1. rewrite attempt_click. unfold ret. now rewrite <- app_assoc.
Qed.

Lemma toggles_skip (w : World E) l page pre rest (k : M E bool) :
  Forall (fun sel => found E w page sel = None) pre ->
  Index.ensureManualDns_toggles page (pre ++ rest) k (mkSt w l)
  = Index.ensureManualDns_toggles page rest k (mkSt w (l ++ map (CQuery page) pre)).
Proof.
  intros H; revert l; induction H as [|sel pre Hsel _ IH]; intros l.
  - simpl. now rewrite app_nil_r.
  - rewrite <- app_comm_cons, toggles_cons, Hsel, IH. simpl. now rewrite <- app_assoc.
Qed.

(** X11: on a page without a select, the first toggle that resolves is clicked
    and the switch is reported done, whether or not the click went through;
    no later toggle is queried and no text is matched *)
Theorem manual_mode_by_toggle (w : World E) l page pre sel post h :
  SELECTORS.manualDnsToggles = pre ++ sel :: post ->
  found E w page "select" = None ->
  Forall (fun s => found E w page s = None) pre ->
  found E w page sel = Some h ->
  Index.ensureManualDns page (mkSt w l)
  = (Ok true,
     mkSt (snd (click E h 1 w))
          (l ++ CQuery page "select" :: map (CQuery page) pre ++ [CQuery page sel; CClick h 1])).
Proof.
  intros Hsels Hselect Hpre Hsel.
  unfold Index.ensureManualDns. cbv zeta. rewrite Hsels.
  unfold bind at 1. rewrite attempt_query, Hselect.
  rewrite toggles_skip by assumption. rewrite toggles_cons, Hsel.
  rewrite <- !app_assoc. reflexivity.
Qed.

End ManualMode.

(** a form whose mode is chosen by a check box *)
Definition checkboxForm : Sim.Site :=
  {| Sim.elements := fun _ =>
       [ (Auto.Frame 1, List.nth 1 SELECTORS.manualDnsToggles "", 20) ];
     Sim.malformed := [];
     Sim.frames := [];
     Sim.pages := fun _ => [ (Auto.Frame 1, Sim.doc []) ];
     Sim.stuck := [];
     Sim.leaf := 6 |}.

Lemma manual_mode_by_toggle_witness :
  Index.ensureManualDns (Auto.Frame 1) (Sim.start checkboxForm)
  = (Auto.Ok true,
     Auto.mkSt (E := Sim.engine checkboxForm) 0
       ([] ++ Auto.CQuery (Auto.Frame 1) "select"
           :: map (Auto.CQuery (Auto.Frame 1)) [List.nth 0 SELECTORS.manualDnsToggles ""]
           ++ [Auto.CQuery (Auto.Frame 1) (List.nth 1 SELECTORS.manualDnsToggles "");
               Auto.CClick 20 1])).
Proof.
  refine (@manual_mode_by_toggle (Sim.engine checkboxForm) 0 [] (Auto.Frame 1)
            [List.nth 0 SELECTORS.manualDnsToggles ""]
            (List.nth 1 SELECTORS.manualDnsToggles "")
            (List.skipn 2 SELECTORS.manualDnsToggles) 20 _ _ _ _).
  - reflexivity.
  - reflexivity.
  - repeat constructor.
  - vm_compute. reflexivity.
Defined.

(** * Runs that repeat, and runs without a secondary value *)

Module Rerun.
Import Dom ScriptFacts.

Lemma node_shape d d' i :
  shapes d = shapes d' -> option_map shape (node d i) = option_map shape (node d' i).
Proof.
  intros H. unfold node. rewrite <- !nth_error_map. unfold shapes in H. now rewrite H.
Qed.

Lemma node_test_shapes p d d' i :
  shapely p -> shapes d = shapes d' ->
  match node d i with Some e => p e | None => false end
  = match node d' i with Some e => p e | None => false end.
Proof.
  intros Hp H. pose proof (@node_shape d d' i H) as Hi.
  destruct (node d i) as [e|], (node d' i) as [e'|]; simpl in Hi; try discriminate; auto.
  apply Hp. congruence.
Qed.

Lemma textLikeInput_shapely : shapely Script.textLikeInput.
Proof. intros [] [] H. unfold shape in H. simpl in H. inversion H; subst. reflexivity. Qed.

Lemma blob_shape e e' : shape e = shape e' -> Script.blob e = Script.blob e'.
Proof. destruct e, e'. unfold shape. simpl. intros H. inversion H; subst. reflexivity. Qed.

Lemma looksLikeDns_shapely : shapely Script.looksLikeDns.
Proof. intros e e' H. unfold Script.looksLikeDns. now rewrite (@blob_shape e e' H). Qed.

Lemma candidates_shapes d d' : shapes d = shapes d' -> candidates d = candidates d'.
Proof.
  intros H. unfold candidates.
  rewrite (@querySelectorAll_shapes _ d d' textLikeInput_shapely H).
  apply filter_ext. intros i. apply node_test_shapes; [apply looksLikeDns_shapely|exact H].
Qed.

Lemma find_ext_bool {A} (f g : A -> bool) l :
  (forall a, f a = g a) -> List.find f l = List.find g l.
Proof. intros H. induction l as [|a l IH]; simpl; [reflexivity|]. now rewrite H, IH. Qed.

Lemma pickBy_shapes alts d d' : shapes d = shapes d' -> pickBy alts d = pickBy alts d'.
Proof.
  intros H. unfold pickBy. rewrite (@candidates_shapes d d' H).
  apply find_ext_bool. intros i.
  apply (@node_test_shapes (fun e => Js.test_any_i alts (Script.blob e)) d d' i); [|exact H].
  intros e e' He. now rewrite (@blob_shape e e' He).
Qed.

Lemma primaryTarget_shapes d d' : shapes d = shapes d' -> primaryTarget d = primaryTarget d'.
Proof.
  intros H. unfold primaryTarget.
  now rewrite (@pickBy_shapes priAlts d d' H), (@candidates_shapes d d' H).
Qed.

Lemma secondaryTarget_shapes d d' :
  shapes d = shapes d' -> secondaryTarget d = secondaryTarget d'.
Proof.
  intros H. unfold secondaryTarget.
  now rewrite (@pickBy_shapes secAlts d d' H), (@primaryTarget_shapes d d' H),
    (@candidates_shapes d d' H).
Qed.

(** the value an element holds, if the element exists *)
Definition valueAt (d : Document) (i : nat) : option string := option_map value (node d i).

Lemma node_update_none d i f : node d i = None -> node (update d i f) i = None.
Proof.
  unfold node, update; simpl. intros H. apply nth_error_None in H.
  apply nth_error_None. now rewrite update_nth_length.
Qed.

Lemma valueAt_setVal p v d i :
  valueAt (snd (Script.setVal p v d)) i
  = match p with
    | Some p => if (i =? p)%nat then option_map (fun _ => v) (valueAt d i) else valueAt d i
    | None => valueAt d i
    end.
Proof.
  destruct p as [p|]; [|reflexivity]. unfold valueAt.
  destruct (Nat.eqb_spec i p) as [->|Hne].
  - destruct (node d p) as [e|] eqn:He.
    + now destruct (@value_setVal p v d e He) as [-> _].
    + simpl. unfold setValue, dispatchEvent.
      rewrite !node_update_none; try reflexivity; repeat apply node_update_none; exact He.
  - rewrite node_setVal_other; [reflexivity|congruence].
Qed.

(** X18: the inputs the heuristic scan chooses depend on the ids, names,
    classes and types in the form and not on the values it holds; so a
    second scan with the same values chooses the same inputs, reports the
    same flags and leaves every value as the first scan left it *)
Theorem heuristic_rerun dns1 dns2 d :
  candidates (snd (Script.setDnsByHeuristic dns1 dns2 d)) = candidates d /\
  primaryTarget (snd (Script.setDnsByHeuristic dns1 dns2 d)) = primaryTarget d /\
  secondaryTarget (snd (Script.setDnsByHeuristic dns1 dns2 d)) = secondaryTarget d /\
  fst (Script.setDnsByHeuristic dns1 dns2 (snd (Script.setDnsByHeuristic dns1 dns2 d)))
  = fst (Script.setDnsByHeuristic dns1 dns2 d) /\
  forall i,
    valueAt (snd (Script.setDnsByHeuristic dns1 dns2
                    (snd (Script.setDnsByHeuristic dns1 dns2 d)))) i
    = valueAt (snd (Script.setDnsByHeuristic dns1 dns2 d)) i.
Proof.
  pose proof (shapes_setDnsByHeuristic dns1 dns2 d) as Hsh.
  pose proof (@candidates_shapes _ _ Hsh) as Hc.
  pose proof (@primaryTarget_shapes _ _ Hsh) as Hp.
  pose proof (@secondaryTarget_shapes _ _ Hsh) as Hs.
  split; [exact Hc|]. split; [exact Hp|]. split; [exact Hs|].
  rewrite (setDnsByHeuristic_targets dns1 dns2 (snd (Script.setDnsByHeuristic dns1 dns2 d))).
  rewrite Hc, Hp, Hs. rewrite !(setDnsByHeuristic_targets dns1 dns2 d).
  destruct (candidates d) as [|c cs]; [split; reflexivity|].
  cbv zeta. cbn [fst snd].
  destruct (Js.truthy dns2).
  - split.
    + destruct (primaryTarget d), (secondaryTarget d); reflexivity.
    + intros i. rewrite !valueAt_setVal.
      destruct (primaryTarget d) as [p|], (secondaryTarget d) as [q|];
        try destruct (i =? p)%nat; try destruct (i =? q)%nat;
        destruct (valueAt d i); reflexivity.
  - split.
    + destruct (primaryTarget d); reflexivity.
    + intros i. cbn [snd]. rewrite !valueAt_setVal.
      destruct (primaryTarget d) as [p|]; try destruct (i =? p)%nat;
        destruct (valueAt d i); reflexivity.
Qed.

End Rerun.

(** a call that concerns the secondary field: a query with one of its
    selectors, a lookup of one of its labels, a scan with a secondary value *)
Definition secondaryCall (c : Auto.Call) : bool :=
  match c with
  | Auto.CQuery _ sel => existsb (String.eqb sel) SELECTORS.secondaryDns
  | Auto.CEvaluate _ (Auto.SSetInputByLabel l _) => existsb (String.eqb l) secondaryLabels
  | Auto.CEvaluate _ (Auto.SHeuristic _ dns2) => Js.truthy dns2
  | _ => false
  end.

Section NoSecondary.
Import Auto.
Variable E : Engine.
Local Open Scope auto_scope.

(** X19: when no secondary value is requested the field resolver makes no
    call that concerns the secondary field, and whenever it completes it
    reports the secondary field as set *)
Theorem no_secondary_requested frame dns1 (s : St E) :
  (exists d,
     log (snd (Index.setDnsValues_tiers frame dns1 "" s)) = log s ++ d /\
     forallb (fun c => negb (secondaryCall c)) d = true) /\
  match fst (Index.setDnsValues_tiers frame dns1 "" s) with
  | Ok (_, ok2) => ok2 = true
  | Throws _ => True
  end.
Proof.
  split.
  - assert (H : emits (fun c => negb (secondaryCall c))
                  (Index.setDnsValues_tiers (E := E) frame dns1 "")).
    { unfold Index.setDnsValues_tiers, Index.primaryByLabel, Index.setInputByLabel,
        Index.setDnsByHeuristic.
      change (Js.truthy "") with false. cbv iota.
      unfold Index.orElse.
      repeat first
        [ rewrite andb_false_r
        | apply emits_waitAndTypeFirst;
            [vm_compute; reflexivity | intros ?; reflexivity | intros ?; reflexivity]
        | emits_step_tac ]. }
    exact (H s).
  - unfold Index.setDnsValues_tiers, bind, ret. change (Js.truthy "") with false. cbv iota.
    destruct (Index.waitAndTypeFirst frame SELECTORS.primaryDns dns1 s) as [[ok1|e] s1];
      [|exact I].
    destruct ok1; cbn [negb andb orb fst]; [reflexivity|].
    destruct (Index.primaryByLabel frame dns1 s1) as [[ok1'|e] s2]; [|exact I].
    destruct ok1'; cbn [negb andb orb fst]; [reflexivity|].
    destruct (Index.setDnsByHeuristic frame dns1 "" s2) as [[h|e] s3]; [|exact I].
    reflexivity.
Qed.

End NoSecondary.

(** * Which element a script settles on *)

Module Targets.
Import Dom ScriptFacts.

(** ** The manual-mode select *)

(** a select that passes the DNS-mode test and offers a manual option *)
Definition manualSelect (e : Element) : bool :=
  Script.dnsModeSelect e &&
  match List.find Script.manualOption (options e) with Some _ => true | None => false end.

Lemma ensureManualDns_loop_find sels d :
  Script.ensureManualDns_loop sels d
  = match Script.find_node manualSelect d sels with
    | Some s =>
        match node d s with
        | Some e =>
            match List.find Script.manualOption (options e) with
            | Some o => (true, Script.setSelect s (snd o) d)
            | None => (false, d)
            end
        | None => (false, d)
        end
    | None => (false, d)
    end.
Proof.
  unfold Script.find_node, manualSelect.
  induction sels as [|s rest IH]; simpl; [reflexivity|].
  destruct (node d s) as [e|] eqn:Hs; [|exact IH].
  destruct (Script.dnsModeSelect e); simpl; [|exact IH].
  destruct (List.find Script.manualOption (options e)) as [o|] eqn:Ho; [|exact IH].
  now rewrite Hs, Ho.
Qed.

(** X20: the manual-mode script changes the first select, in document order,
    that passes the DNS-mode test and offers a manual or static option: that
    select takes the value of its first such option and receives a change
    event, and nothing else happens; without such a select the script
    returns false and the document is untouched *)
Theorem ensureManualDns_switches_first_manual_select d :
  (fst (Script.ensureManualDns d) = false /\ snd (Script.ensureManualDns d) = d /\
   forall j e, node d j = Some e -> is_tag "select" e = true -> manualSelect e = false)
  \/
  (fst (Script.ensureManualDns d) = true /\
   exists s e o,
     node d s = Some e /\ is_tag "select" e = true /\ Script.dnsModeSelect e = true /\
     List.find Script.manualOption (options e) = Some o /\
     snd (Script.ensureManualDns d) = dispatchEvent s "change" (setValue s (snd o) d) /\
     forall j e', j < s -> node d j = Some e' -> is_tag "select" e' = true ->
       manualSelect e' = false).
Proof.
  unfold Script.ensureManualDns. rewrite ensureManualDns_loop_find.
  destruct (Script.find_node manualSelect d (querySelectorAll (is_tag "select") d))
    as [s|] eqn:Hf.
  - right. destruct (find_node_first _ _ _ Hf) as (e & He & Htag & Hm & Hfirst).
    rewrite He. unfold manualSelect in Hm. apply andb_true_iff in Hm as [Hd Ho].
    destruct (List.find Script.manualOption (options e)) as [o|] eqn:Hopt; [|discriminate].
    split; [reflexivity|]. exists s, e, o. repeat split; auto.
  - left. split; [reflexivity|]. split; [reflexivity|].
    exact (find_node_none _ _ _ Hf).
Qed.

(** ** The input of a label *)











(** ** The element the reader reads *)

Lemma hd_select_from p l base i :
  hd_error (select_from p base l) = Some i ->
  exists k e, i = base + k /\ nth_error l k = Some e /\ p e = true /\
    forall k' e', k' < k -> nth_error l k' = Some e' -> p e' = false.
Proof.
  revert base; induction l as [|a l IH]; intros base H; simpl in H; [discriminate|].
  destruct (p a) eqn:Hp.
  - simpl in H. inversion H; subst i. exists 0, a. rewrite Nat.add_0_r.
    repeat split; auto. intros k' e' Hlt. lia.
  - destruct (IH _ H) as (k & e & -> & He & Hpe & Hfirst).
    exists (S k), e. split; [lia|]. split; [exact He|]. split; [exact Hpe|].
    intros [|k'] e' Hlt He'; simpl in He'.
    + now inversion He'; subst e'.
    + apply (Hfirst k' e'); auto. lia.
Qed.

Lemma hd_select_from_none p l base :
  hd_error (select_from p base l) = None ->
  forall k e, nth_error l k = Some e -> p e = false.
Proof.
  revert base; induction l as [|a l IH]; intros base H k e He.
  - destruct k; discriminate.
  - simpl in H. destruct (p a) eqn:Hp; [discriminate|].
    destruct k as [|k]; simpl in He.
    + now inversion He; subst e.
    + exact (IH _ H k e He).
Qed.

(** no element of the document matches the selector *)
Definition unmatched (d : Document) (s : Script.Selector) : Prop :=
  forall j e, node d j = Some e -> Script.matches s e = false.

(** X22: the reader reports the value of the first element, in document
    order, that matches the earliest selector of its list matching anything;
    later selectors are not consulted, even when that value is empty; when
    no selector matches it reports the empty string *)
Theorem reader_takes_first_match selArr d :
  (Script.pickValue selArr d = "" /\ Forall (unmatched d) selArr)
  \/
  (exists pre s post i e,
     selArr = pre ++ s :: post /\ Forall (unmatched d) pre /\
     node d i = Some e /\ Script.matches s e = true /\
     (forall j e', j < i -> node d j = Some e' -> Script.matches s e' = false) /\
     Script.pickValue selArr d = value e).
Proof.
  induction selArr as [|s rest IH]; simpl.
  - left. split; [reflexivity|constructor].
  - destruct (querySelector (Script.matches s) d) as [i|] eqn:Hq.
    + right. unfold querySelector, querySelectorAll in Hq.
      destruct (hd_select_from _ _ _ Hq) as (k & e & -> & He & Hm & Hfirst).
      simpl in *. change (nth_error (nodes d) k) with (node d k) in He. rewrite He.
      exists [], s, rest, k, e. rewrite orElse_empty. repeat split; auto.
    + assert (Hs : unmatched d s).
      { intros j e. exact (@hd_select_from_none _ _ _ Hq j e). }
      destruct IH as [[Hv Hall]|(pre & s' & post & i & e & -> & Hpre & He & Hm & Hf & Hv)].
      * left. split; [exact Hv|]. now constructor.
      * right. exists (s :: pre), s', post, i, e. repeat split; auto.
Qed.

End Targets.
